(** * BambooHoldSpeech: the confidential classifier and its record ledger

  A shallow embedding of [contracts/BambooHoldSpeech.sol] (the Solidity
  contract) and of [userDecryptBatch] (the client-side batch disclosure of
  the frontend), with the properties of the design document proved or
  refuted on the embedding. *)

From stdpp Require Import gmap strings list fin_maps pretty sorting.
From Stdlib Require Import ZArith Lia.

Local Open Scope Z_scope.

(* ===================================================================== *)
(** * Part I: definitions                                                 *)
(* ===================================================================== *)

(** ** Solidity value types and reverts *)

Module Solidity.

(** [address] and [uint256] are unsigned; a [uint256] is below [2^256]. *)
Abbreviation address := N (only parsing).
Abbreviation uint256 := N (only parsing).
Definition bytes := list Byte.byte.

Definition UINT256_MODULUS : N := (2 ^ 256)%N.

(** How a call can abort: [require(cond, msg)] gives [Error msg], checked
    arithmetic gives [Panic 0x11], a failing external call a custom error. *)
Inductive RevertReason :=
| Error (msg : string)
| Panic (code : N)
| CustomError (name : string).

Inductive Result (A : Type) :=
| Ok (a : A)
| Reverted (r : RevertReason).
Arguments Ok {A} a.
Arguments Reverted {A} r.

Definition isOk {A} (r : Result A) : bool :=
  match r with Ok _ => true | Reverted _ => false end.

#[export] Instance Result_fmap : FMap Result :=
  fun A B f r => match r with Ok a => Ok (f a) | Reverted e => Reverted e end.

Definition require (cond : bool) (msg : string) : Result unit :=
  if cond then Ok tt else Reverted (Error msg).

(** Checked [uint256] arithmetic of Solidity 0.8. *)
Definition checked_incr (n : uint256) : Result uint256 :=
  if (n + 1 <? UINT256_MODULUS)%N then Ok (n + 1)%N else Reverted (Panic 17).

Definition checked_sub (a b : uint256) : Result uint256 :=
  if (b <=? a)%N then Ok (a - b)%N else Reverted (Panic 17).

End Solidity.
Import Solidity.

(** ** The FHE library, as the contract uses it *)

Module FHE.

Inductive FheType := Ebool | Euint8 | Euint16 | Euint32.

Definition bitWidth (ty : FheType) : Z :=
  match ty with Ebool => 1 | Euint8 => 8 | Euint16 => 16 | Euint32 => 32 end.

(** Modelled from the spec: the ciphertext handles of the imported library
    [@fhevm/solidity/lib/FHE.sol], which is not part of the repository.  A
    handle is an opaque reference whose identity is determined by the
    operation and the operand handles that produced it, so it is embedded as
    the term of that computation.  [HNull] is the uninitialised handle
    [bytes32(0)], the value of a storage slot never written. *)
Inductive handle :=
| HNull
| HInput (id : N)
| HTrivial (ty : FheType) (v : Z)
| HMul (ty : FheType) (a b : handle)
| HAdd (ty : FheType) (a b : handle)
| HGe (a b : handle)
| HSelect (c a b : handle)
| HCast (ty : FheType) (a : handle).

Definition ebool := handle.
Definition euint8 := handle.
Definition euint16 := handle.
Definition euint32 := handle.
Definition externalEuint16 := N.

(** Modelled from the spec: the operations of [FHE.sol] that the contract
    calls.  Each yields the handle of the computation it names: trivial
    encryption of a constant, 16-bit product and sum, comparison, selection,
    and the cast of a 16-bit value to 32 bits. *)
Definition asEuint8 (v : Z) : euint8 := HTrivial Euint8 v.
Definition asEuint16 (v : Z) : euint16 := HTrivial Euint16 v.
Definition asEuint32 (a : euint16) : euint32 := HCast Euint32 a.
Definition mul (a b : euint16) : euint16 := HMul Euint16 a b.
Definition add (a b : euint16) : euint16 := HAdd Euint16 a b.
Definition ge (a b : euint16) : ebool := HGe a b.
Definition select (c : ebool) (a b : euint8) : euint8 := HSelect c a b.

Definition wrap (ty : FheType) (v : Z) : Z := v mod 2 ^ bitWidth ty.

(** Modelled from the spec: the plaintext behind a handle.  Arithmetic is
    unsigned and reduced modulo the width of the result type; [inputPlain]
    gives the 16-bit value each external ciphertext encrypts. *)
Fixpoint plain (inputPlain : N -> Z) (h : handle) : Z :=
  match h with
  | HNull => 0
  | HInput id => wrap Euint16 (inputPlain id)
  | HTrivial ty v => wrap ty v
  | HMul ty a b => wrap ty (plain inputPlain a * plain inputPlain b)
  | HAdd ty a b => wrap ty (plain inputPlain a + plain inputPlain b)
  | HGe a b => if plain inputPlain b <=? plain inputPlain a then 1 else 0
  | HSelect c a b =>
      if plain inputPlain c =? 0 then plain inputPlain b else plain inputPlain a
  | HCast ty a => wrap ty (plain inputPlain a)
  end.

(** Every arithmetic step (multiplication, addition, width cast) below a
    handle, in evaluation order: the result before reduction, and the type
    whose width it is reduced to. *)
Fixpoint arith_steps (inputPlain : N -> Z) (h : handle) : list (Z * FheType) :=
  match h with
  | HNull | HInput _ | HTrivial _ _ => []
  | HMul ty a b =>
      arith_steps inputPlain a ++ arith_steps inputPlain b
        ++ [(plain inputPlain a * plain inputPlain b, ty)]
  | HAdd ty a b =>
      arith_steps inputPlain a ++ arith_steps inputPlain b
        ++ [(plain inputPlain a + plain inputPlain b, ty)]
  | HGe a b => arith_steps inputPlain a ++ arith_steps inputPlain b
  | HSelect c a b =>
      arith_steps inputPlain c ++ arith_steps inputPlain a
        ++ arith_steps inputPlain b
  | HCast ty a => arith_steps inputPlain a ++ [(plain inputPlain a, ty)]
  end.

(** A step does not wrap when its unreduced result fits the width. *)
Definition fits (step : Z * FheType) : Prop :=
  0 <= fst step < 2 ^ bitWidth (snd step).

End FHE.
Import FHE.

(** ** The contract *)

Module BambooHoldSpeech.

(** Struct to store encrypted metrics and computed results. *)
Record MetricsRecord := {
  emotionalFluctuation : euint16;
  socialFatigue : euint16;
  sleepDebt : euint16;
  riskScore : euint32;
  cautionWindow : euint8;
  timestamp : uint256
}.

(** The value of a storage slot that was never written. *)
Definition zeroRecord : MetricsRecord :=
  {| emotionalFluctuation := HNull; socialFatigue := HNull; sleepDebt := HNull;
     riskScore := HNull; cautionWindow := HNull; timestamp := 0%N |}.

#[export] Instance MetricsRecord_inhabited : Inhabited MetricsRecord :=
  populate zeroRecord.

Inductive Event :=
| MetricsSubmitted (user : address) (timestamp recordIndex : uint256)
| CautionWindowUpdated (user : address) (timestamp : uint256).

(** The three storage mappings of the contract, the authorization ledger the
    FHE library writes to (pairs of a handle and an account allowed on it),
    and the log of emitted events, oldest first. *)
Record State := {
  userHistory : gmap N (list MetricsRecord);
  latestMetrics : gmap N MetricsRecord;
  submissionCount : gmap N N;
  acl : list (handle * N);
  events : list Event
}.

(** Reading a mapping at a key never written gives the zero value of the
    value type: the empty array, the zero record, the number 0. *)
Definition userHistoryOf (st : State) (a : address) : list MetricsRecord :=
  default [] (userHistory st !! a).

Definition latestMetricsOf (st : State) (a : address) : MetricsRecord :=
  default zeroRecord (latestMetrics st !! a).

Definition submissionCountOf (st : State) (a : address) : uint256 :=
  default 0%N (submissionCount st !! a).

Definition initial : State :=
  {| userHistory := ∅; latestMetrics := ∅; submissionCount := ∅;
     acl := []; events := [] |}.

(** [msg.sender] and [block.timestamp] of a call. *)
Record CallCtx := { msg_sender : address; block_timestamp : uint256 }.

(** Modelled from the spec: what is fixed at deployment and lies outside the
    repository: the contract's own address [address(this)] and the input
    verifier of the substrate, which decides whether [inputProof] attests an
    external handle for a given user and contract. *)
Record Deployment := {
  this : address;
  verifyCiphertext : address -> address -> externalEuint16 -> bytes -> bool
}.

(** *** State-and-revert monad of a call

    A call threads the state and may revert; a revert carries no state, so
    the caller keeps the state it had before the call. *)
Definition M (A : Type) : Type := State -> Result (A * State).

Definition ret {A} (a : A) : M A := fun st => Ok (a, st).

Definition bind {A B} (m : M A) (k : A -> M B) : M B :=
  fun st =>
    match m st with
    | Ok (a, st') => k a st'
    | Reverted r => Reverted r
    end.

Definition lift {A} (r : Result A) : M A :=
  fun st => match r with Ok a => Ok (a, st) | Reverted e => Reverted e end.

Definition gets {A} (f : State -> A) : M A := fun st => Ok (f st, st).

Definition modify (f : State -> State) : M unit := fun st => Ok (tt, f st).

Notation "'let*' x ':=' m 'in' k" := (bind m (fun x => k))
  (at level 10, x name, m at level 100, k at level 200).
Notation "m ';;' k" := (bind m (fun _ => k))
  (at level 100, k at level 200, right associativity).

(** *** Storage writes *)

Definition push_userHistory (a : address) (r : MetricsRecord) (st : State)
  : State :=
  {| userHistory := <[a := (userHistoryOf st a) ++ [r]]> (userHistory st);
     latestMetrics := latestMetrics st;
     submissionCount := submissionCount st;
     acl := acl st; events := events st |}.

Definition set_latestMetrics (a : address) (r : MetricsRecord) (st : State)
  : State :=
  {| userHistory := userHistory st;
     latestMetrics := <[a := r]> (latestMetrics st);
     submissionCount := submissionCount st;
     acl := acl st; events := events st |}.

Definition set_submissionCount (a : address) (n : uint256) (st : State)
  : State :=
  {| userHistory := userHistory st;
     latestMetrics := latestMetrics st;
     submissionCount := <[a := n]> (submissionCount st);
     acl := acl st; events := events st |}.

Definition add_grant (h : handle) (a : address) (st : State) : State :=
  {| userHistory := userHistory st;
     latestMetrics := latestMetrics st;
     submissionCount := submissionCount st;
     acl := acl st ++ [(h, a)]; events := events st |}.

Definition add_event (e : Event) (st : State) : State :=
  {| userHistory := userHistory st;
     latestMetrics := latestMetrics st;
     submissionCount := submissionCount st;
     acl := acl st; events := events st ++ [e] |}.

Definition emit (e : Event) : M unit := modify (add_event e).

(** *** The stateful entry points of the FHE library *)

(** Modelled from the spec: [FHE.fromExternal] accepts an external handle
    only with a proof the substrate verifies, and reverts otherwise. *)
Definition FHE_fromExternal (d : Deployment) (ctx : CallCtx)
    (inputHandle : externalEuint16) (inputProof : bytes) : M euint16 :=
  if verifyCiphertext d (msg_sender ctx) (this d) inputHandle inputProof
  then ret (HInput inputHandle)
  else lift (Reverted (CustomError "ProofRejected")).

(** Modelled from the spec: [FHE.allow] adds a grant to the ledger; grants
    are additive and a repeated grant changes nothing observable.  The
    ledger's own check, that the granting contract holds a right on the
    handle or has created it in the same call, is left out.
    [submitMetrics] grants only on handles it has created in the call; the
    re-authorizations grant on stored handles, and the statements about
    them are made for the states reached from deployment, in which the
    contract is shown to hold a right on every handle it has stored. *)
Definition FHE_allow (h : handle) (account : address) : M unit :=
  modify (add_grant h account).

Definition FHE_allowThis (d : Deployment) (h : handle) : M unit :=
  FHE_allow h (this d).

Definition isAllowed (st : State) (h : handle) (account : address) : Prop :=
  In (h, account) (acl st).

(** *** Risk thresholds *)

Definition MODERATE_THRESHOLD : Z := 1110.
Definition HIGH_RISK_THRESHOLD : Z := 1850.

(** *** [_calculateRiskScore] *)

Definition _calculateRiskScore (emotional social sleep : euint16)
  : euint32 * euint8 :=
  let emotionalWeighted := FHE.mul emotional (FHE.asEuint16 12) in
  let socialWeighted := FHE.mul social (FHE.asEuint16 10) in
  let sleepWeighted := FHE.mul sleep (FHE.asEuint16 15) in
  let totalWeighted := FHE.add emotionalWeighted socialWeighted in
  let totalWeighted := FHE.add totalWeighted sleepWeighted in
  let riskScore := FHE.asEuint32 totalWeighted in
  let isHighRisk := FHE.ge totalWeighted (FHE.asEuint16 HIGH_RISK_THRESHOLD) in
  let isModerateRisk := FHE.ge totalWeighted (FHE.asEuint16 MODERATE_THRESHOLD) in
  let level0 := FHE.asEuint8 0 in
  let level1 := FHE.asEuint8 1 in
  let level2 := FHE.asEuint8 2 in
  let cautionWindow := FHE.select isHighRisk level2 level1 in
  let cautionWindow := FHE.select isModerateRisk cautionWindow level0 in
  (riskScore, cautionWindow).

(** *** [submitMetrics] *)

Definition submitMetrics (d : Deployment) (ctx : CallCtx)
    (inputEmotional inputSocial inputSleep : externalEuint16)
    (inputProof : bytes) : M unit :=
  let* emotional := FHE_fromExternal d ctx inputEmotional inputProof in
  let* social := FHE_fromExternal d ctx inputSocial inputProof in
  let* sleep := FHE_fromExternal d ctx inputSleep inputProof in
  let '(riskScore, cautionWindow) := _calculateRiskScore emotional social sleep in
  let record :=
    {| emotionalFluctuation := emotional; socialFatigue := social;
       sleepDebt := sleep; riskScore := riskScore;
       cautionWindow := cautionWindow; timestamp := block_timestamp ctx |} in
  modify (push_userHistory (msg_sender ctx) record) ;;
  modify (set_latestMetrics (msg_sender ctx) record) ;;
  (let* count := gets (fun st => submissionCountOf st (msg_sender ctx)) in
   let* count' := lift (checked_incr count) in
   modify (set_submissionCount (msg_sender ctx) count')) ;;
  FHE_allow riskScore (msg_sender ctx) ;;
  FHE_allow cautionWindow (msg_sender ctx) ;;
  FHE_allow emotional (msg_sender ctx) ;;
  FHE_allow social (msg_sender ctx) ;;
  FHE_allow sleep (msg_sender ctx) ;;
  FHE_allowThis d emotional ;;
  FHE_allowThis d social ;;
  FHE_allowThis d sleep ;;
  FHE_allowThis d riskScore ;;
  FHE_allowThis d cautionWindow ;;
  FHE_allow emotional (this d) ;;
  FHE_allow social (this d) ;;
  FHE_allow sleep (this d) ;;
  FHE_allow riskScore (this d) ;;
  FHE_allow cautionWindow (this d) ;;
  (let* len :=
     gets (fun st => N.of_nat (length (userHistoryOf st (msg_sender ctx)))) in
   let* recordIndex := lift (checked_sub len 1) in
   emit (MetricsSubmitted (msg_sender ctx) (block_timestamp ctx) recordIndex)) ;;
  emit (CautionWindowUpdated (msg_sender ctx) (block_timestamp ctx)).

(** The record a successful [submitMetrics] builds from verified inputs. *)
Definition new_record (ctx : CallCtx)
    (inputEmotional inputSocial inputSleep : externalEuint16) : MetricsRecord :=
  let emotional := HInput inputEmotional in
  let social := HInput inputSocial in
  let sleep := HInput inputSleep in
  {| emotionalFluctuation := emotional; socialFatigue := social;
     sleepDebt := sleep;
     riskScore := fst (_calculateRiskScore emotional social sleep);
     cautionWindow := snd (_calculateRiskScore emotional social sleep);
     timestamp := block_timestamp ctx |}.

(** The five ciphertext handles of a record. *)
Definition record_handles (r : MetricsRecord) : list handle :=
  [emotionalFluctuation r; socialFatigue r; sleepDebt r; riskScore r;
   cautionWindow r].

(** The grants [submitMetrics] issues, in the order of the source. *)
Definition submit_grants (d : Deployment) (ctx : CallCtx) (r : MetricsRecord)
  : list (handle * N) :=
  [(riskScore r, msg_sender ctx); (cautionWindow r, msg_sender ctx);
   (emotionalFluctuation r, msg_sender ctx); (socialFatigue r, msg_sender ctx);
   (sleepDebt r, msg_sender ctx);
   (emotionalFluctuation r, this d); (socialFatigue r, this d);
   (sleepDebt r, this d); (riskScore r, this d); (cautionWindow r, this d);
   (emotionalFluctuation r, this d); (socialFatigue r, this d);
   (sleepDebt r, this d); (riskScore r, this d); (cautionWindow r, this d)].

(** Whether the substrate accepts the proof for all three inputs. *)
Definition inputs_verified (d : Deployment) (ctx : CallCtx)
    (inputEmotional inputSocial inputSleep : externalEuint16)
    (inputProof : bytes) : bool :=
  verifyCiphertext d (msg_sender ctx) (this d) inputEmotional inputProof
  && verifyCiphertext d (msg_sender ctx) (this d) inputSocial inputProof
  && verifyCiphertext d (msg_sender ctx) (this d) inputSleep inputProof.

(** The state a successful [submitMetrics] commits. *)
Definition submitted (d : Deployment) (ctx : CallCtx)
    (inputEmotional inputSocial inputSleep : externalEuint16) (st : State)
  : State :=
  let record := new_record ctx inputEmotional inputSocial inputSleep in
  let history := (userHistoryOf st (msg_sender ctx)) ++ [record] in
  {| userHistory := <[msg_sender ctx := history]> (userHistory st);
     latestMetrics := <[msg_sender ctx := record]> (latestMetrics st);
     submissionCount :=
       <[msg_sender ctx := (submissionCountOf st (msg_sender ctx) + 1)%N]>
         (submissionCount st);
     acl := acl st ++ submit_grants d ctx record;
     events :=
       events st
       ++ [MetricsSubmitted (msg_sender ctx) (block_timestamp ctx)
             (N.of_nat (length history) - 1)%N;
           CautionWindowUpdated (msg_sender ctx) (block_timestamp ctx)] |}.

(** *** Read accessors (views) *)

Definition getCautionWindow (ctx : CallCtx) (st : State) : Result euint8 :=
  match require (0 <? timestamp (latestMetricsOf st (msg_sender ctx)))%N
          "No metrics submitted yet" with
  | Reverted r => Reverted r
  | Ok _ => Ok (cautionWindow (latestMetricsOf st (msg_sender ctx)))
  end.

Definition getRiskScore (ctx : CallCtx) (st : State) : Result euint32 :=
  match require (0 <? timestamp (latestMetricsOf st (msg_sender ctx)))%N
          "No metrics submitted yet" with
  | Reverted r => Reverted r
  | Ok _ => Ok (riskScore (latestMetricsOf st (msg_sender ctx)))
  end.

Definition getLatestMetrics (ctx : CallCtx) (st : State)
  : Result (euint16 * euint16 * euint16 * uint256) :=
  match require (0 <? timestamp (latestMetricsOf st (msg_sender ctx)))%N
          "No metrics submitted yet" with
  | Reverted r => Reverted r
  | Ok _ =>
      let record := latestMetricsOf st (msg_sender ctx) in
      Ok (emotionalFluctuation record, socialFatigue record, sleepDebt record,
          timestamp record)
  end.

Definition getHistoryCount (ctx : CallCtx) (st : State) : Result uint256 :=
  Ok (N.of_nat (length (userHistoryOf st (msg_sender ctx)))).

Definition getMetricsAtIndex (ctx : CallCtx) (index : uint256) (st : State)
  : Result (euint16 * euint16 * euint16 * euint32 * euint8 * uint256) :=
  match require (index <? N.of_nat (length (userHistoryOf st (msg_sender ctx))))%N
          "Index out of bounds" with
  | Reverted r => Reverted r
  | Ok _ =>
      let record := userHistoryOf st (msg_sender ctx) !!! N.to_nat index in
      Ok (emotionalFluctuation record, socialFatigue record, sleepDebt record,
          riskScore record, cautionWindow record, timestamp record)
  end.

Definition getSummary (ctx : CallCtx) (st : State) : Result (uint256 * uint256) :=
  let totalSubmissions := submissionCountOf st (msg_sender ctx) in
  let lastTimestamp := timestamp (latestMetricsOf st (msg_sender ctx)) in
  Ok (totalSubmissions, lastTimestamp).

Definition getLastUpdateTimestamp (ctx : CallCtx) (st : State) : Result uint256 :=
  Ok (timestamp (latestMetricsOf st (msg_sender ctx))).

(** The two revert reasons the design document names. *)
Definition NoSubmission : RevertReason := Error "No metrics submitted yet".
Definition IndexOutOfBounds : RevertReason := Error "Index out of bounds".

(** *** Re-authorization *)

(** The ten grants issued for one record: five to the caller, then five to
    the contract, in the order of the source. *)
Definition allow_record (d : Deployment) (ctx : CallCtx) (record : MetricsRecord)
  : M unit :=
  FHE_allow (emotionalFluctuation record) (msg_sender ctx) ;;
  FHE_allow (socialFatigue record) (msg_sender ctx) ;;
  FHE_allow (sleepDebt record) (msg_sender ctx) ;;
  FHE_allow (riskScore record) (msg_sender ctx) ;;
  FHE_allow (cautionWindow record) (msg_sender ctx) ;;
  FHE_allow (emotionalFluctuation record) (this d) ;;
  FHE_allow (socialFatigue record) (this d) ;;
  FHE_allow (sleepDebt record) (this d) ;;
  FHE_allow (riskScore record) (this d) ;;
  FHE_allow (cautionWindow record) (this d).

Definition reauthorizeRecord (d : Deployment) (ctx : CallCtx) (index : uint256)
  : M unit :=
  let* len :=
    gets (fun st => N.of_nat (length (userHistoryOf st (msg_sender ctx)))) in
  lift (require (index <? len)%N "Index out of bounds") ;;
  (let* record :=
     gets (fun st => userHistoryOf st (msg_sender ctx) !!! N.to_nat index) in
   allow_record d ctx record) ;;
  let* last := lift (checked_sub len 1) in
  if (index =? last)%N
  then
    let* latest := gets (fun st => latestMetricsOf st (msg_sender ctx)) in
    allow_record d ctx latest
  else ret tt.

(** The body of the [for] loop of [reauthorizeAllRecords], run for the
    indices [i, i+1, ..., i+n-1]. *)
Fixpoint reauthorize_loop (d : Deployment) (ctx : CallCtx) (n : nat) (i : nat)
  : M unit :=
  match n with
  | O => ret tt
  | S n' =>
      (let* record := gets (fun st => userHistoryOf st (msg_sender ctx) !!! i) in
       allow_record d ctx record) ;;
      reauthorize_loop d ctx n' (S i)
  end.

Definition reauthorizeAllRecords (d : Deployment) (ctx : CallCtx) : M unit :=
  let* count := gets (fun st => length (userHistoryOf st (msg_sender ctx))) in
  reauthorize_loop d ctx count 0%nat ;;
  if (0 <? N.of_nat count)%N
  then
    let* latest := gets (fun st => latestMetricsOf st (msg_sender ctx)) in
    allow_record d ctx latest
  else ret tt.

(** *** Transactions and traces *)

(** The state-changing calls of the contract's interface. *)
Inductive Call :=
| CallSubmitMetrics
    (inputEmotional inputSocial inputSleep : externalEuint16) (inputProof : bytes)
| CallReauthorizeRecord (index : uint256)
| CallReauthorizeAllRecords.

Record Tx := { tx_ctx : CallCtx; tx_call : Call }.

Definition dispatch (d : Deployment) (tx : Tx) : M unit :=
  match tx_call tx with
  | CallSubmitMetrics e s p proof => submitMetrics d (tx_ctx tx) e s p proof
  | CallReauthorizeRecord index => reauthorizeRecord d (tx_ctx tx) index
  | CallReauthorizeAllRecords => reauthorizeAllRecords d (tx_ctx tx)
  end.

(** A transaction either commits the state its call produced or, when the
    call reverts, leaves the state as it was. *)
Definition execute (d : Deployment) (tx : Tx) (st : State) : State :=
  match dispatch d tx st with
  | Ok (_, st') => st'
  | Reverted _ => st
  end.

Definition run (d : Deployment) (txs : list Tx) (st : State) : State :=
  fold_left (fun s tx => execute d tx s) txs st.

(** Blocks carry a positive Unix time that fits a [uint256]. *)
Definition valid_tx (tx : Tx) : Prop :=
  (0 < block_timestamp (tx_ctx tx) < UINT256_MODULUS)%N.

Definition is_submit_by (p : address) (tx : Tx) : bool :=
  match tx_call tx with
  | CallSubmitMetrics _ _ _ _ => (msg_sender (tx_ctx tx) =? p)%N
  | _ => false
  end.

(** How many transactions of a trace, run from [st], are calls of
    [submitMetrics] by [p] that did not revert. *)
Fixpoint successful_submits (d : Deployment) (p : address) (txs : list Tx)
    (st : State) : nat :=
  match txs with
  | [] => 0%nat
  | tx :: rest =>
      ((if is_submit_by p tx && isOk (dispatch d tx st) then 1 else 0)
       + successful_submits d p rest (execute d tx st))%nat
  end.

(** Two states agree on the contract's storage and on the event log; only
    the authorization ledger may differ. *)
Definition same_storage (st st' : State) : Prop :=
  userHistory st' = userHistory st
  /\ latestMetrics st' = latestMetrics st
  /\ submissionCount st' = submissionCount st
  /\ events st' = events st.

(** A computation that, when it returns, has at most added grants, each to
    an account satisfying [who]. *)
Definition grants_only {A} (who : address -> Prop) (m : M A) : Prop :=
  forall st a st', m st = Ok (a, st') ->
    same_storage st st'
    /\ exists gs, acl st' = acl st ++ gs /\ Forall (fun g => who (snd g)) gs.

(** The accounts a call may grant to: its sender and the contract itself. *)
Definition caller_or_contract (d : Deployment) (ctx : CallCtx) (a : address)
  : Prop :=
  a = msg_sender ctx \/ a = this d.

(** The three accessors of the latest record all revert with [reason]. *)
Definition latest_accessors_revert (reason : RevertReason) (ctx : CallCtx)
    (st : State) : Prop :=
  getLatestMetrics ctx st = Reverted reason
  /\ getRiskScore ctx st = Reverted reason
  /\ getCautionWindow ctx st = Reverted reason.

(** The three accessors of the latest record all return, with the fields of
    [record]. *)
Definition latest_accessors_return (record : MetricsRecord) (ctx : CallCtx)
    (st : State) : Prop :=
  getLatestMetrics ctx st
  = Ok (emotionalFluctuation record, socialFatigue record, sleepDebt record,
        timestamp record)
  /\ getRiskScore ctx st = Ok (riskScore record)
  /\ getCautionWindow ctx st = Ok (cautionWindow record).

(** What [getMetricsAtIndex] returns for a record. *)
Definition record_fields (record : MetricsRecord)
  : euint16 * euint16 * euint16 * euint32 * euint8 * uint256 :=
  (emotionalFluctuation record, socialFatigue record, sleepDebt record,
   riskScore record, cautionWindow record, timestamp record).

(** With an empty history the latest record is the never-written slot. *)
Definition latest_absent_if_empty (st : State) (p : address) : Prop :=
  userHistoryOf st p = [] -> latestMetricsOf st p = zeroRecord.

(** With a non-empty history the latest record carries a positive time. *)
Definition latest_stamped (st : State) (p : address) : Prop :=
  userHistoryOf st p <> [] -> (0 < timestamp (latestMetricsOf st p))%N.

(** The invariant of the record ledger for one principal. *)
Definition ledger_invariant (st : State) (p : address) : Prop :=
  submissionCountOf st p = N.of_nat (length (userHistoryOf st p))
  /\ (userHistoryOf st p <> [] ->
      last (userHistoryOf st p) = Some (latestMetricsOf st p)).

(** *** Re-authorization, events and traces: what the statements below need *)

(** The ten grants [allow_record] issues for a record, in order. *)
Definition record_grants (d : Deployment) (ctx : CallCtx) (r : MetricsRecord)
  : list (handle * N) :=
  [(emotionalFluctuation r, msg_sender ctx); (socialFatigue r, msg_sender ctx);
   (sleepDebt r, msg_sender ctx); (riskScore r, msg_sender ctx);
   (cautionWindow r, msg_sender ctx);
   (emotionalFluctuation r, this d); (socialFatigue r, this d);
   (sleepDebt r, this d); (riskScore r, this d); (cautionWindow r, this d)].

(** The state with grants appended to the authorization ledger. *)
Definition with_grants (gs : list (handle * N)) (st : State) : State :=
  {| userHistory := userHistory st;
     latestMetrics := latestMetrics st;
     submissionCount := submissionCount st;
     acl := acl st ++ gs; events := events st |}.

(** The indexed topic of an event. *)
Definition event_user (e : Event) : address :=
  match e with
  | MetricsSubmitted user _ _ => user
  | CautionWindowUpdated user _ => user
  end.

(** The events of a log that are indexed by [p], in emission order. *)
Definition events_of (p : address) (log : list Event) : list Event :=
  List.filter (fun e => (event_user e =? p)%N) log.

(** The two events each record of a history stands for, with its position. *)
Definition history_events (p : address) (history : list MetricsRecord)
  : list Event :=
  concat (imap (fun i r => [MetricsSubmitted p (timestamp r) (N.of_nat i);
                            CautionWindowUpdated p (timestamp r)]) history).

(** Every handle of every stored record of [p] is granted to [p] and to the
    contract. *)
Definition stored_handles_granted (d : Deployment) (st : State) (p : address)
  : Prop :=
  forall r h, In r (userHistoryOf st p) -> In h (record_handles r) ->
    isAllowed st h p /\ isAllowed st h (this d).

(** A stored record was built by [submitMetrics]: its inputs are verified
    external handles and its score and tier are the classifier's handles
    for them. *)
Definition built_by_submit (d : Deployment) (p : address) (r : MetricsRecord)
  : Prop :=
  exists ctx inputEmotional inputSocial inputSleep inputProof,
    msg_sender ctx = p
    /\ inputs_verified d ctx inputEmotional inputSocial inputSleep inputProof
       = true
    /\ r = new_record ctx inputEmotional inputSocial inputSleep.

(** The block times of a trace, and its senders. *)
Definition block_times (txs : list Tx) : list N :=
  map (fun tx => block_timestamp (tx_ctx tx)) txs.

Definition senders (txs : list Tx) : list address :=
  map (fun tx => msg_sender (tx_ctx tx)) txs.

End BambooHoldSpeech.

(** ** A concrete deployment and trace, for the examples *)

Module Sample.
Import BambooHoldSpeech.

(** A substrate that accepts every proof; the contract lives at 4096. *)
Definition deployment : Deployment :=
  {| this := 4096%N; verifyCiphertext := fun _ _ _ _ => true |}.

(** Principal 1 at Unix time 1700000000, and principal 2 a little later. *)
Definition alice : CallCtx :=
  {| msg_sender := 1%N; block_timestamp := 1700000000%N |}.
Definition bob : CallCtx :=
  {| msg_sender := 2%N; block_timestamp := 1700000060%N |}.

(** Alice submits the external ciphertexts 10, 11 and 12. *)
Definition alice_submits : Tx :=
  {| tx_ctx := alice; tx_call := CallSubmitMetrics 10%N 11%N 12%N [] |}.

(** The plaintexts behind external ciphertexts: 10 encrypts 2, 11 encrypts
    50, 12 encrypts 39, everything else 0. *)
Definition inputPlain (id : N) : Z :=
  if (id =? 10)%N then 2
  else if (id =? 11)%N then 50
  else if (id =? 12)%N then 39
  else 0.

(** Alice submits again a minute later, Bob submits in between, and Alice
    re-authorizes her records. *)
Definition alice_later : CallCtx :=
  {| msg_sender := 1%N; block_timestamp := 1700000120%N |}.

Definition bob_submits : Tx :=
  {| tx_ctx := bob; tx_call := CallSubmitMetrics 20%N 21%N 22%N [] |}.

Definition alice_submits_again : Tx :=
  {| tx_ctx := alice_later; tx_call := CallSubmitMetrics 13%N 14%N 15%N [] |}.

Definition alice_reauthorizes : Tx :=
  {| tx_ctx := alice_later; tx_call := CallReauthorizeAllRecords |}.

Definition busy_trace : list Tx :=
  [alice_submits; bob_submits; alice_submits_again; alice_reauthorizes].

End Sample.

(** ** The client-side batch disclosure ([userDecryptBatch]) *)

Module Disclosure.

(** How an asynchronous step ends: the promise resolves or it rejects. *)
Inductive Outcome (A : Type) :=
| Returned (a : A)
| Thrown (msg : string).
Arguments Returned {A} a.
Arguments Thrown {A} msg.

(** A handle argument is [string | bigint]; the code only ever uses its
    [toString()]. *)
Inductive Handle :=
| HandleString (s : string)
| HandleBigint (n : Z).

Definition toString (h : Handle) : string :=
  match h with
  | HandleString s => s
  | HandleBigint n => pretty n
  end.

Record Keypair := { publicKey : string; privateKey : string }.

Record EIP712 := {
  domain : string;
  types_UserDecryptRequestVerification : string;
  message : string
}.

(** The oracle resolves to [bigint | Record<string, bigint>]. *)
Inductive DecryptResult :=
| ResultBigint (n : Z)
| ResultRecord (r : gmap string Z).

(** The methods of [FhevmInstance] the batch uses; [generateKeypair] and
    [createEIP712] are optional members of the interface. *)
Record FhevmInstance := {
  generateKeypair : option (Outcome Keypair);
  createEIP712 :
    option (string -> list string -> Z -> Z -> Outcome EIP712);
  userDecrypt :
    list (string * string) -> string -> string -> string -> list string ->
    string -> Z -> Z -> Outcome DecryptResult
}.

(** The wallet: [signer.signTypedData(domain, types, message)]. *)
Record Signer := { signTypedData : string -> string -> string -> Outcome string }.

(** What the callback closes over, and what it takes from the JavaScript
    engine: the clock, and the wording of the [SyntaxError] that [BigInt]
    throws when it is given the member of [Object.prototype] of a given
    name (a function, or for [__proto__] the prototype itself), which the
    language leaves to the engine. *)
Record Context := {
  fhevmInstance : option FhevmInstance;
  account : option string;
  Date_now : Z;
  BigInt_SyntaxError : string -> string
}.

(** The interactions of a run with its collaborators, oldest first. *)
Inductive Action :=
| ActGenerateKeypair
| ActCreateEIP712 (publicKey : string) (contractAddresses : list string)
    (startTimestamp durationDays : Z)
| ActSignTypedData (domain types message : string)
| ActUserDecrypt (pairs : list (string * string))
    (privateKey publicKey signature : string) (contractAddresses : list string)
    (userAddress : string) (startTimestamp durationDays : Z).

(** A run yields an outcome and the interactions it made, which remain made
    when the run throws. *)
Definition D (A : Type) : Type := list Action -> Outcome A * list Action.

Definition dret {A} (a : A) : D A := fun log => (Returned a, log).

Definition throw {A} (msg : string) : D A := fun log => (Thrown msg, log).

Definition dbind {A B} (m : D A) (k : A -> D B) : D B :=
  fun log =>
    match m log with
    | (Returned a, log') => k a log'
    | (Thrown msg, log') => (Thrown msg, log')
    end.

(** Performing an external call records it, then yields what it answered. *)
Definition call {A} (act : Action) (answer : Outcome A) : D A :=
  fun log => (answer, log ++ [act]).

Notation "'await' x ':=' m 'in' k" := (dbind m (fun x => k))
  (at level 10, x name, m at level 100, k at level 200).

(** JavaScript truthiness of a [string | null]. *)
Definition truthy (s : option string) : bool :=
  match s with
  | None => false
  | Some s => negb (String.eqb s "")
  end.

(** [String.prototype.length] counts UTF-16 code units.  A string is held
    here as its UTF-8 bytes: a byte below 0x80 and the lead byte of a two- or
    three-byte character stand for one unit, the lead byte of a four-byte
    character for the two units of a surrogate pair, a continuation byte
    (0x80 to 0xBF) for none. *)
Definition utf16_units (b : Ascii.ascii) : nat :=
  let n := Ascii.nat_of_ascii b in
  if (n <? 128)%nat then 1%nat
  else if (n <? 192)%nat then 0%nat
  else if (n <? 240)%nat then 1%nat
  else 2%nat.

Fixpoint utf16_length (s : string) : nat :=
  match s with
  | EmptyString => 0%nat
  | String b rest => (utf16_units b + utf16_length rest)%nat
  end.

(** The oracle's record is an ordinary object: besides its own entries, a
    property read on it finds the members every object inherits from
    [Object.prototype]. *)
Definition Object_prototype : list string :=
  ["constructor"; "hasOwnProperty"; "isPrototypeOf"; "propertyIsEnumerable";
   "toLocaleString"; "toString"; "valueOf"; "__proto__"; "__defineGetter__";
   "__defineSetter__"; "__lookupGetter__"; "__lookupSetter__"].

Definition inherited (key : string) : bool :=
  existsb (String.eqb key) Object_prototype.

(** What [result[key]] evaluates to. *)
Inductive Property :=
| Undefined
| OwnEntry (value : Z)
| InheritedMember (name : string).

Definition property (result : gmap string Z) (key : string) : Property :=
  match result !! key with
  | Some value => OwnEntry value
  | None => if inherited key then InheritedMember key else Undefined
  end.

(** The extraction loop: [for (const handle of handles) { ... push ... }].
    [BigInt] is the identity on an own entry, a [bigint], and throws on an
    inherited member. *)
Fixpoint extract (c : Context) (result : gmap string Z) (handles : list Handle)
    (decryptedValues : list Z) : Outcome (list Z) :=
  match handles with
  | [] => Returned decryptedValues
  | handle :: rest =>
      let handleStr := toString handle in
      match property result handleStr with
      | Undefined => Thrown ("Failed to decrypt handle " ++ handleStr)
      | OwnEntry decryptedValue =>
          extract c result rest (decryptedValues ++ [decryptedValue])
      | InheritedMember name => Thrown (BigInt_SyntaxError c name)
      end
  end.

Definition userDecryptBatch (c : Context) (handles : list Handle)
    (contractAddress : string) (signer : Signer) : D (list Z) :=
  match fhevmInstance c with
  | None => throw "FHEVM instance not initialized"
  | Some inst =>
  match account c with
  | None => throw "No account connected"
  | Some acct =>
  if negb (truthy (Some acct)) then throw "No account connected"
  else if (length handles =? 0)%nat then dret []
  else if negb (truthy (Some contractAddress))
  then throw ("Invalid contractAddress: " ++ contractAddress)
  else if negb (String.prefix "0x" contractAddress)
          || negb (utf16_length contractAddress =? 42)%nat
  then throw ("Invalid contractAddress format: " ++ contractAddress)
  else
  match generateKeypair inst, createEIP712 inst with
  | Some generateKeypair, Some createEIP712 =>
      await kp := call ActGenerateKeypair generateKeypair in
      let startTimestamp := Date_now c / 1000 in
      let durationDays := 365 in
      let contractAddresses := [contractAddress] in
      await eip712 :=
        call (ActCreateEIP712 (publicKey kp) contractAddresses startTimestamp
                durationDays)
             (createEIP712 (publicKey kp) contractAddresses startTimestamp
                durationDays) in
      await signature :=
        call (ActSignTypedData (domain eip712)
                (types_UserDecryptRequestVerification eip712) (message eip712))
             (signTypedData signer (domain eip712)
                (types_UserDecryptRequestVerification eip712) (message eip712)) in
      let handleContractPairs :=
        map (fun handle => (toString handle, contractAddress)) handles in
      await result :=
        call (ActUserDecrypt handleContractPairs (privateKey kp) (publicKey kp)
                signature contractAddresses acct startTimestamp durationDays)
             (userDecrypt inst handleContractPairs (privateKey kp) (publicKey kp)
                signature contractAddresses acct startTimestamp durationDays) in
      match result with
      | ResultBigint _ => throw "Unexpected result type: bigint"
      | ResultRecord r => fun log => (extract c r handles [], log)
      end
  | _, _ => throw "generateKeypair or createEIP712 not available on FHEVM instance"
  end
  end
  end.

(** The number of signatures a run asked the wallet for. *)
Definition is_signature_request (a : Action) : bool :=
  match a with ActSignTypedData _ _ _ => true | _ => false end.

Definition signatures_requested (log : list Action) : nat :=
  length (List.filter is_signature_request log).

(** The guards that precede the first interaction of a non-empty batch. *)
Definition checks_pass (c : Context) (contractAddress : string) : bool :=
  match fhevmInstance c with
  | None => false
  | Some inst =>
      truthy (account c)
      && String.prefix "0x" contractAddress
      && (utf16_length contractAddress =? 42)%nat
      && match generateKeypair inst, createEIP712 inst with
         | Some _, Some _ => true
         | _, _ => false
         end
  end.

(** A wallet and an oracle for the examples: the wallet signs, the oracle
    knows the plaintexts of five handles. *)
Definition sample_signer : Signer :=
  {| signTypedData := fun _ _ _ => Returned "signature" |}.

Definition sample_plaintexts : gmap string Z :=
  <["0xe1" := 45]> (<["0xe2" := 30]> (<["0xe3" := 50]>
    (<["0xe4" := 1590]> (<["0xe5" := 1]> ∅)))).

Definition sample_instance : FhevmInstance :=
  {| generateKeypair := Some (Returned {| publicKey := "pk"; privateKey := "sk" |});
     createEIP712 := Some (fun _ _ _ _ =>
       Returned {| domain := "domain";
                   types_UserDecryptRequestVerification := "types";
                   message := "message" |});
     userDecrypt := fun _ _ _ _ _ _ _ _ =>
       Returned (ResultRecord sample_plaintexts) |}.

Definition sample_BigInt_SyntaxError (name : string) : string :=
  ("Cannot convert the inherited member " ++ name ++ " to a BigInt")%string.

Definition sample_context : Context :=
  {| fhevmInstance := Some sample_instance;
     account := Some "0xA11CE";
     Date_now := 1700000000123;
     BigInt_SyntaxError := sample_BigInt_SyntaxError |}.

Definition sample_contract : string :=
  "0x5FbDB2315678afecb367f032d93F642f64180aa3".

Definition sample_handles : list Handle :=
  [HandleString "0xe1"; HandleString "0xe2"; HandleString "0xe3";
   HandleString "0xe4"; HandleString "0xe5"].

(** Contract addresses outside ASCII, for the examples: the letter e with
    an acute accent takes two bytes in UTF-8 and one UTF-16 code unit. *)
Definition e_acute : string :=
  String (Ascii.ascii_of_nat 195) (String (Ascii.ascii_of_nat 169) "").

Definition address_of_42_units : string :=
  ("0x" ++ e_acute ++ String.concat "" (replicate 39 "a"))%string.

Definition address_of_42_bytes : string :=
  ("0x" ++ String.concat "" (replicate 20 e_acute))%string.

(** An oracle that answers with the empty object. *)
Definition empty_answer_instance : FhevmInstance :=
  {| generateKeypair := generateKeypair sample_instance;
     createEIP712 := createEIP712 sample_instance;
     userDecrypt := fun _ _ _ _ _ _ _ _ => Returned (ResultRecord ∅) |}.

Definition empty_answer_context : Context :=
  {| fhevmInstance := Some empty_answer_instance;
     account := Some "0xA11CE";
     Date_now := 1700000000123;
     BigInt_SyntaxError := sample_BigInt_SyntaxError |}.

(** A context in which no FHEVM instance has been initialised. *)
Definition uninitialised_context : Context :=
  {| fhevmInstance := None;
     account := Some "0xA11CE";
     Date_now := 1700000000123;
     BigInt_SyntaxError := sample_BigInt_SyntaxError |}.

(** *** [userDecrypt]: the disclosure of a single handle

    The callback of the provider, in a module of its own because the
    instance has a method of the same name. *)

Module Provider.

Definition userDecrypt (c : Context) (handle : Handle)
    (contractAddress : string) (signer : Signer) : D Z :=
  match fhevmInstance c with
  | None => throw "FHEVM instance not initialized"
  | Some inst =>
  match account c with
  | None => throw "No account connected"
  | Some acct =>
  if negb (truthy (Some acct)) then throw "No account connected"
  else
  match generateKeypair inst with
  | None => throw "generateKeypair not available on FHEVM instance"
  | Some generateKeypair =>
      await kp := call ActGenerateKeypair generateKeypair in
      let startTimestamp := Date_now c / 1000 in
      let durationDays := 365 in
      let contractAddresses := [contractAddress] in
      match createEIP712 inst with
      | None => throw "createEIP712 not available on FHEVM instance"
      | Some createEIP712 =>
          await eip712 :=
            call (ActCreateEIP712 (publicKey kp) contractAddresses
                    startTimestamp durationDays)
                 (createEIP712 (publicKey kp) contractAddresses startTimestamp
                    durationDays) in
          await signature :=
            call (ActSignTypedData (domain eip712)
                    (types_UserDecryptRequestVerification eip712)
                    (message eip712))
                 (signTypedData signer (domain eip712)
                    (types_UserDecryptRequestVerification eip712)
                    (message eip712)) in
          await result :=
            call (ActUserDecrypt [(toString handle, contractAddress)]
                    (privateKey kp) (publicKey kp) signature contractAddresses
                    acct startTimestamp durationDays)
                 (userDecrypt inst [(toString handle, contractAddress)]
                    (privateKey kp) (publicKey kp) signature contractAddresses
                    acct startTimestamp durationDays) in
          let handleStr := toString handle in
          match result with
          | ResultBigint _ => throw "Unexpected result type: bigint"
          | ResultRecord r =>
              match property r handleStr with
              | Undefined => throw "Failed to decrypt handle"
              | OwnEntry decryptedValue => dret decryptedValue
              | InheritedMember name => throw (BigInt_SyntaxError c name)
              end
          end
      end
  end
  end
  end.

End Provider.

(** The oracle requests among the interactions of a run. *)
Definition is_oracle_request (a : Action) : bool :=
  match a with ActUserDecrypt _ _ _ _ _ _ _ _ => true | _ => false end.

(** *** The signature cache over [localStorage] *)

(** [localStorage] as a finite map from keys to values: [getItem] is lookup,
    [setItem] is insertion, [removeItem] is deletion, and [key(i)] for
    [i < length] enumerates the keys of the map.  The storage quota is not
    modelled. *)
Definition localStorage_keys (ls : gmap string string) : list string :=
  map fst (map_to_list ls).

Definition SIGNATURE_CACHE_PREFIX : string := "fhevm.decryptionSignature".

Module FhevmDecryptionSignature.
Section Cache.

(** [String.prototype.toLowerCase], a built-in the cache relies on. *)
Variable toLowerCase : string -> string.

(** The template [`${SIGNATURE_CACHE_PREFIX}.${account.toLowerCase()}`]. *)
Definition key_of (account : string) : string :=
  (SIGNATURE_CACHE_PREFIX ++ "." ++ toLowerCase account)%string.

Definition get (ls : gmap string string) (account : string) : option string :=
  if negb (truthy (Some account)) then None
  else ls !! key_of account.

Definition set (ls : gmap string string) (account signature : string)
  : gmap string string :=
  if negb (truthy (Some account)) || negb (truthy (Some signature)) then ls
  else <[key_of account := signature]> ls.

Definition clear (ls : gmap string string) (account : string)
  : gmap string string :=
  if negb (truthy (Some account)) then ls
  else delete (key_of account) ls.

(** The keys are collected first and removed afterwards. *)
Definition clearAll (ls : gmap string string) : gmap string string :=
  let keys :=
    fold_left
      (fun keys key =>
         if String.prefix SIGNATURE_CACHE_PREFIX key then keys ++ [key]
         else keys)
      (localStorage_keys ls) [] in
  fold_left (fun ls key => delete key ls) keys ls.

(** [clearSignature] of the provider: with a contract address it clears the
    entry of the composite key [`${accountAddress}:${contractAddr}`]. *)
Definition clearSignature (ls : gmap string string) (accountAddress : string)
    (contractAddr : option string) : gmap string string :=
  if truthy contractAddr
  then
    let cacheKey := (accountAddress ++ ":" ++ default "" contractAddr)%string in
    clear ls cacheKey
  else clear ls accountAddress.

End Cache.
End FhevmDecryptionSignature.

(** *** [decryptRecord]: the hook's disclosure of one history record *)

(** The record [getMetricsAtIndex] hands to the hook. *)
Record HistoryRecord := {
  emotional : Handle;
  social : Handle;
  sleep : Handle;
  riskScore : Handle;
  cautionWindow : Handle;
  timestamp : Z
}.

(** [ethersProvider.getSigner()]. *)
Record EthersProvider := { getSigner : Outcome Signer }.

Section Hook.

(** JavaScript numbers stay abstract: [Number] is the conversion of a
    [bigint], [NaN] what [Number(undefined)] gives. *)
Variable number : Type.
Variable Number : Z -> number.
Variable NaN : number.

Record DecryptedRecord := {
  decrypted_emotional : number;
  decrypted_social : number;
  decrypted_sleep : number;
  decrypted_riskScore : number;
  decrypted_cautionWindow : number;
  decrypted_timestamp : number
}.

(** [Number(values[i])] after array destructuring. *)
Definition Number_at (values : list Z) (i : nat) : number :=
  match values !! i with
  | Some v => Number v
  | None => NaN
  end.

Definition decryptRecord (c : Context) (contractAddress : option string)
    (ethersProvider : option EthersProvider) (record : HistoryRecord)
  : D DecryptedRecord :=
  match contractAddress, ethersProvider with
  | Some contractAddress, Some ethersProvider =>
      if negb (truthy (Some contractAddress))
      then throw "Contract not initialized"
      else
        await signer := (fun log => (getSigner ethersProvider, log)) in
        let handles :=
          [emotional record; social record; sleep record; riskScore record;
           cautionWindow record] in
        await values := userDecryptBatch c handles contractAddress signer in
        dret {| decrypted_emotional := Number_at values 0;
                decrypted_social := Number_at values 1;
                decrypted_sleep := Number_at values 2;
                decrypted_riskScore := Number_at values 3;
                decrypted_cautionWindow := Number_at values 4;
                decrypted_timestamp := Number (timestamp record) |}
  | _, _ => throw "Contract not initialized"
  end.

End Hook.

(** Lower-casing of the ASCII letters, for the examples. *)
Definition ascii_lower (a : Ascii.ascii) : Ascii.ascii :=
  let n := Ascii.nat_of_ascii a in
  if ((65 <=? n) && (n <=? 90))%nat then Ascii.ascii_of_nat (n + 32) else a.

Fixpoint ascii_toLowerCase (s : string) : string :=
  match s with
  | EmptyString => EmptyString
  | String a rest => String (ascii_lower a) (ascii_toLowerCase rest)
  end.

(** A record whose five handles the sample oracle knows. *)
Definition sample_record : HistoryRecord :=
  {| emotional := HandleString "0xe1"; social := HandleString "0xe2";
     sleep := HandleString "0xe3"; riskScore := HandleString "0xe4";
     cautionWindow := HandleString "0xe5"; timestamp := 1700000000 |}.

End Disclosure.

(* ===================================================================== *)
(** * Part II: properties                                                 *)
(* ===================================================================== *)

(** ** The classifier *)

Section Classifier.
Import BambooHoldSpeech.
Variable inputPlain : N -> Z.
Local Abbreviation plain := (FHE.plain inputPlain).

Lemma wrap_small ty v : 0 <= v < 2 ^ bitWidth ty -> wrap ty v = v.
Proof. intros H. unfold wrap. apply Z.mod_small. exact H. Qed.

Lemma plain_totalWeighted (e s p : euint16) :
  0 <= plain e <= 100 -> 0 <= plain s <= 100 -> 0 <= plain p <= 100 ->
  plain (FHE.add (FHE.add (FHE.mul e (FHE.asEuint16 12))
                          (FHE.mul s (FHE.asEuint16 10)))
                 (FHE.mul p (FHE.asEuint16 15)))
  = 12 * plain e + 10 * plain s + 15 * plain p.
Proof.
  intros He Hs Hp. unfold FHE.add, FHE.mul, FHE.asEuint16. cbn [FHE.plain].
  rewrite (wrap_small Euint16 12), (wrap_small Euint16 10),
    (wrap_small Euint16 15) by (cbn; lia).
  rewrite (wrap_small Euint16 (plain e * 12)) by (cbn; lia).
  rewrite (wrap_small Euint16 (plain s * 10)) by (cbn; lia).
  rewrite (wrap_small Euint16 (plain p * 15)) by (cbn; lia).
  rewrite (wrap_small Euint16 (plain e * 12 + plain s * 10)) by (cbn; lia).
  rewrite wrap_small by (cbn; lia). lia.
Qed.

Lemma plain_score (e s p : euint16) :
  0 <= plain e <= 100 -> 0 <= plain s <= 100 -> 0 <= plain p <= 100 ->
  plain (fst (_calculateRiskScore e s p))
  = 12 * plain e + 10 * plain s + 15 * plain p.
Proof.
  intros He Hs Hp. cbn [_calculateRiskScore fst]. unfold FHE.asEuint32.
  cbn [FHE.plain]. rewrite plain_totalWeighted by assumption.
  apply wrap_small. cbn. lia.
Qed.

Lemma plain_select_tier (t : euint16) :
  plain (FHE.select (FHE.ge t (FHE.asEuint16 MODERATE_THRESHOLD))
           (FHE.select (FHE.ge t (FHE.asEuint16 HIGH_RISK_THRESHOLD))
              (FHE.asEuint8 2) (FHE.asEuint8 1))
           (FHE.asEuint8 0))
  = if 1850 <=? plain t then 2 else if 1110 <=? plain t then 1 else 0.
Proof.
  unfold FHE.select, FHE.ge, FHE.asEuint16, FHE.asEuint8.
  cbn [FHE.plain]. generalize (plain t); intros v.
  change (wrap Euint16 HIGH_RISK_THRESHOLD) with 1850.
  change (wrap Euint16 MODERATE_THRESHOLD) with 1110.
  change (wrap Euint8 0) with 0.
  change (wrap Euint8 1) with 1.
  change (wrap Euint8 2) with 2.
  destruct (1850 <=? v) eqn:Hhigh, (1110 <=? v) eqn:Hmod;
    cbn; try reflexivity.
  apply Z.leb_le in Hhigh. apply Z.leb_gt in Hmod. lia.
Qed.

Lemma plain_tier_cases (e s p : euint16) :
  let total16 := plain (FHE.add (FHE.add (FHE.mul e (FHE.asEuint16 12))
                                         (FHE.mul s (FHE.asEuint16 10)))
                                (FHE.mul p (FHE.asEuint16 15))) in
  plain (snd (_calculateRiskScore e s p))
  = if 1850 <=? total16 then 2 else if 1110 <=? total16 then 1 else 0.
Proof.
  intros total16. cbn [_calculateRiskScore snd].
  apply plain_select_tier.
Qed.

Lemma plain_tier (e s p : euint16) :
  0 <= plain e <= 100 -> 0 <= plain s <= 100 -> 0 <= plain p <= 100 ->
  let total := 12 * plain e + 10 * plain s + 15 * plain p in
  plain (snd (_calculateRiskScore e s p))
  = if 1850 <=? total then 2 else if 1110 <=? total then 1 else 0.
Proof.
  intros He Hs Hp total. rewrite plain_tier_cases. cbv zeta.
  rewrite plain_totalWeighted by assumption. reflexivity.
Qed.

(** C9. Whatever the three inputs are, also outside [0,100] where the 16-bit
    sum wraps, the tier the classifier produces decrypts to 0, 1 or 2. *)
Theorem C9_tier_is_0_1_or_2 (e s p : euint16) :
  plain (snd (_calculateRiskScore e s p)) = 0
  \/ plain (snd (_calculateRiskScore e s p)) = 1
  \/ plain (snd (_calculateRiskScore e s p)) = 2.
Proof.
  rewrite plain_tier_cases. cbv zeta.
  destruct (1850 <=? _); [auto |]. destruct (1110 <=? _); auto.
Qed.

(** C7. For inputs in [0,100] no arithmetic step of the classifier wraps:
    the three 16-bit products, the two 16-bit sums and the cast to 32 bits
    each have an unreduced result of at most 3700, which fits the width of
    the step, and the stored score is the exact weighted sum. *)
Theorem C7_no_step_wraps (inputEmotional inputSocial inputSleep : externalEuint16) :
  let e := plain (HInput inputEmotional) in
  let s := plain (HInput inputSocial) in
  let p := plain (HInput inputSleep) in
  let score :=
    fst (_calculateRiskScore (HInput inputEmotional) (HInput inputSocial)
           (HInput inputSleep)) in
  0 <= e <= 100 -> 0 <= s <= 100 -> 0 <= p <= 100 ->
  arith_steps inputPlain score
  = [(e * 12, Euint16); (s * 10, Euint16); (e * 12 + s * 10, Euint16);
     (p * 15, Euint16); (e * 12 + s * 10 + p * 15, Euint16);
     (e * 12 + s * 10 + p * 15, Euint32)]
  /\ Forall (fun step => fits step /\ 0 <= fst step <= 3700)
       (arith_steps inputPlain score)
  /\ plain score = 12 * e + 10 * s + 15 * p.
Proof.
  intros e s p score He Hs Hp.
  assert (Hsteps : arith_steps inputPlain score
    = [(e * 12, Euint16); (s * 10, Euint16); (e * 12 + s * 10, Euint16);
       (p * 15, Euint16); (e * 12 + s * 10 + p * 15, Euint16);
       (e * 12 + s * 10 + p * 15, Euint32)]).
  { assert (Ee : wrap Euint16 (inputPlain inputEmotional) = e) by reflexivity.
    assert (Es : wrap Euint16 (inputPlain inputSocial) = s) by reflexivity.
    assert (Ep : wrap Euint16 (inputPlain inputSleep) = p) by reflexivity.
    clearbody e s p. subst score.
    unfold _calculateRiskScore, FHE.asEuint32, FHE.add, FHE.mul, FHE.asEuint16.
    cbn [fst arith_steps app FHE.plain]. rewrite Ee, Es, Ep.
    rewrite (wrap_small Euint16 12), (wrap_small Euint16 10),
      (wrap_small Euint16 15) by (cbn; lia).
    rewrite (wrap_small Euint16 (e * 12)) by (cbn; lia).
    rewrite (wrap_small Euint16 (s * 10)) by (cbn; lia).
    rewrite (wrap_small Euint16 (p * 15)) by (cbn; lia).
    rewrite (wrap_small Euint16 (e * 12 + s * 10)) by (cbn; lia).
    rewrite (wrap_small Euint16 (e * 12 + s * 10 + p * 15)) by (cbn; lia).
    reflexivity. }
  split; [exact Hsteps |]. split.
  - rewrite Hsteps.
    repeat (apply Forall_cons; split;
              [unfold fits; cbn [fst snd bitWidth]; lia |]).
    by apply Forall_nil.
  - apply plain_score; assumption.
Qed.

End Classifier.

(** ** The record ledger *)

Section Ledger.
Import BambooHoldSpeech.
Variable d : Deployment.

(** What [submitMetrics] does, in one equation: it reverts unless the proof
    verifies for the three inputs and the counter can be incremented, and
    otherwise commits [submitted]. *)
Lemma submitMetrics_spec ctx inputEmotional inputSocial inputSleep inputProof st :
  submitMetrics d ctx inputEmotional inputSocial inputSleep inputProof st
  = if inputs_verified d ctx inputEmotional inputSocial inputSleep inputProof
    then
      if (submissionCountOf st (msg_sender ctx) + 1 <? UINT256_MODULUS)%N
      then Ok (tt, submitted d ctx inputEmotional inputSocial inputSleep st)
      else Reverted (Panic 17)
    else Reverted (CustomError "ProofRejected").
Proof.
  unfold inputs_verified.
  cbv [submitMetrics FHE_fromExternal bind ret lift].
  destruct (verifyCiphertext d (msg_sender ctx) (this d) inputEmotional inputProof);
    [| reflexivity].
  destruct (verifyCiphertext d (msg_sender ctx) (this d) inputSocial inputProof);
    [| reflexivity].
  destruct (verifyCiphertext d (msg_sender ctx) (this d) inputSleep inputProof);
    [| reflexivity].
  cbv [andb]. unfold submitted, new_record, submit_grants.
  destruct (_calculateRiskScore _ _ _) as [score tier]. cbn [fst snd].
  destruct st as [history latest counts grants log].
  cbv [modify gets emit FHE_allow FHE_allowThis push_userHistory
       set_latestMetrics set_submissionCount add_grant add_event
       userHistoryOf latestMetricsOf submissionCountOf
       userHistory latestMetrics submissionCount acl events
       emotionalFluctuation socialFatigue sleepDebt riskScore cautionWindow].
  unfold checked_incr.
  destruct (_ <? UINT256_MODULUS)%N; [| reflexivity].
  rewrite lookup_insert_eq. cbn [default from_option id]. unfold checked_sub.
  rewrite length_app. cbn [length].
  destruct (N.leb_spec 1 (N.of_nat (length (default [] (history !! msg_sender ctx)) + 1)));
    [| lia].
  rewrite <- !app_assoc. reflexivity.
Qed.

(** *** Reading the mappings after a committed submission *)

Lemma submitted_history ctx e s p st a :
  userHistoryOf (submitted d ctx e s p st) a
  = if decide (msg_sender ctx = a)
    then userHistoryOf st a ++ [new_record ctx e s p]
    else userHistoryOf st a.
Proof.
  unfold userHistoryOf, submitted. cbn [userHistory].
  rewrite lookup_insert. destruct (decide (msg_sender ctx = a)) as [-> |];
    reflexivity.
Qed.

Lemma submitted_latest ctx e s p st a :
  latestMetricsOf (submitted d ctx e s p st) a
  = if decide (msg_sender ctx = a)
    then new_record ctx e s p
    else latestMetricsOf st a.
Proof.
  unfold latestMetricsOf, submitted. cbn [latestMetrics].
  rewrite lookup_insert. destruct (decide (msg_sender ctx = a)); reflexivity.
Qed.

Lemma submitted_count ctx e s p st a :
  submissionCountOf (submitted d ctx e s p st) a
  = if decide (msg_sender ctx = a)
    then (submissionCountOf st a + 1)%N
    else submissionCountOf st a.
Proof.
  unfold submissionCountOf, submitted. cbn [submissionCount].
  rewrite lookup_insert. destruct (decide (msg_sender ctx = a)) as [-> |];
    reflexivity.
Qed.

Lemma same_storage_reads st st' a :
  same_storage st st' ->
  userHistoryOf st' a = userHistoryOf st a
  /\ latestMetricsOf st' a = latestMetricsOf st a
  /\ submissionCountOf st' a = submissionCountOf st a.
Proof.
  intros (H1 & H2 & H3 & _).
  unfold userHistoryOf, latestMetricsOf, submissionCountOf.
  by rewrite H1, H2, H3.
Qed.

(** *** Calls that only touch the authorization ledger *)

Lemma same_storage_refl st : same_storage st st.
Proof. repeat split. Qed.

Lemma same_storage_trans st1 st2 st3 :
  same_storage st1 st2 -> same_storage st2 st3 -> same_storage st1 st3.
Proof.
  intros (H1 & H2 & H3 & H4) (K1 & K2 & K3 & K4).
  repeat split; congruence.
Qed.

Section GrantsOnly.
Variable who : address -> Prop.

Lemma grants_only_nothing st :
  same_storage st st
  /\ exists gs, acl st = acl st ++ gs /\ Forall (fun g => who (snd g)) gs.
Proof.
  split; [apply same_storage_refl |].
  exists []. split; [by rewrite app_nil_r | constructor].
Qed.

Lemma grants_only_ret {A} (a : A) : grants_only who (ret a).
Proof. intros st a' st' H. inversion H; subst. by apply grants_only_nothing. Qed.

Lemma grants_only_gets {A} (f : State -> A) : grants_only who (gets f).
Proof. intros st a' st' H. inversion H; subst. by apply grants_only_nothing. Qed.

Lemma grants_only_lift {A} (r : Result A) : grants_only who (lift r).
Proof.
  intros st a' st' H. unfold lift in H. destruct r; inversion H; subst.
  by apply grants_only_nothing.
Qed.

Lemma grants_only_allow h account :
  who account -> grants_only who (FHE_allow h account).
Proof.
  intros Hwho st a' st' H. inversion H; subst.
  split; [repeat split |]. exists [(h, account)].
  split; [reflexivity | by repeat constructor].
Qed.

Lemma grants_only_bind {A B} (m : M A) (k : A -> M B) :
  grants_only who m -> (forall a, grants_only who (k a)) ->
  grants_only who (bind m k).
Proof.
  intros Hm Hk st b st'' H. unfold bind in H.
  destruct (m st) as [[a st'] |] eqn:Em; [| discriminate].
  destruct (Hm _ _ _ Em) as [S1 (g1 & G1 & F1)].
  destruct (Hk a _ _ _ H) as [S2 (g2 & G2 & F2)].
  split; [eapply same_storage_trans; eassumption |].
  exists (g1 ++ g2). split; [rewrite G2, G1; by rewrite app_assoc |].
  apply Forall_app. by split.
Qed.

Lemma grants_only_if {A} (b : bool) (m1 m2 : M A) :
  grants_only who m1 -> grants_only who m2 ->
  grants_only who (if b then m1 else m2).
Proof. destruct b; auto. Qed.

End GrantsOnly.

Create HintDb grants discriminated.
#[local] Hint Resolve grants_only_ret grants_only_gets grants_only_lift
  grants_only_if : grants.
#[local] Hint Extern 2 (grants_only _ (bind _ _)) =>
  apply grants_only_bind; [| intros ?] : grants.
#[local] Hint Extern 2 (grants_only _ (FHE_allow _ _)) =>
  apply grants_only_allow; unfold caller_or_contract; tauto : grants.

Lemma grants_only_allow_record ctx record :
  grants_only (caller_or_contract d ctx) (allow_record d ctx record).
Proof. unfold allow_record. auto 30 with grants. Qed.
#[local] Hint Resolve grants_only_allow_record : grants.

Lemma grants_only_reauthorizeRecord ctx index :
  grants_only (caller_or_contract d ctx) (reauthorizeRecord d ctx index).
Proof. unfold reauthorizeRecord. auto 30 with grants. Qed.

Lemma grants_only_reauthorize_loop ctx n i :
  grants_only (caller_or_contract d ctx) (reauthorize_loop d ctx n i).
Proof.
  revert i. induction n as [| n IH]; intros i; cbn [reauthorize_loop];
    auto 30 with grants.
Qed.
#[local] Hint Resolve grants_only_reauthorize_loop : grants.

Lemma grants_only_reauthorizeAllRecords ctx :
  grants_only (caller_or_contract d ctx) (reauthorizeAllRecords d ctx).
Proof. unfold reauthorizeAllRecords. auto 30 with grants. Qed.

Lemma submit_grants_to_caller_or_contract ctx record :
  Forall (fun g => caller_or_contract d ctx (snd g)) (submit_grants d ctx record).
Proof.
  unfold submit_grants, caller_or_contract.
  repeat (apply Forall_cons; split; [cbn [snd]; tauto |]).
  by apply Forall_nil.
Qed.

(** *** One transaction: either a committed submission or storage unchanged *)

Lemma execute_cases tx st :
  (exists e s p proof,
      tx_call tx = CallSubmitMetrics e s p proof
      /\ inputs_verified d (tx_ctx tx) e s p proof = true
      /\ (submissionCountOf st (msg_sender (tx_ctx tx)) + 1 < UINT256_MODULUS)%N
      /\ dispatch d tx st = Ok (tt, submitted d (tx_ctx tx) e s p st)
      /\ execute d tx st = submitted d (tx_ctx tx) e s p st)
  \/ (same_storage st (execute d tx st)
      /\ (is_submit_by (msg_sender (tx_ctx tx)) tx = true ->
          isOk (dispatch d tx st) = false)
      /\ exists gs,
          acl (execute d tx st) = acl st ++ gs
          /\ Forall (fun g => caller_or_contract d (tx_ctx tx) (snd g)) gs).
Proof.
  unfold execute, dispatch, is_submit_by.
  destruct (tx_call tx) as [e s p proof | index |] eqn:Ecall.
  - rewrite submitMetrics_spec.
    destruct (inputs_verified d (tx_ctx tx) e s p proof) eqn:Ever.
    + destruct (N.ltb_spec (submissionCountOf st (msg_sender (tx_ctx tx)) + 1)
                  UINT256_MODULUS) as [Hlt | Hge].
      * left. exists e, s, p, proof. auto.
      * right. destruct (grants_only_nothing (caller_or_contract d (tx_ctx tx)) st).
        by repeat split.
    + right. destruct (grants_only_nothing (caller_or_contract d (tx_ctx tx)) st).
      by repeat split.
  - right.
    destruct (reauthorizeRecord d (tx_ctx tx) index st) as [[[] st'] |] eqn:E.
    + destruct (grants_only_reauthorizeRecord _ _ _ _ _ E) as [Hsame Hgs].
      split; [exact Hsame |]. split; [discriminate | exact Hgs].
    + destruct (grants_only_nothing (caller_or_contract d (tx_ctx tx)) st).
      split; [assumption |]. split; [discriminate | assumption].
  - right.
    destruct (reauthorizeAllRecords d (tx_ctx tx) st) as [[[] st'] |] eqn:E.
    + destruct (grants_only_reauthorizeAllRecords _ _ _ _ E) as [Hsame Hgs].
      split; [exact Hsame |]. split; [discriminate | exact Hgs].
    + destruct (grants_only_nothing (caller_or_contract d (tx_ctx tx)) st).
      split; [assumption |]. split; [discriminate | assumption].
Qed.

Lemma execute_grants tx st :
  exists gs,
    acl (execute d tx st) = acl st ++ gs
    /\ Forall (fun g => caller_or_contract d (tx_ctx tx) (snd g)) gs.
Proof.
  destruct (execute_cases tx st)
    as [(e & s & p & proof & _ & _ & _ & _ & ->) | (_ & _ & Hgs)];
    [| exact Hgs].
  eexists. split; [reflexivity |]. apply submit_grants_to_caller_or_contract.
Qed.

(** C2. A call of [submitMetrics] that returns has appended exactly one
    record (the five handles and the block timestamp) to the caller's
    history, made it the caller's latest record, incremented the caller's
    counter by one, granted all five handles to the caller and to the
    contract, and emitted [MetricsSubmitted] with the record's 0-based index
    (the new length minus one) followed by [CautionWindowUpdated]; a call
    that reverts leaves the state as it was.  The call returns exactly when
    the proof verifies for the three inputs and the counter does not
    overflow. *)
Theorem C2_submitMetrics_effects ctx inputEmotional inputSocial inputSleep
    inputProof st :
  let sender := msg_sender ctx in
  let tx := {| tx_ctx := ctx;
               tx_call := CallSubmitMetrics inputEmotional inputSocial
                            inputSleep inputProof |} in
  let record := new_record ctx inputEmotional inputSocial inputSleep in
  match submitMetrics d ctx inputEmotional inputSocial inputSleep inputProof st with
  | Ok (_, st') =>
      userHistoryOf st' sender = (userHistoryOf st sender) ++ [record]
      /\ record_handles record
         = [HInput inputEmotional; HInput inputSocial; HInput inputSleep;
            fst (_calculateRiskScore (HInput inputEmotional)
                   (HInput inputSocial) (HInput inputSleep));
            snd (_calculateRiskScore (HInput inputEmotional)
                   (HInput inputSocial) (HInput inputSleep))]
      /\ timestamp record = block_timestamp ctx
      /\ latestMetricsOf st' sender = record
      /\ submissionCountOf st' sender = (submissionCountOf st sender + 1)%N
      /\ (forall h, In h (record_handles record) ->
            isAllowed st' h sender /\ isAllowed st' h (this d))
      /\ (forall h a, isAllowed st h a -> isAllowed st' h a)
      /\ events st'
         = events st
           ++ [MetricsSubmitted sender (block_timestamp ctx)
                 (N.of_nat (length (userHistoryOf st' sender)) - 1)%N;
               CautionWindowUpdated sender (block_timestamp ctx)]
      /\ (userHistoryOf st' sender)
           !! N.to_nat (N.of_nat (length (userHistoryOf st' sender)) - 1)%N
         = Some record
      /\ execute d tx st = st'
  | Reverted _ => execute d tx st = st
  end
  /\ isOk (submitMetrics d ctx inputEmotional inputSocial inputSleep inputProof st)
     = inputs_verified d ctx inputEmotional inputSocial inputSleep inputProof
       && (submissionCountOf st sender + 1 <? UINT256_MODULUS)%N.
Proof.
  intros sender tx record. subst tx. unfold execute, dispatch.
  cbn [tx_call tx_ctx]. rewrite submitMetrics_spec.
  destruct (inputs_verified _ _ _ _ _ _); [| split; reflexivity].
  destruct (_ <? UINT256_MODULUS)%N; [| split; reflexivity].
  split; [| reflexivity].
  rewrite submitted_history, submitted_latest, submitted_count.
  fold sender. rewrite !decide_True by reflexivity. fold record.
  assert (Hgrants : forall h, In h (record_handles record) ->
            In (h, sender) (submit_grants d ctx record)
            /\ In (h, this d) (submit_grants d ctx record)).
  { intros h Hin. unfold record_handles in Hin. unfold submit_grants.
    fold sender. cbn [In] in *.
    destruct Hin as [<- | [<- | [<- | [<- | [<- | []]]]]]; split; auto 20. }
  split; [reflexivity |]. split; [reflexivity |]. split; [reflexivity |].
  split; [reflexivity |]. split; [reflexivity |].
  split.
  { intros h Hin. unfold isAllowed, submitted. cbn [acl]. fold record.
    destruct (Hgrants h Hin) as [Hs Ht].
    split; apply in_or_app; right; assumption. }
  split.
  { intros h a Hin. unfold isAllowed, submitted in *. cbn [acl].
    apply in_or_app. by left. }
  split.
  { unfold submitted. cbn [events]. fold sender record. reflexivity. }
  split; [| reflexivity].
  rewrite length_app. cbn [length].
  replace (N.to_nat (N.of_nat (length (userHistoryOf st sender) + 1) - 1))
    with (length (userHistoryOf st sender)) by lia.
  by rewrite lookup_app_r, Nat.sub_diag.
Qed.

(** *** The ledger invariant *)

Lemma ledger_invariant_initial p : ledger_invariant initial p.
Proof. split; [reflexivity | intros H; by destruct H]. Qed.

Lemma ledger_invariant_execute tx st p :
  ledger_invariant st p -> ledger_invariant (execute d tx st) p.
Proof.
  intros [Hcount Hlast].
  destruct (execute_cases tx st)
    as [(e & s & q & proof & _ & _ & _ & _ & ->) | (Hsame & _ & _)].
  - unfold ledger_invariant.
    rewrite submitted_history, submitted_latest, submitted_count.
    destruct (decide (msg_sender (tx_ctx tx) = p)) as [_ | _]; [| by split].
    split.
    + rewrite Hcount, length_app. cbn [length]. lia.
    + intros _. apply last_snoc.
  - destruct (same_storage_reads _ _ p Hsame) as (H1 & H2 & H3).
    unfold ledger_invariant. rewrite H1, H2, H3. by split.
Qed.

Lemma ledger_invariant_run txs st p :
  ledger_invariant st p -> ledger_invariant (run d txs st) p.
Proof.
  revert st. induction txs as [| tx txs IH]; intros st Hinv; [exact Hinv |].
  cbn [run fold_left]. apply IH. by apply ledger_invariant_execute.
Qed.

(** C3. After any sequence of transactions from the deployed contract, for
    every principal the counter equals the length of the history and, when
    the history is not empty, the latest record is its last element. *)
Theorem C3_counter_and_latest_follow_history (txs : list Tx) (p : address) :
  submissionCountOf (run d txs initial) p
  = N.of_nat (length (userHistoryOf (run d txs initial) p))
  /\ (userHistoryOf (run d txs initial) p <> [] ->
      last (userHistoryOf (run d txs initial) p)
      = Some (latestMetricsOf (run d txs initial) p)).
Proof. apply ledger_invariant_run, ledger_invariant_initial. Qed.

(** C10. A transaction sent by [A] leaves the history, the latest record
    and the counter of every other principal [B] as they were, whichever
    entry point it calls and whether or not it reverts; the grants held by
    [B] stay as they were too, unless [B] is the contract itself. *)
Theorem C10_other_principals_untouched (tx : Tx) (st : State) (B : address) :
  msg_sender (tx_ctx tx) <> B ->
  userHistoryOf (execute d tx st) B = userHistoryOf st B
  /\ latestMetricsOf (execute d tx st) B = latestMetricsOf st B
  /\ submissionCountOf (execute d tx st) B = submissionCountOf st B
  /\ userHistory (execute d tx st) !! B = userHistory st !! B
  /\ latestMetrics (execute d tx st) !! B = latestMetrics st !! B
  /\ submissionCount (execute d tx st) !! B = submissionCount st !! B
  /\ (B <> this d ->
      forall h, isAllowed (execute d tx st) h B <-> isAllowed st h B).
Proof.
  intros Hne.
  assert (Hacl : B <> this d ->
            forall h, isAllowed (execute d tx st) h B <-> isAllowed st h B).
  { intros Hthis h. unfold isAllowed.
    destruct (execute_grants tx st) as (gs & -> & Hgs).
    rewrite in_app_iff. split; [| by left].
    intros [Hold | Hnew]; [exact Hold |].
    rewrite Forall_forall in Hgs. apply list_elem_of_In, Hgs in Hnew.
    unfold caller_or_contract in Hnew. cbn [snd] in Hnew.
    destruct Hnew as [-> | ->]; [by destruct Hne | by destruct Hthis]. }
  destruct (execute_cases tx st)
    as [(e & s & q & proof & _ & _ & _ & _ & Hex) | (Hsame & _ & _)].
  - rewrite Hex in *.
    rewrite submitted_history, submitted_latest, submitted_count.
    rewrite !decide_False by exact Hne.
    unfold submitted. cbn [userHistory latestMetrics submissionCount].
    rewrite !lookup_insert_ne by exact Hne.
    do 6 (split; [reflexivity |]). exact Hacl.
  - destruct (same_storage_reads _ _ B Hsame) as (H1 & H2 & H3).
    destruct Hsame as (K1 & K2 & K3 & _).
    rewrite H1, H2, H3, K1, K2, K3.
    do 6 (split; [reflexivity |]). exact Hacl.
Qed.

(** *** Histories along a trace *)

Lemma is_submit_by_sender p tx :
  is_submit_by p tx = true ->
  msg_sender (tx_ctx tx) = p /\ is_submit_by (msg_sender (tx_ctx tx)) tx = true.
Proof.
  unfold is_submit_by. destruct (tx_call tx); try discriminate.
  intros H. apply N.eqb_eq in H. split; [exact H | apply N.eqb_refl].
Qed.

Lemma history_length_execute tx st p :
  length (userHistoryOf (execute d tx st) p)
  = (length (userHistoryOf st p)
     + (if is_submit_by p tx && isOk (dispatch d tx st) then 1 else 0))%nat.
Proof.
  destruct (execute_cases tx st)
    as [(e & s & q & proof & Ecall & _ & _ & Edisp & ->) | (H1 & Hrev & _)].
  - rewrite Edisp. unfold is_submit_by. rewrite Ecall. cbn [isOk].
    rewrite submitted_history.
    destruct (N.eqb_spec (msg_sender (tx_ctx tx)) p) as [Heq | Hne].
    + rewrite decide_True by exact Heq. rewrite length_app. reflexivity.
    + rewrite decide_False by exact Hne. cbn. lia.
  - destruct (same_storage_reads _ _ p H1) as (-> & _).
    destruct (is_submit_by p tx) eqn:Esub; [| cbn; lia].
    apply is_submit_by_sender in Esub as [_ Esub].
    rewrite (Hrev Esub). cbn. lia.
Qed.

Lemma history_length_run txs st p :
  length (userHistoryOf (run d txs st) p)
  = (length (userHistoryOf st p) + successful_submits d p txs st)%nat.
Proof.
  revert st. induction txs as [| tx txs IH]; intros st.
  - cbn. lia.
  - cbn [run fold_left successful_submits]. fold (run d txs (execute d tx st)).
    rewrite IH, history_length_execute. lia.
Qed.

Lemma latest_absent_execute tx st p :
  latest_absent_if_empty st p -> latest_absent_if_empty (execute d tx st) p.
Proof.
  intros Habs.
  destruct (execute_cases tx st)
    as [(e & s & q & proof & _ & _ & _ & _ & ->) | (Hsame & _ & _)].
  - unfold latest_absent_if_empty.
    rewrite submitted_history, submitted_latest.
    destruct (decide (msg_sender (tx_ctx tx) = p)) as [_ | _]; [| exact Habs].
    intros H. by apply app_nil in H as [_ H].
  - destruct (same_storage_reads _ _ p Hsame) as (H1 & H2 & _).
    unfold latest_absent_if_empty. by rewrite H1, H2.
Qed.

Lemma latest_absent_run txs st p :
  latest_absent_if_empty st p -> latest_absent_if_empty (run d txs st) p.
Proof.
  revert st. induction txs as [| tx txs IH]; intros st H; [exact H |].
  cbn [run fold_left]. apply IH. by apply latest_absent_execute.
Qed.

Lemma latest_stamped_execute tx st p :
  valid_tx tx -> latest_stamped st p -> latest_stamped (execute d tx st) p.
Proof.
  intros [Hpos _] Hst.
  destruct (execute_cases tx st)
    as [(e & s & q & proof & _ & _ & _ & _ & ->) | (Hsame & _ & _)].
  - unfold latest_stamped.
    rewrite submitted_history, submitted_latest.
    destruct (decide (msg_sender (tx_ctx tx) = p)) as [_ | _]; [| exact Hst].
    intros _. exact Hpos.
  - destruct (same_storage_reads _ _ p Hsame) as (H1 & H2 & _).
    unfold latest_stamped. by rewrite H1, H2.
Qed.

Lemma latest_stamped_run txs st p :
  Forall valid_tx txs -> latest_stamped st p -> latest_stamped (run d txs st) p.
Proof.
  intros Hval. revert st.
  induction Hval as [| tx txs Htx _ IH]; intros st H; [exact H |].
  cbn [run fold_left]. apply IH. by apply latest_stamped_execute.
Qed.

Lemma initial_history p : userHistoryOf initial p = [].
Proof. reflexivity. Qed.

Lemma never_submitted_state txs p :
  successful_submits d p txs initial = 0%nat ->
  userHistoryOf (run d txs initial) p = []
  /\ latestMetricsOf (run d txs initial) p = zeroRecord
  /\ submissionCountOf (run d txs initial) p = 0%N.
Proof.
  intros Hnone.
  assert (Hempty : userHistoryOf (run d txs initial) p = []).
  { apply length_zero_iff_nil.
    rewrite history_length_run, Hnone, initial_history. reflexivity. }
  split; [exact Hempty |]. split.
  - apply latest_absent_run; [| exact Hempty].
    intros _. reflexivity.
  - destruct (ledger_invariant_run txs initial p (ledger_invariant_initial p))
      as [Hcount _].
    rewrite Hcount, Hempty. reflexivity.
Qed.

(** *** The accessors *)

Lemma getMetricsAtIndex_spec ctx index st :
  getMetricsAtIndex ctx index st
  = match (userHistoryOf st (msg_sender ctx)) !! N.to_nat index with
    | Some record => Ok (record_fields record)
    | None => Reverted IndexOutOfBounds
    end.
Proof.
  unfold getMetricsAtIndex, require.
  destruct (N.ltb_spec index (N.of_nat (length (userHistoryOf st (msg_sender ctx)))))
    as [Hlt | Hge].
  - destruct (lookup_lt_is_Some_2 (userHistoryOf st (msg_sender ctx))
                (N.to_nat index)) as [record Hrec]; [lia |].
    rewrite Hrec. rewrite (list_lookup_total_correct _ _ _ Hrec). reflexivity.
  - rewrite lookup_ge_None_2 by lia. reflexivity.
Qed.

(** C4. [getMetricsAtIndex] reverts with "Index out of bounds" exactly when
    the index is at least the length of the caller's history, also when that
    history is empty; below the length it returns the record stored at that
    position.  A committed submission puts its record at the position equal
    to the old length and leaves what the earlier positions return as it
    was, so positions follow submission order. *)
Theorem C4_getMetricsAtIndex_bounds (ctx : CallCtx) (index : uint256) (st : State) :
  let history := userHistoryOf st (msg_sender ctx) in
  (getMetricsAtIndex ctx index st = Reverted IndexOutOfBounds
   <-> (N.of_nat (length history) <= index)%N)
  /\ ((index < N.of_nat (length history))%N ->
      exists record,
        history !! N.to_nat index = Some record
        /\ getMetricsAtIndex ctx index st = Ok (record_fields record))
  /\ (history = [] -> getMetricsAtIndex ctx index st = Reverted IndexOutOfBounds)
  /\ (forall inputEmotional inputSocial inputSleep,
        let st' := submitted d ctx inputEmotional inputSocial inputSleep st in
        getMetricsAtIndex ctx (N.of_nat (length history)) st'
        = Ok (record_fields (new_record ctx inputEmotional inputSocial inputSleep))
        /\ ((index < N.of_nat (length history))%N ->
            getMetricsAtIndex ctx index st' = getMetricsAtIndex ctx index st)).
Proof.
  intros history. rewrite getMetricsAtIndex_spec. fold history.
  repeat split.
  - destruct (history !! N.to_nat index) eqn:E; [discriminate |].
    intros _. apply lookup_ge_None_1 in E. lia.
  - intros Hge. by rewrite lookup_ge_None_2 by lia.
  - intros Hlt.
    destruct (lookup_lt_is_Some_2 history (N.to_nat index)) as [record Hrec];
      [lia |].
    exists record. by rewrite Hrec.
  - intros ->. reflexivity.
  - rewrite getMetricsAtIndex_spec, submitted_history.
    rewrite decide_True by reflexivity. fold history.
    rewrite Nat2N.id, lookup_app_r, Nat.sub_diag by lia. reflexivity.
  - intros Hlt. rewrite getMetricsAtIndex_spec, submitted_history.
    rewrite decide_True by reflexivity. fold history.
    rewrite lookup_app_l by lia. reflexivity.
Qed.

Lemma latest_accessors_zero ctx st :
  timestamp (latestMetricsOf st (msg_sender ctx)) = 0%N ->
  latest_accessors_revert NoSubmission ctx st.
Proof.
  intros H. unfold latest_accessors_revert, getLatestMetrics, getRiskScore,
    getCautionWindow. rewrite H. repeat split.
Qed.

Lemma latest_accessors_positive ctx st :
  (0 < timestamp (latestMetricsOf st (msg_sender ctx)))%N ->
  latest_accessors_return (latestMetricsOf st (msg_sender ctx)) ctx st.
Proof.
  intros H. apply N.ltb_lt in H.
  unfold latest_accessors_return, getLatestMetrics, getRiskScore,
    getCautionWindow. rewrite H. repeat split.
Qed.

(** C5. A principal none of whose [submitMetrics] calls has returned gets
    "No metrics submitted yet" from [getLatestMetrics], [getRiskScore] and
    [getCautionWindow]; once one of them has returned, the three accessors
    return the fields of the last record of the history.  Blocks carry a
    positive timestamp. *)
Theorem C5_latest_accessors (txs : list Tx) (ctx : CallCtx) :
  Forall valid_tx txs ->
  (successful_submits d (msg_sender ctx) txs initial = 0%nat ->
   latest_accessors_revert NoSubmission ctx (run d txs initial))
  /\ ((0 < successful_submits d (msg_sender ctx) txs initial)%nat ->
      exists record,
        last (userHistoryOf (run d txs initial) (msg_sender ctx)) = Some record
        /\ latest_accessors_return record ctx (run d txs initial)).
Proof.
  intros Hvalid. split.
  - intros Hnone. apply latest_accessors_zero.
    destruct (never_submitted_state txs _ Hnone) as (_ & -> & _). reflexivity.
  - intros Hsome.
    assert (Hne : userHistoryOf (run d txs initial) (msg_sender ctx) <> []).
    { intros Hnil. apply (f_equal length) in Hnil.
      rewrite history_length_run in Hnil. cbn in Hnil. lia. }
    exists (latestMetricsOf (run d txs initial) (msg_sender ctx)). split.
    + by apply (ledger_invariant_run txs initial _ (ledger_invariant_initial _)).
    + apply latest_accessors_positive.
      apply (latest_stamped_run txs initial _ Hvalid); [| exact Hne].
      intros H. by rewrite initial_history in H.
Qed.

(** C6 (amended). Before a principal's first returned [submitMetrics]:
    [getLatestMetrics], [getRiskScore] and [getCautionWindow] revert with
    "No metrics submitted yet"; [getMetricsAtIndex] reverts for every index,
    with "Index out of bounds", a different reason; [getHistoryCount]
    returns 0 and [getSummary] returns (0, 0), neither reverts. *)
Theorem C6_accessors_before_first_submit (txs : list Tx) (ctx : CallCtx) :
  successful_submits d (msg_sender ctx) txs initial = 0%nat ->
  latest_accessors_revert NoSubmission ctx (run d txs initial)
  /\ (forall index,
        getMetricsAtIndex ctx index (run d txs initial)
        = Reverted IndexOutOfBounds)
  /\ IndexOutOfBounds <> NoSubmission
  /\ getHistoryCount ctx (run d txs initial) = Ok 0%N
  /\ getSummary ctx (run d txs initial) = Ok (0%N, 0%N).
Proof.
  intros Hnone.
  destruct (never_submitted_state txs _ Hnone) as (Hhist & Hlatest & Hcount).
  split; [apply latest_accessors_zero; by rewrite Hlatest |].
  split; [intros index; by rewrite getMetricsAtIndex_spec, Hhist |].
  split; [discriminate |].
  unfold getHistoryCount, getSummary. by rewrite Hhist, Hlatest, Hcount.
Qed.

End Ledger.

(** ** The batch disclosure *)

Section DisclosureProofs.
Import Disclosure.

(** A property read finds the own entry if there is one, and otherwise an
    inherited member exactly for the names of [Object.prototype]. *)
Lemma property_cases (r : gmap string Z) (key : string) :
  match property r key with
  | OwnEntry value => r !! key = Some value
  | Undefined => r !! key = None /\ inherited key = false
  | InheritedMember name =>
      r !! key = None /\ inherited key = true /\ name = key
  end.
Proof.
  unfold property. destruct (r !! key); [reflexivity |].
  by destruct (inherited key).
Qed.

Lemma extract_spec (c : Context) (r : gmap string Z) (handles : list Handle)
    (acc : list Z) :
  match extract c r handles acc with
  | Returned values =>
      exists ws, values = acc ++ ws
        /\ Forall2 (fun h v => r !! toString h = Some v) handles ws
  | Thrown msg =>
      exists h, In h handles /\ r !! toString h = None
        /\ msg = (if inherited (toString h)
                  then BigInt_SyntaxError c (toString h)
                  else "Failed to decrypt handle " ++ toString h)%string
  end.
Proof.
  revert acc. induction handles as [| h rest IH]; intros acc; cbn [extract].
  - exists []. split; [by rewrite app_nil_r | constructor].
  - pose proof (property_cases r (toString h)) as Hp.
    destruct (property r (toString h)) as [| v | name].
    + destruct Hp as [Hnone Hown]. exists h. rewrite Hown.
      split; [by left | by split].
    + specialize (IH (acc ++ [v])).
      destruct (extract c r rest (acc ++ [v])) as [values | msg].
      * destruct IH as (ws & -> & Hall). exists (v :: ws). split.
        -- by rewrite <- app_assoc.
        -- by constructor.
      * destruct IH as (h' & Hin & Hnone & ->). exists h'.
        split; [by right | by split].
    + destruct Hp as (Hnone & Hinh & ->). exists h. rewrite Hinh.
      split; [by left | by split].
Qed.

(** A non-empty batch either stops at a guard, before any interaction, or
    runs the four interactions in order until one of them throws. *)
Lemma userDecryptBatch_cases c handles contractAddress signer log :
  handles <> [] ->
  (checks_pass c contractAddress = false
   /\ exists msg,
       userDecryptBatch c handles contractAddress signer log = (Thrown msg, log))
  \/ (exists inst acct gen mk,
        fhevmInstance c = Some inst /\ account c = Some acct
        /\ generateKeypair inst = Some gen /\ createEIP712 inst = Some mk
        /\ checks_pass c contractAddress = true
        /\ userDecryptBatch c handles contractAddress signer log
           = match gen with
             | Thrown msg => (Thrown msg, log ++ [ActGenerateKeypair])
             | Returned kp =>
               let start := Date_now c / 1000 in
               let a1 := ActCreateEIP712 (publicKey kp) [contractAddress] start 365 in
               match mk (publicKey kp) [contractAddress] start 365 with
               | Thrown msg => (Thrown msg, log ++ [ActGenerateKeypair; a1])
               | Returned eip =>
                 let a2 := ActSignTypedData (domain eip)
                             (types_UserDecryptRequestVerification eip)
                             (message eip) in
                 match signTypedData signer (domain eip)
                         (types_UserDecryptRequestVerification eip)
                         (message eip) with
                 | Thrown msg => (Thrown msg, log ++ [ActGenerateKeypair; a1; a2])
                 | Returned signature =>
                   let pairs :=
                     map (fun h => (toString h, contractAddress)) handles in
                   let a3 := ActUserDecrypt pairs (privateKey kp) (publicKey kp)
                               signature [contractAddress] acct start 365 in
                   let acts := [ActGenerateKeypair; a1; a2; a3] in
                   match userDecrypt inst pairs (privateKey kp) (publicKey kp)
                           signature [contractAddress] acct start 365 with
                   | Thrown msg => (Thrown msg, log ++ acts)
                   | Returned (ResultBigint _) =>
                       (Thrown "Unexpected result type: bigint", log ++ acts)
                   | Returned (ResultRecord r) =>
                       (extract c r handles [], log ++ acts)
                   end
                 end
               end
             end).
Proof.
  intros Hne. unfold userDecryptBatch, checks_pass.
  destruct (fhevmInstance c) as [inst |] eqn:Einst; [| left; eauto].
  destruct (account c) as [acct |] eqn:Eacct; [| left; eauto].
  destruct (truthy (Some acct)); cbn [negb andb]; [| left; eauto].
  destruct handles as [| h0 rest]; [done |]. cbn [length Nat.eqb].
  assert (Htruthy : String.prefix "0x" contractAddress = true ->
                    truthy (Some contractAddress) = true).
  { destruct contractAddress; [discriminate | reflexivity]. }
  destruct (truthy (Some contractAddress)) eqn:Eaddr; cbn [negb].
  2:{ left. destruct (String.prefix "0x" contractAddress);
        [by specialize (Htruthy eq_refl) | eauto]. }
  destruct (String.prefix "0x" contractAddress); cbn [negb orb andb];
    [| left; eauto].
  destruct (utf16_length contractAddress =? 42)%nat; cbn [negb andb];
    [| left; eauto].
  destruct (generateKeypair inst) as [gen |] eqn:Egen; [| left; eauto].
  destruct (createEIP712 inst) as [mk |] eqn:Emk; [| left; eauto].
  right. exists inst, acct, gen, mk.
  do 5 (split; [first [assumption | reflexivity] |]). unfold dbind, call, throw.
  destruct gen as [kp | msg]; [| reflexivity].
  destruct (mk _ _ _ _) as [eip | msg]; [| by rewrite <- app_assoc].
  destruct (signTypedData _ _ _ _) as [signature | msg];
    [| by rewrite <- !app_assoc].
  destruct (userDecrypt _ _ _ _ _ _ _ _ _) as [[n | r] | msg];
    by rewrite <- !app_assoc.
Qed.

Lemma Forall2_lookup_not_missing (r : gmap string Z) handles (ws : list Z) :
  Forall2 (fun h v => r !! toString h = Some v) handles ws ->
  Exists (fun h => r !! toString h = None) handles -> False.
Proof.
  induction 1 as [| h v hs vs Hh _ IH]; intros Hex; inversion Hex; subst.
  - congruence.
  - by apply IH.
Qed.

(** C8 (amended). A run on a non-empty batch asks the wallet for at most one
    signature, whatever the size of the batch: none when a guard stops the
    run before its first interaction, exactly one once the keypair and the
    statement have been produced.  A run that returns has asked for exactly
    one signature, has called the oracle, and returns one plaintext per
    requested handle, in request order, each the oracle's entry for that
    handle.  When the oracle's response lacks a requested handle the run
    throws and returns no value: at the first handle it cannot extract it
    throws "Failed to decrypt handle ..." naming that handle or, when the
    handle's string is the name of a member every object inherits, the
    error [BigInt] raises on that member. *)
Theorem C8_one_signature_all_or_nothing c handles contractAddress signer log :
  handles <> [] ->
  exists outcome acts,
    userDecryptBatch c handles contractAddress signer log = (outcome, log ++ acts)
    /\ (signatures_requested acts <= 1)%nat
    /\ (checks_pass c contractAddress = false ->
        acts = [] /\ exists msg, outcome = Thrown msg)
    /\ (forall inst kp mk eip,
          checks_pass c contractAddress = true ->
          fhevmInstance c = Some inst ->
          generateKeypair inst = Some (Returned kp) ->
          createEIP712 inst = Some mk ->
          mk (publicKey kp) [contractAddress] (Date_now c / 1000) 365
          = Returned eip ->
          signatures_requested acts = 1%nat)
    /\ match outcome with
       | Returned values =>
           signatures_requested acts = 1%nat
           /\ length values = length handles
           /\ exists inst pairs sk pk sig addrs user start dur r,
               fhevmInstance c = Some inst
               /\ In (ActUserDecrypt pairs sk pk sig addrs user start dur) acts
               /\ userDecrypt inst pairs sk pk sig addrs user start dur
                  = Returned (ResultRecord r)
               /\ Forall2 (fun h v => r !! toString h = Some v) handles values
       | Thrown _ => True
       end
    /\ (forall inst pairs sk pk sig addrs user start dur r,
          fhevmInstance c = Some inst ->
          In (ActUserDecrypt pairs sk pk sig addrs user start dur) acts ->
          userDecrypt inst pairs sk pk sig addrs user start dur
          = Returned (ResultRecord r) ->
          Exists (fun h => r !! toString h = None) handles ->
          exists h,
            In h handles /\ r !! toString h = None
            /\ outcome
               = Thrown (if inherited (toString h)
                         then BigInt_SyntaxError c (toString h)
                         else "Failed to decrypt handle " ++ toString h)%string).
Proof.
  intros Hne.
  destruct (userDecryptBatch_cases c handles contractAddress signer log Hne)
    as [[Hfail [msg ->]]
       | (inst & acct & gen & mk & Einst & Eacct & Egen & Emk & Hpass & ->)].
  { exists (Thrown msg), []. rewrite app_nil_r.
    split; [reflexivity |]. split; [cbn; lia |].
    split; [eauto |]. split; [intros; congruence |].
    split; [exact I |]. intros * _ []. }
  destruct gen as [kp | msg].
  2:{ eexists _, _. split; [reflexivity |]. split; [cbn; lia |].
      split; [intros; congruence |]. split; [intros; congruence |].
      split; [exact I |]. intros * _ [H | []]. discriminate. }
  cbv zeta.
  destruct (mk _ _ _ _) as [eip | msg] eqn:Eeip.
  2:{ eexists _, _. split; [reflexivity |]. split; [cbn; lia |].
      split; [intros; congruence |]. split; [intros; congruence |].
      split; [exact I |]. intros * _ [H | [H | []]]; discriminate. }
  destruct (signTypedData _ _ _ _) as [signature | msg].
  2:{ eexists _, _. split; [reflexivity |]. split; [cbn; lia |].
      split; [intros; congruence |]. split; [reflexivity |].
      split; [exact I |]. intros * _ [H | [H | [H | []]]]; discriminate. }
  destruct (userDecrypt _ _ _ _ _ _ _ _ _) as [[n | r] | msg] eqn:Eoracle.
  - eexists _, _. split; [reflexivity |]. split; [cbn; lia |].
    split; [intros; congruence |]. split; [reflexivity |].
    split; [exact I |].
    intros * Hi [H | [H | [H | [H | []]]]]; try discriminate.
    inversion H; subst. congruence.
  - pose proof (extract_spec c r handles []) as Hext.
    eexists _, _. split; [reflexivity |]. split; [cbn; lia |].
    split; [intros; congruence |]. split; [reflexivity |].
    destruct (extract c r handles []) as [values | msg].
    + destruct Hext as (ws & -> & Hall). cbn [app]. split.
      * split; [reflexivity |]. split; [symmetry; eapply Forall2_length, Hall |].
        eexists inst, _, _, _, _, _, _, _, _, r. split; [exact Einst |].
        split; [right; right; right; left; reflexivity |]. by split.
      * intros * Hi [H | [H | [H | [H | []]]]]; try discriminate.
        inversion H; subst. intros Hr Hex. exfalso.
        assert (r0 = r) by congruence. subst r0.
        eapply Forall2_lookup_not_missing; eassumption.
    + destruct Hext as (h & Hin & Hnone & ->). split; [exact I |].
      intros * Hi [H | [H | [H | [H | []]]]]; try discriminate.
      inversion H; subst. intros Hr _.
      assert (r0 = r) by congruence. subst r0. exists h. by repeat split.
  - eexists _, _. split; [reflexivity |]. split; [cbn; lia |].
    split; [intros; congruence |]. split; [reflexivity |].
    split; [exact I |].
    intros * Hi [H | [H | [H | [H | []]]]]; try discriminate.
    inversion H; subst. congruence.
Qed.

End DisclosureProofs.

(** ** The classifier, as [submitMetrics] reaches it *)

Section ClassifierInContract.
Import BambooHoldSpeech.
Variable inputPlain : N -> Z.
Local Abbreviation plain := (FHE.plain inputPlain).

(** C1. For inputs whose plaintexts lie in [0,100] the score decrypts to
    12*emotional + 10*social + 15*sleep and the tier to 2 when that total is
    at least 1850, to 1 when it is at least 1110, and to 0 otherwise; so
    1109 gives 0, 1110 gives 1, 1849 gives 1 and 1850 gives 2.  These are the
    score and tier a returning [submitMetrics] stores in the latest record. *)
Theorem C1_score_and_tier (e s p : euint16) :
  0 <= plain e <= 100 -> 0 <= plain s <= 100 -> 0 <= plain p <= 100 ->
  let total := 12 * plain e + 10 * plain s + 15 * plain p in
  let score := fst (_calculateRiskScore e s p) in
  let tier := snd (_calculateRiskScore e s p) in
  plain score = total
  /\ plain tier = (if 1850 <=? total then 2 else if 1110 <=? total then 1 else 0)
  /\ (total = 1109 -> plain tier = 0)
  /\ (total = 1110 -> plain tier = 1)
  /\ (total = 1849 -> plain tier = 1)
  /\ (total = 1850 -> plain tier = 2)
  /\ (forall d ctx inputEmotional inputSocial inputSleep inputProof st st',
        e = HInput inputEmotional -> s = HInput inputSocial ->
        p = HInput inputSleep ->
        submitMetrics d ctx inputEmotional inputSocial inputSleep inputProof st
        = Ok (tt, st') ->
        riskScore (latestMetricsOf st' (msg_sender ctx)) = score
        /\ cautionWindow (latestMetricsOf st' (msg_sender ctx)) = tier).
Proof.
  intros He Hs Hp total score tier.
  assert (Htier : plain tier
    = if 1850 <=? total then 2 else if 1110 <=? total then 1 else 0)
    by (apply plain_tier; assumption).
  split; [apply plain_score; assumption |].
  split; [exact Htier |].
  repeat split; try (intros Htotal; rewrite Htier, Htotal; reflexivity).
  all: subst e s p; rewrite submitMetrics_spec in *.
  all: destruct (inputs_verified _ _ _ _ _ _); [| discriminate].
  all: destruct (_ <? UINT256_MODULUS)%N; [| discriminate].
  all: match goal with H : Ok _ = Ok _ |- _ => inversion H; subst st' end.
  all: rewrite submitted_latest, decide_True by reflexivity; reflexivity.
Qed.

End ClassifierInContract.

(** ** Re-authorization *)

Section Reauthorization.
Import BambooHoldSpeech.
Variable d : Deployment.

Lemma with_grants_with_grants gs1 gs2 st :
  with_grants gs2 (with_grants gs1 st) = with_grants (gs1 ++ gs2) st.
Proof. unfold with_grants. cbn. by rewrite app_assoc. Qed.

Lemma with_grants_nil st : with_grants [] st = st.
Proof. destruct st. unfold with_grants. cbn. by rewrite app_nil_r. Qed.

Lemma with_grants_same_storage gs st : same_storage st (with_grants gs st).
Proof. repeat split. Qed.

Lemma allow_record_spec ctx r st :
  allow_record d ctx r st = Ok (tt, with_grants (record_grants d ctx r) st).
Proof.
  destruct st as [history latest counts grants log].
  cbv [allow_record bind FHE_allow modify add_grant with_grants record_grants
       userHistory latestMetrics submissionCount acl events].
  by rewrite <- !app_assoc.
Qed.

Lemma in_record_grants ctx r h a :
  In (h, a) (record_grants d ctx r)
  <-> In h (record_handles r) /\ (a = msg_sender ctx \/ a = this d).
Proof.
  unfold record_grants, record_handles. cbn [In]. split.
  - intros H. repeat (destruct H as [H | H]; [inversion H; subst; tauto |]).
    destruct H.
  - intros [Hh [-> | ->]];
      repeat (destruct Hh as [<- | Hh]; [tauto |]); destruct Hh.
Qed.

(** [reauthorizeRecord] in one equation. *)
Lemma reauthorizeRecord_spec ctx index st :
  reauthorizeRecord d ctx index st
  = if (index <? N.of_nat (length (userHistoryOf st (msg_sender ctx))))%N
    then
      Ok (tt,
          with_grants
            (record_grants d ctx
               (userHistoryOf st (msg_sender ctx) !!! N.to_nat index)
             ++ (if (index
                     =? N.of_nat (length (userHistoryOf st (msg_sender ctx))) - 1)%N
                 then record_grants d ctx (latestMetricsOf st (msg_sender ctx))
                 else []))
            st)
    else Reverted IndexOutOfBounds.
Proof.
  cbv [reauthorizeRecord bind gets lift require ret].
  destruct (N.ltb_spec index (N.of_nat (length (userHistoryOf st (msg_sender ctx)))))
    as [Hlt | Hge]; [| reflexivity].
  rewrite allow_record_spec. unfold checked_sub.
  destruct (N.leb_spec 1 (N.of_nat (length (userHistoryOf st (msg_sender ctx)))))
    as [_ | Hzero]; [| lia].
  destruct (_ =? _)%N.
  - rewrite allow_record_spec, with_grants_with_grants. reflexivity.
  - by rewrite app_nil_r.
Qed.

Lemma reauthorize_loop_spec ctx n i st :
  (i + n <= length (userHistoryOf st (msg_sender ctx)))%nat ->
  reauthorize_loop d ctx n i st
  = Ok (tt,
        with_grants
          (flat_map (record_grants d ctx)
             (take n (drop i (userHistoryOf st (msg_sender ctx)))))
          st).
Proof.
  revert i st. induction n as [| n IH]; intros i st Hle.
  - cbn. by rewrite with_grants_nil.
  - cbn [reauthorize_loop]. cbv [bind gets].
    rewrite allow_record_spec.
    rewrite IH by (change (userHistoryOf (with_grants _ st) (msg_sender ctx))
                     with (userHistoryOf st (msg_sender ctx)); lia).
    change (userHistoryOf (with_grants _ st) (msg_sender ctx))
      with (userHistoryOf st (msg_sender ctx)).
    rewrite with_grants_with_grants.
    destruct (lookup_lt_is_Some_2 (userHistoryOf st (msg_sender ctx)) i)
      as [r Hr]; [lia |].
    rewrite (list_lookup_total_correct _ _ _ Hr).
    rewrite (drop_S _ _ _ Hr). reflexivity.
Qed.

(** [reauthorizeAllRecords] in one equation. *)
Lemma reauthorizeAllRecords_spec ctx st :
  reauthorizeAllRecords d ctx st
  = Ok (tt,
        with_grants
          (flat_map (record_grants d ctx) (userHistoryOf st (msg_sender ctx))
           ++ (if (0 <? N.of_nat (length (userHistoryOf st (msg_sender ctx))))%N
               then record_grants d ctx (latestMetricsOf st (msg_sender ctx))
               else []))
          st).
Proof.
  cbv [reauthorizeAllRecords bind gets ret].
  rewrite reauthorize_loop_spec by lia.
  rewrite drop_0, firstn_all.
  change (userHistoryOf (with_grants _ st) (msg_sender ctx))
    with (userHistoryOf st (msg_sender ctx)).
  destruct (0 <? _)%N.
  - rewrite allow_record_spec, with_grants_with_grants. reflexivity.
  - by rewrite app_nil_r.
Qed.

End Reauthorization.

(** ** Traces: what every sequence of transactions preserves *)

Section Traces.
Import BambooHoldSpeech.
Variable d : Deployment.

Lemma submitted_acl ctx e s p st :
  acl (submitted d ctx e s p st)
  = acl st ++ submit_grants d ctx (new_record ctx e s p).
Proof. reflexivity. Qed.

Lemma submitted_events ctx e s p st :
  events (submitted d ctx e s p st)
  = events st
    ++ [MetricsSubmitted (msg_sender ctx) (block_timestamp ctx)
          (N.of_nat (length (userHistoryOf st (msg_sender ctx))));
        CautionWindowUpdated (msg_sender ctx) (block_timestamp ctx)].
Proof.
  unfold submitted. cbn [events]. rewrite length_app. cbn [length].
  do 3 f_equal. lia.
Qed.

Lemma submit_grants_cover ctx r h :
  In h (record_handles r) ->
  In (h, msg_sender ctx) (submit_grants d ctx r)
  /\ In (h, this d) (submit_grants d ctx r).
Proof.
  unfold record_handles, submit_grants. cbn [In].
  intros [<- | [<- | [<- | [<- | [<- | []]]]]]; split; auto 20.
Qed.

(** *** Grants *)

Lemma acl_run txs st :
  exists gs,
    acl (run d txs st) = acl st ++ gs
    /\ Forall (fun g => snd g = this d \/ In (snd g) (senders txs)) gs.
Proof.
  revert st. induction txs as [| tx txs IH]; intros st.
  - exists []. split; [by rewrite app_nil_r | constructor].
  - cbn [run fold_left]. fold (run d txs (execute d tx st)).
    destruct (IH (execute d tx st)) as (gs2 & -> & F2).
    destruct (execute_grants d tx st) as (gs1 & -> & F1).
    exists (gs1 ++ gs2). split; [by rewrite app_assoc |].
    apply Forall_app. split.
    + eapply Forall_impl; [exact F1 |]. intros g [Hs | Ht]; [| by left].
      right. left. by rewrite Hs.
    + eapply Forall_impl; [exact F2 |]. intros g [Ht | Hs]; [by left |].
      right. by right.
Qed.

(** X3. Grants are never revoked: along any sequence of transactions the
    authorization ledger only grows at its end, and every grant added names
    the contract or the sender of one of the transactions. *)
Theorem X3_grants_never_revoked (txs : list Tx) (st : State) :
  exists gs,
    acl (run d txs st) = acl st ++ gs
    /\ Forall (fun g => snd g = this d \/ In (snd g) (senders txs)) gs
    /\ (forall h a, isAllowed st h a -> isAllowed (run d txs st) h a).
Proof.
  destruct (acl_run txs st) as (gs & Hacl & Hwho).
  exists gs. split; [exact Hacl |]. split; [exact Hwho |].
  intros h a Hin. unfold isAllowed. rewrite Hacl. apply in_or_app. by left.
Qed.

(** *** Histories *)

Lemma history_execute tx st p :
  userHistoryOf (execute d tx st) p = userHistoryOf st p
  \/ exists r,
      userHistoryOf (execute d tx st) p = userHistoryOf st p ++ [r]
      /\ latestMetricsOf (execute d tx st) p = r
      /\ timestamp r = block_timestamp (tx_ctx tx)
      /\ built_by_submit d p r.
Proof.
  destruct (execute_cases d tx st)
    as [(e & s & q & proof & _ & Hver & _ & _ & ->) | (Hsame & _ & _)].
  - rewrite submitted_history, submitted_latest.
    destruct (decide (msg_sender (tx_ctx tx) = p)) as [Heq | _]; [| by left].
    right. eexists. split; [reflexivity |]. split; [reflexivity |].
    split; [reflexivity |]. by exists (tx_ctx tx), e, s, q, proof.
  - left. by destruct (same_storage_reads _ _ p Hsame) as (-> & _).
Qed.

Lemma history_run txs st p :
  exists new,
    userHistoryOf (run d txs st) p = userHistoryOf st p ++ new
    /\ Forall (built_by_submit d p) new.
Proof.
  revert st. induction txs as [| tx txs IH]; intros st.
  - exists []. split; [by rewrite app_nil_r | constructor].
  - cbn [run fold_left]. fold (run d txs (execute d tx st)).
    destruct (IH (execute d tx st)) as (new & -> & Hnew).
    destruct (history_execute tx st p) as [-> | (r & -> & _ & _ & Hr)].
    + by exists new.
    + exists (r :: new). split; [by rewrite <- app_assoc |]. by constructor.
Qed.

(** X4. Histories are append-only: after any sequence of transactions the
    history of a principal is its old history followed by one record per
    returned [submitMetrics] of that principal, so [getMetricsAtIndex]
    returns at every old position what it returned before. *)
Theorem X4_history_append_only (txs : list Tx) (st : State) (ctx : CallCtx)
    (index : uint256) :
  (exists new,
      userHistoryOf (run d txs st) (msg_sender ctx)
      = userHistoryOf st (msg_sender ctx) ++ new
      /\ length new = successful_submits d (msg_sender ctx) txs st)
  /\ ((index < N.of_nat (length (userHistoryOf st (msg_sender ctx))))%N ->
      getMetricsAtIndex ctx index (run d txs st)
      = getMetricsAtIndex ctx index st).
Proof.
  destruct (history_run txs st (msg_sender ctx)) as (new & Hnew & _).
  split.
  - exists new. split; [exact Hnew |].
    pose proof (history_length_run d txs st (msg_sender ctx)) as Hlen.
    rewrite Hnew, length_app in Hlen. lia.
  - intros Hlt. rewrite !getMetricsAtIndex_spec, Hnew.
    by rewrite lookup_app_l by lia.
Qed.

(** X10. Every record stored in any history was built by a returned
    [submitMetrics] of its owner: its three inputs are external handles
    whose proof verified for the owner and the contract, and its score and
    tier are the classifier's handles for exactly those inputs. *)
Theorem X10_stored_records_are_classified (txs : list Tx) (p : address)
    (r : MetricsRecord) :
  In r (userHistoryOf (run d txs initial) p) ->
  exists inputEmotional inputSocial inputSleep inputProof,
    verifyCiphertext d p (this d) inputEmotional inputProof = true
    /\ verifyCiphertext d p (this d) inputSocial inputProof = true
    /\ verifyCiphertext d p (this d) inputSleep inputProof = true
    /\ emotionalFluctuation r = HInput inputEmotional
    /\ socialFatigue r = HInput inputSocial
    /\ sleepDebt r = HInput inputSleep
    /\ riskScore r
       = fst (_calculateRiskScore (emotionalFluctuation r) (socialFatigue r)
                (sleepDebt r))
    /\ cautionWindow r
       = snd (_calculateRiskScore (emotionalFluctuation r) (socialFatigue r)
                (sleepDebt r)).
Proof.
  intros Hin.
  destruct (history_run txs initial p) as (new & Hnew & Hbuilt).
  rewrite Hnew in Hin. cbn [app] in Hin.
  rewrite Forall_forall in Hbuilt. apply list_elem_of_In, Hbuilt in Hin.
  destruct Hin as (ctx & e & s & q & proof & <- & Hver & ->).
  unfold inputs_verified in Hver.
  apply andb_true_iff in Hver as [Hver H3].
  apply andb_true_iff in Hver as [H1 H2].
  exists e, s, q, proof. by repeat split.
Qed.

(** *** Stored handles stay granted *)

Lemma stored_handles_granted_execute tx st p :
  stored_handles_granted d st p ->
  stored_handles_granted d (execute d tx st) p.
Proof.
  intros Hinv r h Hr Hh.
  assert (Hmono : forall a, isAllowed st h a -> isAllowed (execute d tx st) h a).
  { intros a Ha. unfold isAllowed.
    destruct (execute_grants d tx st) as (gs & -> & _).
    apply in_or_app. by left. }
  destruct (execute_cases d tx st)
    as [(e & s & q & proof & _ & _ & _ & _ & Hex) | (Hsame & _ & _)].
  - rewrite Hex in *. rewrite submitted_history in Hr.
    destruct (decide (msg_sender (tx_ctx tx) = p)) as [Heq | _].
    + apply in_app_or in Hr as [Hold | [<- | []]].
      * destruct (Hinv r h Hold Hh). split; by apply Hmono.
      * unfold isAllowed. rewrite submitted_acl. subst p.
        destruct (submit_grants_cover (tx_ctx tx) _ h Hh).
        split; apply in_or_app; by right.
    + destruct (Hinv r h Hr Hh). split; by apply Hmono.
  - destruct (same_storage_reads _ _ p Hsame) as (H1 & _).
    rewrite H1 in Hr. destruct (Hinv r h Hr Hh). split; by apply Hmono.
Qed.

Lemma stored_handles_granted_run txs st p :
  stored_handles_granted d st p ->
  stored_handles_granted d (run d txs st) p.
Proof.
  revert st. induction txs as [| tx txs IH]; intros st H; [exact H |].
  cbn [run fold_left]. apply IH. by apply stored_handles_granted_execute.
Qed.

Lemma stored_handles_granted_initial p : stored_handles_granted d initial p.
Proof. intros r h []. Qed.

(** X5. After any sequence of transactions from the deployed state, every
    handle of every record in a principal's history is granted both to that
    principal and to the contract. *)
Theorem X5_stored_handles_are_granted (txs : list Tx) (p : address)
    (r : MetricsRecord) (h : handle) :
  In r (userHistoryOf (run d txs initial) p) ->
  In h (record_handles r) ->
  isAllowed (run d txs initial) h p
  /\ isAllowed (run d txs initial) h (this d).
Proof.
  apply (stored_handles_granted_run txs initial p),
    stored_handles_granted_initial.
Qed.

Lemma latest_in_history txs p :
  userHistoryOf (run d txs initial) p <> [] ->
  In (latestMetricsOf (run d txs initial) p) (userHistoryOf (run d txs initial) p).
Proof.
  intros Hne.
  destruct (ledger_invariant_run d txs initial p (ledger_invariant_initial p))
    as [_ Hlast].
  apply list_elem_of_In, last_Some_elem_of, Hlast, Hne.
Qed.

Lemma regrant_changes_nothing txs ctx gs :
  (forall h a, In (h, a) gs ->
     (a = msg_sender ctx \/ a = this d)
     /\ exists r, In r (userHistoryOf (run d txs initial) (msg_sender ctx))
                  /\ In h (record_handles r)) ->
  forall h a,
    isAllowed (with_grants gs (run d txs initial)) h a
    <-> isAllowed (run d txs initial) h a.
Proof.
  intros Hgs h a. unfold isAllowed, with_grants. cbn [acl].
  rewrite in_app_iff. split; [| by left].
  intros [Hold | Hnew]; [exact Hold |].
  destruct (Hgs h a Hnew) as [Ha (r & Hr & Hh)].
  destruct (stored_handles_granted_run txs initial (msg_sender ctx)
              (stored_handles_granted_initial _) r h Hr Hh) as [Hs Ht].
  by destruct Ha as [-> | ->].
Qed.

(** *** Re-authorization in the states the contract reaches *)

(** The grants a re-authorization of the caller's records issues are on
    handles of the caller's history: the contract holds a right on each of
    them already. *)
Lemma regrant_already_held txs ctx (gs : list (handle * N)) :
  (forall h a, In (h, a) gs ->
     exists r, In r (userHistoryOf (run d txs initial) (msg_sender ctx))
               /\ In h (record_handles r)) ->
  Forall (fun g => isAllowed (run d txs initial) (fst g) (this d)) gs.
Proof.
  intros Hgs. apply List.Forall_forall. intros [h a] Hin. cbn [fst].
  destruct (Hgs h a Hin) as (r & Hr & Hh).
  by destruct (stored_handles_granted_run txs initial (msg_sender ctx)
                 (stored_handles_granted_initial _) r h Hr Hh).
Qed.

(** X1. In every state reached from the deployed one, [reauthorizeRecord]
    reverts, with "Index out of bounds", exactly when the index is at least
    the length of the caller's history.  Otherwise it returns.  Every grant
    it issues is on a handle the contract already holds a right on, so the
    ledger has no ground to reject it, is to the caller or the contract,
    and is on a handle of the record at that index or of the caller's
    latest record.  Afterwards the five handles of that record are granted
    to the caller and to the contract, the storage and the event log are as
    before, and nobody has gained or lost a right. *)
Theorem X1_reauthorizeRecord_grants (txs : list Tx) (ctx : CallCtx)
    (index : uint256) :
  let st := run d txs initial in
  let sender := msg_sender ctx in
  let history := userHistoryOf st sender in
  match reauthorizeRecord d ctx index st with
  | Ok (_, st') =>
      (index < N.of_nat (length history))%N
      /\ same_storage st st'
      /\ (exists issued,
            acl st' = acl st ++ issued
            /\ Forall (fun g => isAllowed st (fst g) (this d)) issued
            /\ Forall (fun g => snd g = sender \/ snd g = this d) issued
            /\ Forall (fun g =>
                         (exists record,
                             history !! N.to_nat index = Some record
                             /\ In (fst g) (record_handles record))
                         \/ In (fst g)
                              (record_handles (latestMetricsOf st sender)))
                 issued)
      /\ (forall record h,
            history !! N.to_nat index = Some record ->
            In h (record_handles record) ->
            isAllowed st' h sender /\ isAllowed st' h (this d))
      /\ (forall h a, isAllowed st' h a <-> isAllowed st h a)
  | Reverted r =>
      r = IndexOutOfBounds /\ (N.of_nat (length history) <= index)%N
  end.
Proof.
  intros st sender history. rewrite reauthorizeRecord_spec.
  fold sender history.
  destruct (N.ltb_spec index (N.of_nat (length history))) as [Hlt | Hge];
    [| by split].
  destruct (lookup_lt_is_Some_2 history (N.to_nat index)) as [r Hr]; [lia |].
  rewrite (list_lookup_total_correct _ _ _ Hr).
  set (issued := record_grants d ctx r ++ _).
  assert (Hissued : forall h a, In (h, a) issued ->
            (a = sender \/ a = this d)
            /\ ((exists record, history !! N.to_nat index = Some record
                                /\ In h (record_handles record))
                \/ In h (record_handles (latestMetricsOf st sender)))
            /\ exists r', In r' history /\ In h (record_handles r')).
  { intros h a Hin. apply in_app_or in Hin as [Hrec | Hlatest].
    - apply in_record_grants in Hrec as [Hh Ha]. split; [exact Ha |].
      split; [left; by exists r |]. exists r. split; [| exact Hh].
      apply list_elem_of_In. by eapply list_elem_of_lookup_2.
    - destruct (_ =? _)%N; [| destruct Hlatest].
      apply in_record_grants in Hlatest as [Hh Ha]. split; [exact Ha |].
      split; [by right |]. eexists. split; [| exact Hh].
      apply latest_in_history. intros Hnil. fold st sender history in Hnil.
      rewrite Hnil in Hlt. cbn in Hlt. lia. }
  split; [exact Hlt |]. split; [apply with_grants_same_storage |].
  split; [| split].
  - exists issued. split; [reflexivity |]. split; [| split].
    + apply (regrant_already_held txs ctx). intros h a Hin.
      by destruct (Hissued h a Hin) as (_ & _ & H).
    + apply List.Forall_forall. intros [h a] Hin.
      by destruct (Hissued h a Hin) as (H & _).
    + apply List.Forall_forall. intros [h a] Hin.
      by destruct (Hissued h a Hin) as (_ & H & _).
  - intros record h Hrec Hh. assert (record = r) as -> by congruence.
    unfold isAllowed, with_grants, issued. cbn [acl].
    split; apply in_or_app; right; apply in_or_app; left;
      apply in_record_grants; tauto.
  - apply (regrant_changes_nothing txs ctx). intros h a Hin.
    destruct (Hissued h a Hin) as (Ha & _ & H). by split.
Qed.

(** X2. In every state reached from the deployed one,
    [reauthorizeAllRecords] returns.  Every grant it issues is on a handle
    the contract already holds a right on, so the ledger has no ground to
    reject it, is to the caller or the contract, and is on a handle of a
    record of the caller's history.  Afterwards every handle of every
    record of the caller is granted to the caller and to the contract, the
    storage and the event log are as before, and nobody has gained or lost
    a right; on an empty history the state is left as it is. *)
Theorem X2_reauthorizeAllRecords_grants (txs : list Tx) (ctx : CallCtx) :
  let st := run d txs initial in
  let sender := msg_sender ctx in
  let history := userHistoryOf st sender in
  exists st',
    reauthorizeAllRecords d ctx st = Ok (tt, st')
    /\ same_storage st st'
    /\ (exists issued,
          acl st' = acl st ++ issued
          /\ Forall (fun g => isAllowed st (fst g) (this d)) issued
          /\ Forall (fun g => snd g = sender \/ snd g = this d) issued
          /\ Forall (fun g =>
                       exists record,
                         In record history
                         /\ In (fst g) (record_handles record))
               issued)
    /\ (forall record h,
          In record history -> In h (record_handles record) ->
          isAllowed st' h sender /\ isAllowed st' h (this d))
    /\ (forall h a, isAllowed st' h a <-> isAllowed st h a)
    /\ (history = [] -> st' = st).
Proof.
  intros st sender history. rewrite reauthorizeAllRecords_spec.
  fold sender history. eexists. split; [reflexivity |].
  set (issued := flat_map (record_grants d ctx) history ++ _).
  assert (Hissued : forall h a, In (h, a) issued ->
            (a = sender \/ a = this d)
            /\ exists record, In record history /\ In h (record_handles record)).
  { intros h a Hin. apply in_app_or in Hin as [Hrec | Hlatest].
    - apply in_flat_map in Hrec as (r & Hr & Hg).
      apply in_record_grants in Hg as [Hh Ha]. split; [exact Ha |].
      by exists r.
    - destruct (N.ltb_spec 0 (N.of_nat (length history)))
        as [Hpos | Hzero]; [| destruct Hlatest].
      apply in_record_grants in Hlatest as [Hh Ha]. split; [exact Ha |].
      eexists. split; [| exact Hh]. apply latest_in_history.
      intros Hnil. fold st sender history in Hnil.
      rewrite Hnil in Hpos. cbn in Hpos. lia. }
  split; [apply with_grants_same_storage |].
  split; [| split; [| split]].
  - exists issued. split; [reflexivity |]. split; [| split].
    + apply (regrant_already_held txs ctx). intros h a Hin.
      by destruct (Hissued h a Hin) as (_ & H).
    + apply List.Forall_forall. intros [h a] Hin.
      by destruct (Hissued h a Hin) as (H & _).
    + apply List.Forall_forall. intros [h a] Hin.
      by destruct (Hissued h a Hin) as (_ & H).
  - intros record h Hrec Hh.
    unfold isAllowed, with_grants, issued. cbn [acl].
    split; apply in_or_app; right; apply in_or_app; left;
      apply in_flat_map; exists record; (split; [exact Hrec |]);
      apply in_record_grants; tauto.
  - apply (regrant_changes_nothing txs ctx). exact Hissued.
  - intros Hnil. unfold issued. rewrite Hnil. cbn. apply with_grants_nil.
Qed.

(** X6. In any state reached from the deployed one, re-authorization is
    idempotent: a [reauthorizeRecord] or [reauthorizeAllRecords]
    transaction, returning or not, changes neither the storage nor who is
    allowed on which handle. *)
Theorem X6_reauthorization_changes_no_right (txs : list Tx) (ctx : CallCtx) :
  let st := run d txs initial in
  (forall index,
      let st' := execute d {| tx_ctx := ctx;
                              tx_call := CallReauthorizeRecord index |} st in
      same_storage st st'
      /\ forall h a, isAllowed st' h a <-> isAllowed st h a)
  /\ (let st' := execute d {| tx_ctx := ctx;
                              tx_call := CallReauthorizeAllRecords |} st in
      same_storage st st'
      /\ forall h a, isAllowed st' h a <-> isAllowed st h a).
Proof.
  intros st. split.
  - intros index st'. subst st'. unfold execute, dispatch.
    cbn [tx_call tx_ctx]. rewrite reauthorizeRecord_spec.
    destruct (N.ltb_spec index
                (N.of_nat (length (userHistoryOf st (msg_sender ctx)))))
      as [Hlt | Hge]; [| split; [apply same_storage_refl | reflexivity]].
    split; [apply with_grants_same_storage |].
    apply (regrant_changes_nothing txs ctx). intros h a Hin.
    destruct (lookup_lt_is_Some_2 (userHistoryOf st (msg_sender ctx))
                (N.to_nat index)) as [r Hr]; [lia |].
    rewrite (list_lookup_total_correct _ _ _ Hr) in Hin.
    apply in_app_or in Hin as [Hrec | Hlatest].
    + apply in_record_grants in Hrec as [Hh Ha]. split; [exact Ha |].
      exists r. split; [| exact Hh].
      apply list_elem_of_In. by eapply list_elem_of_lookup_2.
    + destruct (_ =? _)%N; [| destruct Hlatest].
      apply in_record_grants in Hlatest as [Hh Ha]. split; [exact Ha |].
      eexists. split; [| exact Hh]. apply latest_in_history.
      intros Hnil. fold st in Hnil. rewrite Hnil in Hlt. cbn in Hlt. lia.
  - intros st'. subst st'. unfold execute, dispatch.
    cbn [tx_call tx_ctx]. rewrite reauthorizeAllRecords_spec.
    split; [apply with_grants_same_storage |].
    apply (regrant_changes_nothing txs ctx). intros h a Hin.
    apply in_app_or in Hin as [Hrec | Hlatest].
    + apply in_flat_map in Hrec as (r & Hr & Hg).
      apply in_record_grants in Hg as [Hh Ha]. split; [exact Ha |].
      by exists r.
    + destruct (N.ltb_spec 0
                  (N.of_nat (length (userHistoryOf st (msg_sender ctx)))))
        as [Hpos | Hzero]; [| destruct Hlatest].
      apply in_record_grants in Hlatest as [Hh Ha]. split; [exact Ha |].
      eexists. split; [| exact Hh]. apply latest_in_history.
      intros Hnil. fold st in Hnil. rewrite Hnil in Hpos. cbn in Hpos. lia.
Qed.

(** *** Counts and the last timestamp *)

(** X7. After any sequence of transactions from the deployed state,
    [getHistoryCount] and the first component of [getSummary] both equal the
    number of the caller's [submitMetrics] calls that returned, and the
    second component of [getSummary] is what [getLastUpdateTimestamp]
    returns. *)
Theorem X7_counts_are_returned_submissions (txs : list Tx) (ctx : CallCtx) :
  let st := run d txs initial in
  let n := N.of_nat (successful_submits d (msg_sender ctx) txs initial) in
  getHistoryCount ctx st = Ok n
  /\ submissionCountOf st (msg_sender ctx) = n
  /\ exists lastTimestamp,
      getSummary ctx st = Ok (n, lastTimestamp)
      /\ getLastUpdateTimestamp ctx st = Ok lastTimestamp.
Proof.
  intros st n.
  assert (Hlen : N.of_nat (length (userHistoryOf st (msg_sender ctx))) = n).
  { subst st n. by rewrite history_length_run, initial_history. }
  destruct (ledger_invariant_run d txs initial (msg_sender ctx)
              (ledger_invariant_initial _)) as [Hcount _].
  fold st in Hcount. rewrite Hlen in Hcount.
  split; [unfold getHistoryCount; by rewrite Hlen |].
  split; [exact Hcount |].
  eexists. unfold getSummary, getLastUpdateTimestamp. rewrite Hcount.
  by split.
Qed.

(** X8. For blocks with a positive timestamp, [getLastUpdateTimestamp]
    returns 0 exactly when no [submitMetrics] of the caller has returned;
    otherwise it returns the positive timestamp of the last record of the
    caller's history. *)
Theorem X8_last_timestamp_is_a_sentinel (txs : list Tx) (ctx : CallCtx) :
  Forall valid_tx txs ->
  let st := run d txs initial in
  (getLastUpdateTimestamp ctx st = Ok 0%N
   <-> successful_submits d (msg_sender ctx) txs initial = 0%nat)
  /\ (forall record,
        last (userHistoryOf st (msg_sender ctx)) = Some record ->
        getLastUpdateTimestamp ctx st = Ok (timestamp record)
        /\ (0 < timestamp record)%N).
Proof.
  intros Hvalid st.
  assert (Hstamped : userHistoryOf st (msg_sender ctx) <> [] ->
            (0 < timestamp (latestMetricsOf st (msg_sender ctx)))%N).
  { apply (latest_stamped_run d txs initial _ Hvalid). intros H. by destruct H. }
  destruct (ledger_invariant_run d txs initial (msg_sender ctx)
              (ledger_invariant_initial _)) as [_ Hlast].
  fold st in Hlast.
  pose proof (history_length_run d txs initial (msg_sender ctx)) as Hlen.
  fold st in Hlen. rewrite initial_history in Hlen. cbn [length] in Hlen.
  unfold getLastUpdateTimestamp. split; [split |].
  - intros Hzero. inversion Hzero as [Hts].
    destruct (userHistoryOf st (msg_sender ctx)) as [| r rest] eqn:Eh.
    + cbn in Hlen. lia.
    + assert (Hne : r :: rest <> []) by discriminate.
      specialize (Hstamped Hne). lia.
  - intros Hnone.
    destruct (never_submitted_state d txs _ Hnone) as (_ & Hz & _).
    fold st in Hz. by rewrite Hz.
  - intros record Hrec.
    assert (Hne : userHistoryOf st (msg_sender ctx) <> []).
    { intros Hnil. by rewrite Hnil in Hrec. }
    specialize (Hlast Hne). specialize (Hstamped Hne).
    assert (record = latestMetricsOf st (msg_sender ctx)) as -> by congruence.
    by split.
Qed.

(** *** Events *)

Lemma history_events_snoc p history r :
  history_events p (history ++ [r])
  = history_events p history
    ++ [MetricsSubmitted p (timestamp r) (N.of_nat (length history));
        CautionWindowUpdated p (timestamp r)].
Proof.
  unfold history_events. rewrite imap_app, concat_app. cbn [imap concat].
  by rewrite Nat.add_0_r, app_nil_r.
Qed.

Lemma events_mirror_execute tx st :
  (forall p, events_of p (events st) = history_events p (userHistoryOf st p)) ->
  forall p,
    events_of p (events (execute d tx st))
    = history_events p (userHistoryOf (execute d tx st) p).
Proof.
  intros Hinv p.
  destruct (execute_cases d tx st)
    as [(e & s & q & proof & _ & _ & _ & _ & ->) | (Hsame & _ & _)].
  - rewrite submitted_events, submitted_history.
    unfold events_of. rewrite List.filter_app. fold (events_of p (events st)).
    rewrite Hinv. cbn [List.filter event_user].
    destruct (decide (msg_sender (tx_ctx tx) = p)) as [<- | Hne].
    + rewrite N.eqb_refl, history_events_snoc. reflexivity.
    + destruct (N.eqb_spec (msg_sender (tx_ctx tx)) p) as [Heq | _];
        [by destruct Hne |].
      by rewrite app_nil_r.
  - destruct (same_storage_reads _ _ p Hsame) as (-> & _).
    destruct Hsame as (_ & _ & _ & ->). apply Hinv.
Qed.

(** X9. The event log mirrors the histories: after any sequence of
    transactions from the deployed state, the events indexed by a principal
    are, in order, one [MetricsSubmitted] and one [CautionWindowUpdated] per
    record of that principal's history, carrying the record's timestamp and,
    for [MetricsSubmitted], its position 0, 1, 2, ... *)
Theorem X9_events_mirror_histories (txs : list Tx) (p : address) :
  events_of p (events (run d txs initial))
  = history_events p (userHistoryOf (run d txs initial) p).
Proof.
  revert p.
  assert (Hgen : forall st,
    (forall p, events_of p (events st) = history_events p (userHistoryOf st p)) ->
    forall p, events_of p (events (run d txs st))
              = history_events p (userHistoryOf (run d txs st) p)).
  { induction txs as [| tx txs IH]; intros st Hinv; [exact Hinv |].
    cbn [run fold_left]. apply IH. by apply events_mirror_execute. }
  apply Hgen. intros p. reflexivity.
Qed.

(** *** Chronological order *)

Lemma history_times_run txs st :
  StronglySorted N.le (block_times txs) ->
  (forall p, StronglySorted N.le (timestamp <$> userHistoryOf st p)) ->
  (forall p r t, In r (userHistoryOf st p) -> In t (block_times txs) ->
     (timestamp r <= t)%N) ->
  forall p, StronglySorted N.le (timestamp <$> userHistoryOf (run d txs st) p).
Proof.
  revert st. induction txs as [| tx txs IH]; intros st Htimes Hsorted Hbound;
    [exact Hsorted |].
  cbn [run fold_left]. cbn [block_times map] in Htimes.
  apply StronglySorted_cons in Htimes as [Hfirst Hrest].
  apply IH; [exact Hrest | |].
  - intros p.
    destruct (history_execute tx st p) as [-> | (r & -> & _ & Hts & _)];
      [apply Hsorted |].
    rewrite fmap_app. apply StronglySorted_app_2.
    + intros t1 t2 H1 H2. apply list_elem_of_fmap in H1 as (r1 & -> & Hr1).
      cbn in H2. apply list_elem_of_singleton in H2 as ->. rewrite Hts.
      apply (Hbound p r1); [by apply list_elem_of_In | by left].
    + apply Hsorted.
    + repeat constructor.
  - intros p r t Hr Ht.
    destruct (history_execute tx st p) as [Heq | (r' & Heq & _ & Hts & _)];
      rewrite Heq in Hr.
    + apply (Hbound p r t Hr). by right.
    + apply in_app_or in Hr as [Hold | [<- | []]].
      * apply (Hbound p r t Hold). by right.
      * rewrite Hts. rewrite Forall_forall in Hfirst.
        apply Hfirst. by apply list_elem_of_In.
Qed.

(** X13. Position order is chronological order: when the block times of the
    transactions never go back, the timestamps of the records of every
    history are in non-decreasing order. *)
Theorem X13_histories_are_chronological (txs : list Tx) (p : address) :
  StronglySorted N.le (block_times txs) ->
  StronglySorted N.le (timestamp <$> userHistoryOf (run d txs initial) p).
Proof.
  intros Htimes. apply history_times_run; [exact Htimes | |].
  - intros q. constructor.
  - intros q r t [].
Qed.

End Traces.

(** ** The classifier on arbitrary inputs *)

Section ClassifierBeyondDomain.
Import BambooHoldSpeech.
Variable inputPlain : N -> Z.
Local Abbreviation plain := (FHE.plain inputPlain).

Lemma plain_totalWeighted_any (e s p : euint16) :
  plain (FHE.add (FHE.add (FHE.mul e (FHE.asEuint16 12))
                          (FHE.mul s (FHE.asEuint16 10)))
                 (FHE.mul p (FHE.asEuint16 15)))
  = (12 * plain e + 10 * plain s + 15 * plain p) mod 2 ^ 16.
Proof.
  unfold FHE.add, FHE.mul, FHE.asEuint16. cbn [FHE.plain].
  unfold wrap. cbn [bitWidth].
  change (12 mod 2 ^ 16) with 12. change (10 mod 2 ^ 16) with 10.
  change (15 mod 2 ^ 16) with 15.
  change (2 ^ 16) with 65536.
  generalize (plain e) (plain s) (plain p). intros a b c.
  Z.div_mod_to_equations. lia.
Qed.

Lemma plain_score_any (e s p : euint16) :
  plain (fst (_calculateRiskScore e s p))
  = (12 * plain e + 10 * plain s + 15 * plain p) mod 2 ^ 16.
Proof.
  cbn [_calculateRiskScore fst]. unfold FHE.asEuint32. cbn [FHE.plain].
  rewrite plain_totalWeighted_any. apply wrap_small. cbn [bitWidth].
  pose proof (Z.mod_pos_bound (12 * plain e + 10 * plain s + 15 * plain p)
                (2 ^ 16)). lia.
Qed.

Lemma plain_tier_any (e s p : euint16) :
  let total := (12 * plain e + 10 * plain s + 15 * plain p) mod 2 ^ 16 in
  plain (snd (_calculateRiskScore e s p))
  = if 1850 <=? total then 2 else if 1110 <=? total then 1 else 0.
Proof.
  intros total. rewrite plain_tier_cases. cbv zeta.
  by rewrite plain_totalWeighted_any.
Qed.

(** X11. On arbitrary inputs the score decrypts to the weighted sum
    12*emotional + 10*social + 15*sleep reduced modulo 2^16, the width the
    sum is computed at, and the tier is the threshold tier of that reduced
    sum; so the decrypted score and tier depend on the inputs only through
    their plaintexts. *)
Theorem X11_score_is_weighted_sum_mod_65536 (e s p : euint16) :
  let total := (12 * plain e + 10 * plain s + 15 * plain p) mod 2 ^ 16 in
  plain (fst (_calculateRiskScore e s p)) = total
  /\ plain (snd (_calculateRiskScore e s p))
     = (if 1850 <=? total then 2 else if 1110 <=? total then 1 else 0)
  /\ 0 <= plain (fst (_calculateRiskScore e s p)) < 2 ^ 16
  /\ (forall e' s' p' : euint16,
        plain e' = plain e -> plain s' = plain s -> plain p' = plain p ->
        plain (fst (_calculateRiskScore e' s' p'))
        = plain (fst (_calculateRiskScore e s p))
        /\ plain (snd (_calculateRiskScore e' s' p'))
           = plain (snd (_calculateRiskScore e s p))).
Proof.
  intros total. split; [apply plain_score_any |].
  split; [apply plain_tier_any |]. split.
  - rewrite plain_score_any. apply Z.mod_pos_bound. lia.
  - intros e' s' p' He Hs Hp.
    rewrite !plain_score_any, !plain_tier_any. cbv zeta.
    by rewrite He, Hs, Hp.
Qed.

(** X12. On the domain [0,100] the classifier is monotone: raising any of
    the three inputs never lowers the decrypted score or the decrypted
    tier. *)
Theorem X12_classifier_is_monotone (e s p e' s' p' : euint16) :
  0 <= plain e <= plain e' -> plain e' <= 100 ->
  0 <= plain s <= plain s' -> plain s' <= 100 ->
  0 <= plain p <= plain p' -> plain p' <= 100 ->
  plain (fst (_calculateRiskScore e s p))
  <= plain (fst (_calculateRiskScore e' s' p'))
  /\ plain (snd (_calculateRiskScore e s p))
     <= plain (snd (_calculateRiskScore e' s' p')).
Proof.
  intros He He' Hs Hs' Hp Hp'.
  rewrite !plain_score by lia. rewrite !plain_tier by lia. cbv zeta.
  split; [lia |].
  repeat match goal with
         | |- context [?a <=? ?b] => destruct (Z.leb_spec a b)
         end; lia.
Qed.

End ClassifierBeyondDomain.

(** ** The batch disclosure: edge cases and what reaches the oracle *)

Section DisclosureInteractions.
Import Disclosure.

(** X14. On an empty batch [userDecryptBatch] makes no interaction at all,
    and returns the empty list exactly when an FHEVM instance is present and
    a non-empty account is connected, whatever the contract address looks
    like; otherwise it throws. *)
Theorem X14_empty_batch_returns_nothing_asks_nothing (c : Context)
    (contractAddress : string) (signer : Signer) (log : list Action) :
  snd (userDecryptBatch c [] contractAddress signer log) = log
  /\ (fst (userDecryptBatch c [] contractAddress signer log) = Returned []
      <-> is_Some (fhevmInstance c) /\ truthy (account c) = true)
  /\ (fst (userDecryptBatch c [] contractAddress signer log) = Returned []
      \/ exists msg,
          fst (userDecryptBatch c [] contractAddress signer log) = Thrown msg).
Proof.
  unfold userDecryptBatch.
  destruct (fhevmInstance c) as [inst |].
  - destruct (account c) as [acct |].
    + destruct (truthy (Some acct)) eqn:Et; cbn.
      * split; [reflexivity |]. split; [| by left].
        split; [intros _; split; [by eexists | reflexivity] | reflexivity].
      * split; [reflexivity |]. split; [| right; by eexists].
        split; [discriminate | intros [_ H]; discriminate].
    + cbn. split; [reflexivity |]. split; [| right; by eexists].
      split; [discriminate | intros [_ H]; discriminate].
  - cbn. split; [reflexivity |]. split; [| right; by eexists].
    split; [discriminate | intros [[? H] _]; discriminate].
Qed.

(** X15. A run on a non-empty batch calls the oracle at most once, and only
    after the wallet has returned a signature for the statement built from
    the fresh keypair: the single oracle request carries exactly the
    requested handles, in order, each paired with the given contract
    address, that signature, the keypair, the connected account, the start
    time [floor(Date.now() / 1000)] and a validity of 365 days; the four
    interactions happen in the order keypair, statement, signature,
    oracle. *)
Theorem X15_oracle_request_follows_the_signature (c : Context)
    (handles : list Handle) (contractAddress : string) (signer : Signer)
    (log : list Action) :
  handles <> [] ->
  exists outcome acts,
    userDecryptBatch c handles contractAddress signer log
    = (outcome, log ++ acts)
    /\ (length (List.filter is_oracle_request acts) <= 1)%nat
    /\ (forall pairs sk pk sig addrs user start dur,
          In (ActUserDecrypt pairs sk pk sig addrs user start dur) acts ->
          pairs = map (fun h => (toString h, contractAddress)) handles
          /\ addrs = [contractAddress]
          /\ account c = Some user
          /\ start = Date_now c / 1000
          /\ dur = 365
          /\ exists inst mk eip,
              fhevmInstance c = Some inst
              /\ generateKeypair inst
                 = Some (Returned {| publicKey := pk; privateKey := sk |})
              /\ createEIP712 inst = Some mk
              /\ mk pk [contractAddress] start 365 = Returned eip
              /\ signTypedData signer (domain eip)
                   (types_UserDecryptRequestVerification eip) (message eip)
                 = Returned sig
              /\ acts
                 = [ActGenerateKeypair;
                    ActCreateEIP712 pk [contractAddress] start 365;
                    ActSignTypedData (domain eip)
                      (types_UserDecryptRequestVerification eip) (message eip);
                    ActUserDecrypt pairs sk pk sig addrs user start dur]).
Proof.
  intros Hne.
  destruct (userDecryptBatch_cases c handles contractAddress signer log Hne)
    as [[_ [msg ->]]
       | (inst & acct & gen & mk & Einst & Eacct & Egen & Emk & _ & ->)].
  { exists (Thrown msg), []. rewrite app_nil_r.
    split; [reflexivity |]. split; [cbn; lia |]. intros * []. }
  destruct gen as [[pk sk] | msg].
  2:{ eexists _, _. split; [reflexivity |]. split; [cbn; lia |].
      intros * [H | []]. discriminate. }
  cbv zeta. cbn [publicKey privateKey].
  destruct (mk _ _ _ _) as [eip | msg] eqn:Eeip.
  2:{ eexists _, _. split; [reflexivity |]. split; [cbn; lia |].
      intros * [H | [H | []]]; discriminate. }
  destruct (signTypedData _ _ _ _) as [signature | msg] eqn:Esig.
  2:{ eexists _, _. split; [reflexivity |]. split; [cbn; lia |].
      intros * [H | [H | [H | []]]]; discriminate. }
  assert (Hreq : forall outcome,
    exists acts,
      (outcome,
       log ++ [ActGenerateKeypair;
               ActCreateEIP712 pk [contractAddress] (Date_now c / 1000) 365;
               ActSignTypedData (domain eip)
                 (types_UserDecryptRequestVerification eip) (message eip);
               ActUserDecrypt
                 (map (fun h => (toString h, contractAddress)) handles)
                 sk pk signature [contractAddress] acct
                 (Date_now c / 1000) 365])
      = (outcome : Outcome (list Z), log ++ acts)
      /\ (length (List.filter is_oracle_request acts) <= 1)%nat
      /\ (forall pairs sk' pk' sig addrs user start dur,
            In (ActUserDecrypt pairs sk' pk' sig addrs user start dur) acts ->
            pairs = map (fun h => (toString h, contractAddress)) handles
            /\ addrs = [contractAddress]
            /\ account c = Some user
            /\ start = Date_now c / 1000
            /\ dur = 365
            /\ exists inst' mk' eip',
                fhevmInstance c = Some inst'
                /\ generateKeypair inst'
                   = Some (Returned {| publicKey := pk'; privateKey := sk' |})
                /\ createEIP712 inst' = Some mk'
                /\ mk' pk' [contractAddress] start 365 = Returned eip'
                /\ signTypedData signer (domain eip')
                     (types_UserDecryptRequestVerification eip') (message eip')
                   = Returned sig
                /\ acts
                   = [ActGenerateKeypair;
                      ActCreateEIP712 pk' [contractAddress] start 365;
                      ActSignTypedData (domain eip')
                        (types_UserDecryptRequestVerification eip')
                        (message eip');
                      ActUserDecrypt pairs sk' pk' sig addrs user start dur])).
  { intros outcome. eexists. split; [reflexivity |]. split; [cbn; lia |].
    intros * [H | [H | [H | [H | []]]]]; try discriminate.
    inversion H; subst. do 5 (split; [done |]).
    exists inst, mk, eip. by repeat split. }
  destruct (userDecrypt _ _ _ _ _ _ _ _ _) as [[n | r] | msg].
  - destruct (Hreq (Thrown "Unexpected result type: bigint")) as (acts & ? & ?).
    by eexists _, acts.
  - destruct (Hreq (extract c r handles [])) as (acts & ? & ?).
    by eexists _, acts.
  - destruct (Hreq (Thrown msg)) as (acts & ? & ?). by eexists _, acts.
Qed.

(** *** The single-handle disclosure *)

(** [userDecrypt] either stops at a guard before any interaction, or runs
    its interactions in order until one of them throws. *)
Lemma userDecrypt_cases c handle contractAddress signer log :
  (exists msg,
      Provider.userDecrypt c handle contractAddress signer log
      = (Thrown msg, log)
      /\ (fhevmInstance c = None \/ truthy (account c) = false
          \/ exists inst,
              fhevmInstance c = Some inst /\ generateKeypair inst = None))
  \/ (exists inst acct gen,
        fhevmInstance c = Some inst /\ account c = Some acct
        /\ truthy (Some acct) = true
        /\ generateKeypair inst = Some gen
        /\ Provider.userDecrypt c handle contractAddress signer log
           = match gen with
             | Thrown msg => (Thrown msg, log ++ [ActGenerateKeypair])
             | Returned kp =>
               let start := Date_now c / 1000 in
               let a1 := ActCreateEIP712 (publicKey kp) [contractAddress] start 365 in
               match createEIP712 inst with
               | None =>
                   (Thrown "createEIP712 not available on FHEVM instance",
                    log ++ [ActGenerateKeypair])
               | Some mk =>
               match mk (publicKey kp) [contractAddress] start 365 with
               | Thrown msg => (Thrown msg, log ++ [ActGenerateKeypair; a1])
               | Returned eip =>
                 let a2 := ActSignTypedData (domain eip)
                             (types_UserDecryptRequestVerification eip)
                             (message eip) in
                 match signTypedData signer (domain eip)
                         (types_UserDecryptRequestVerification eip)
                         (message eip) with
                 | Thrown msg => (Thrown msg, log ++ [ActGenerateKeypair; a1; a2])
                 | Returned signature =>
                   let pairs := [(toString handle, contractAddress)] in
                   let a3 := ActUserDecrypt pairs (privateKey kp) (publicKey kp)
                               signature [contractAddress] acct start 365 in
                   let acts := [ActGenerateKeypair; a1; a2; a3] in
                   match userDecrypt inst pairs (privateKey kp) (publicKey kp)
                           signature [contractAddress] acct start 365 with
                   | Thrown msg => (Thrown msg, log ++ acts)
                   | Returned (ResultBigint _) =>
                       (Thrown "Unexpected result type: bigint", log ++ acts)
                   | Returned (ResultRecord r) =>
                       (match property r (toString handle) with
                        | Undefined => Thrown "Failed to decrypt handle"
                        | OwnEntry v => Returned v
                        | InheritedMember name =>
                            Thrown (BigInt_SyntaxError c name)
                        end, log ++ acts)
                   end
                 end
               end
               end
             end).
Proof.
  unfold Provider.userDecrypt.
  destruct (fhevmInstance c) as [inst |] eqn:Einst; [| left; eauto].
  destruct (account c) as [acct |] eqn:Eacct; [| left; eauto].
  destruct (truthy (Some acct)) eqn:Et; cbn [negb]; [| left; eauto].
  destruct (generateKeypair inst) as [gen |] eqn:Egen;
    [| left; eexists; split; [reflexivity | right; right; eauto]].
  right. exists inst, acct, gen. do 4 (split; [first [assumption | reflexivity] |]).
  unfold dbind, call, throw, dret.
  destruct gen as [kp | msg]; [| reflexivity].
  destruct (createEIP712 inst) as [mk |]; [| reflexivity].
  cbv zeta.
  destruct (mk _ _ _ _) as [eip | msg]; [| by rewrite <- app_assoc].
  destruct (signTypedData _ _ _ _) as [signature | msg];
    [| by rewrite <- !app_assoc].
  destruct (userDecrypt _ _ _ _ _ _ _ _ _) as [[n | r] | msg];
    try by rewrite <- !app_assoc.
  destruct (property r (toString handle)); by rewrite <- !app_assoc.
Qed.

(** X16. [userDecrypt] asks the wallet for at most one signature.  When it
    returns, it has asked for exactly one, has sent the oracle the one pair
    of the handle and the given contract address, and returns the oracle's
    entry for that handle.  When the oracle's response lacks the handle it
    throws: "Failed to decrypt handle", or, when the handle's string is the
    name of a member every object inherits, the error [BigInt] raises on
    that member. *)
Theorem X16_userDecrypt_single_handle (c : Context) (handle : Handle)
    (contractAddress : string) (signer : Signer) (log : list Action) :
  exists outcome acts,
    Provider.userDecrypt c handle contractAddress signer log
    = (outcome, log ++ acts)
    /\ (signatures_requested acts <= 1)%nat
    /\ match outcome with
       | Returned value =>
           signatures_requested acts = 1%nat
           /\ exists inst sk pk sig user start dur r,
               fhevmInstance c = Some inst
               /\ In (ActUserDecrypt [(toString handle, contractAddress)]
                        sk pk sig [contractAddress] user start dur) acts
               /\ userDecrypt inst [(toString handle, contractAddress)]
                    sk pk sig [contractAddress] user start dur
                  = Returned (ResultRecord r)
               /\ r !! toString handle = Some value
       | Thrown _ => True
       end
    /\ (forall inst pairs sk pk sig addrs user start dur r,
          fhevmInstance c = Some inst ->
          In (ActUserDecrypt pairs sk pk sig addrs user start dur) acts ->
          userDecrypt inst pairs sk pk sig addrs user start dur
          = Returned (ResultRecord r) ->
          r !! toString handle = None ->
          outcome
          = Thrown (if inherited (toString handle)
                    then BigInt_SyntaxError c (toString handle)
                    else "Failed to decrypt handle")).
Proof.
  destruct (userDecrypt_cases c handle contractAddress signer log)
    as [(msg & -> & _)
       | (inst & acct & gen & Einst & Eacct & Et & Egen & ->)].
  { exists (Thrown msg), []. rewrite app_nil_r.
    split; [reflexivity |]. split; [cbn; lia |]. split; [exact I |].
    intros * _ []. }
  destruct gen as [kp | msg].
  2:{ eexists _, _. split; [reflexivity |]. split; [cbn; lia |].
      split; [exact I |]. intros * _ [H | []]. discriminate. }
  cbv zeta. destruct (createEIP712 inst) as [mk |].
  2:{ eexists _, _. split; [reflexivity |]. split; [cbn; lia |].
      split; [exact I |]. intros * _ [H | []]. discriminate. }
  destruct (mk _ _ _ _) as [eip | msg].
  2:{ eexists _, _. split; [reflexivity |]. split; [cbn; lia |].
      split; [exact I |]. intros * _ [H | [H | []]]; discriminate. }
  destruct (signTypedData _ _ _ _) as [signature | msg].
  2:{ eexists _, _. split; [reflexivity |]. split; [cbn; lia |].
      split; [exact I |]. intros * _ [H | [H | [H | []]]]; discriminate. }
  destruct (userDecrypt _ _ _ _ _ _ _ _ _) as [[n | r] | msg] eqn:Eoracle.
  - eexists _, _. split; [reflexivity |]. split; [cbn; lia |].
    split; [exact I |].
    intros * Hi [H | [H | [H | [H | []]]]]; try discriminate.
    inversion H; subst. congruence.
  - pose proof (property_cases r (toString handle)) as Hp.
    destruct (property r (toString handle)) as [| v | name].
    + destruct Hp as [_ Hown].
      eexists _, _. split; [reflexivity |]. split; [cbn; lia |].
      split; [exact I |]. intros. by rewrite Hown.
    + eexists _, _. split; [reflexivity |]. split; [cbn; lia |]. split.
      * split; [reflexivity |].
        eexists inst, _, _, _, _, _, _, r. split; [exact Einst |].
        split; [right; right; right; left; reflexivity |]. by split.
      * intros * Hi [H | [H | [H | [H | []]]]]; try discriminate.
        inversion H; subst. intros Hr Hnone.
        assert (r0 = r) by congruence. subst r0. congruence.
    + destruct Hp as (_ & Hinh & ->).
      eexists _, _. split; [reflexivity |]. split; [cbn; lia |].
      split; [exact I |]. intros. by rewrite Hinh.
  - eexists _, _. split; [reflexivity |]. split; [cbn; lia |].
    split; [exact I |].
    intros * Hi [H | [H | [H | [H | []]]]]; try discriminate.
    inversion H; subst. congruence.
Qed.

(** X17. For a well-formed contract address on a ready instance,
    [userDecrypt] on a handle and [userDecryptBatch] on the one-element
    batch of that handle make the same interactions, and one returns a value
    exactly when the other returns the list holding that value; one throws
    exactly when the other does. *)
Theorem X17_single_agrees_with_batch_of_one (c : Context) (handle : Handle)
    (contractAddress : string) (signer : Signer) (log : list Action) :
  checks_pass c contractAddress = true ->
  snd (Provider.userDecrypt c handle contractAddress signer log)
  = snd (userDecryptBatch c [handle] contractAddress signer log)
  /\ (forall value,
        fst (Provider.userDecrypt c handle contractAddress signer log)
        = Returned value
        <-> fst (userDecryptBatch c [handle] contractAddress signer log)
            = Returned [value])
  /\ ((exists msg,
         fst (Provider.userDecrypt c handle contractAddress signer log)
         = Thrown msg)
      <-> (exists msg,
             fst (userDecryptBatch c [handle] contractAddress signer log)
             = Thrown msg)).
Proof.
  intros Hpass.
  destruct (userDecryptBatch_cases c [handle] contractAddress signer log)
    as [[Hfail _]
       | (inst & acct & gen & mk & Einst & Eacct & Egen & Emk & _ & ->)];
    [discriminate | congruence |].
  destruct (userDecrypt_cases c handle contractAddress signer log)
    as [(msg & _ & [Hnone | [Hacct | (inst' & Hi & Hg)]])
       | (inst' & acct' & gen' & Einst' & Eacct' & _ & Egen' & ->)];
    [congruence | | congruence |].
  { unfold checks_pass in Hpass. rewrite Einst, Hacct in Hpass. discriminate. }
  assert (inst' = inst) as -> by congruence.
  assert (acct' = acct) as -> by congruence.
  assert (gen' = gen) as -> by congruence.
  rewrite Emk.
  destruct gen as [kp | msg]; cbn [fst snd];
    [| split; [reflexivity |]; split; [split; discriminate | by split; eauto]].
  cbv zeta.
  destruct (mk _ _ _ _) as [eip | msg]; cbn [fst snd];
    [| split; [reflexivity |]; split; [split; discriminate | by split; eauto]].
  destruct (signTypedData _ _ _ _) as [signature | msg]; cbn [fst snd];
    [| split; [reflexivity |]; split; [split; discriminate | by split; eauto]].
  cbn [map].
  destruct (userDecrypt _ _ _ _ _ _ _ _ _) as [[n | r] | msg]; cbn [fst snd];
    try (split; [reflexivity |]; split; [split; discriminate | by split; eauto]).
  cbn [extract]. destruct (property r (toString handle)) as [| v | name];
    cbn [app].
  - split; [reflexivity |]. split; [split; discriminate | by split; eauto].
  - split; [reflexivity |]. split.
    + intros value. split; intros H; inversion H; reflexivity.
    + split; intros [msg H]; discriminate.
  - split; [reflexivity |]. split; [split; discriminate | by split; eauto].
Qed.

End DisclosureInteractions.

(** ** The signature cache *)

Section SignatureCache.
Import Disclosure.
Variable toLowerCase : string -> string.

Lemma truthy_nonempty (s : string) : s <> "" -> truthy (Some s) = true.
Proof. intros H. cbn. by destruct s. Qed.

Lemma key_of_inj a b :
  FhevmDecryptionSignature.key_of toLowerCase a
  = FhevmDecryptionSignature.key_of toLowerCase b ->
  toLowerCase a = toLowerCase b.
Proof.
  unfold FhevmDecryptionSignature.key_of, SIGNATURE_CACHE_PREFIX.
  cbn [String.append]. intros H. by inversion H.
Qed.

Lemma key_of_prefix a :
  String.prefix SIGNATURE_CACHE_PREFIX
    (FhevmDecryptionSignature.key_of toLowerCase a) = true.
Proof. reflexivity. Qed.

(** X18. A stored signature is read back for the same account in any
    letter case: after [set(account, signature)] with both non-empty,
    [get(account')] returns that signature for every non-empty [account']
    with the same lower-casing. *)
Theorem X18_cache_round_trip (ls : gmap string string)
    (account account' signature : string) :
  account <> "" -> signature <> "" -> account' <> "" ->
  toLowerCase account' = toLowerCase account ->
  FhevmDecryptionSignature.get toLowerCase
    (FhevmDecryptionSignature.set toLowerCase ls account signature) account'
  = Some signature.
Proof.
  intros Ha Hs Ha' Hlower.
  unfold FhevmDecryptionSignature.get, FhevmDecryptionSignature.set.
  rewrite !truthy_nonempty by assumption. cbn [negb orb].
  unfold FhevmDecryptionSignature.key_of. rewrite Hlower.
  apply lookup_insert_eq.
Qed.

(** X19. [set] and [clear] touch one key only: every other key of the
    storage, and so the cached signature of every account with a different
    lower-casing, is left as it was; [set] with an empty account or an empty
    signature, and [clear] with an empty account, change nothing. *)
Theorem X19_cache_writes_are_local (ls : gmap string string)
    (account signature : string) :
  (forall k, k <> FhevmDecryptionSignature.key_of toLowerCase account ->
     FhevmDecryptionSignature.set toLowerCase ls account signature !! k = ls !! k
     /\ FhevmDecryptionSignature.clear toLowerCase ls account !! k = ls !! k)
  /\ (forall other,
        toLowerCase other <> toLowerCase account ->
        FhevmDecryptionSignature.get toLowerCase
          (FhevmDecryptionSignature.set toLowerCase ls account signature) other
        = FhevmDecryptionSignature.get toLowerCase ls other
        /\ FhevmDecryptionSignature.get toLowerCase
             (FhevmDecryptionSignature.clear toLowerCase ls account) other
           = FhevmDecryptionSignature.get toLowerCase ls other)
  /\ FhevmDecryptionSignature.set toLowerCase ls "" signature = ls
  /\ FhevmDecryptionSignature.set toLowerCase ls account "" = ls
  /\ FhevmDecryptionSignature.clear toLowerCase ls "" = ls.
Proof.
  assert (Hkeys : forall k, k <> FhevmDecryptionSignature.key_of toLowerCase account ->
            FhevmDecryptionSignature.set toLowerCase ls account signature !! k = ls !! k
            /\ FhevmDecryptionSignature.clear toLowerCase ls account !! k = ls !! k).
  { intros k Hk.
    unfold FhevmDecryptionSignature.set, FhevmDecryptionSignature.clear.
    destruct (negb (truthy (Some account))); cbn [orb]; [by split |].
    destruct (negb (truthy (Some signature)));
      [| rewrite lookup_insert_ne by done];
      by rewrite lookup_delete_ne by done. }
  split; [exact Hkeys |]. split.
  - intros other Hother. unfold FhevmDecryptionSignature.get.
    destruct (negb (truthy (Some other))); [by split |].
    apply Hkeys. intros Heq. by apply key_of_inj in Heq.
  - unfold FhevmDecryptionSignature.set, FhevmDecryptionSignature.clear.
    cbn. split; [reflexivity |]. split; [| reflexivity].
    by rewrite orb_true_r.
Qed.

(** X20. After [clear(account)] for a non-empty account, and after
    [clearSignature(account)] without a contract address or with an empty
    one, [get] returns [null] for that account in any letter case. *)
Theorem X20_clear_forgets_the_account (ls : gmap string string)
    (account account' : string) :
  account <> "" ->
  toLowerCase account' = toLowerCase account ->
  FhevmDecryptionSignature.get toLowerCase
    (FhevmDecryptionSignature.clear toLowerCase ls account) account'
  = None
  /\ FhevmDecryptionSignature.get toLowerCase
       (FhevmDecryptionSignature.clearSignature toLowerCase ls account None)
       account'
     = None
  /\ FhevmDecryptionSignature.get toLowerCase
       (FhevmDecryptionSignature.clearSignature toLowerCase ls account
          (Some ""))
       account'
     = None.
Proof.
  intros Ha Hlower.
  assert (H : FhevmDecryptionSignature.get toLowerCase
                (FhevmDecryptionSignature.clear toLowerCase ls account) account'
              = None).
  { unfold FhevmDecryptionSignature.get, FhevmDecryptionSignature.clear.
    rewrite (truthy_nonempty account) by assumption. cbn [negb].
    destruct (negb (truthy (Some account'))); [reflexivity |].
    unfold FhevmDecryptionSignature.key_of. rewrite Hlower.
    apply lookup_delete_eq. }
  by repeat split.
Qed.

Lemma collect_is_filter (P : string -> bool) (l acc : list string) :
  fold_left (fun keys key => if P key then keys ++ [key] else keys) l acc
  = acc ++ List.filter P l.
Proof.
  revert acc. induction l as [| k l IH]; intros acc; cbn [fold_left List.filter].
  - by rewrite app_nil_r.
  - rewrite IH. destruct (P k); [by rewrite <- app_assoc | reflexivity].
Qed.

Lemma remove_all_lookup (keys : list string) (ls : gmap string string) k :
  fold_left (fun ls key => delete key ls) keys ls !! k
  = if decide (k ∈ keys) then None else ls !! k.
Proof.
  revert ls. induction keys as [| key keys IH]; intros ls; cbn [fold_left].
  - rewrite decide_False by apply not_elem_of_nil. reflexivity.
  - rewrite IH.
    destruct (decide (k ∈ keys)) as [Hin | Hnin].
    + rewrite decide_True by (by right). reflexivity.
    + rewrite lookup_delete. destruct (decide (key = k)) as [-> | Hne].
      * rewrite decide_True by (by left). reflexivity.
      * rewrite decide_False; [reflexivity |].
        intros Hin. apply elem_of_cons in Hin as [-> | Hin]; done.
Qed.

Lemma in_localStorage_keys (ls : gmap string string) k :
  In k (localStorage_keys ls) <-> is_Some (ls !! k).
Proof.
  unfold localStorage_keys. rewrite in_map_iff. split.
  - intros ([k' v] & <- & Hin). exists v.
    by apply elem_of_map_to_list, list_elem_of_In.
  - intros [v Hv]. exists (k, v). split; [reflexivity |].
    by apply list_elem_of_In, elem_of_map_to_list.
Qed.

(** X21. [clearAll] removes exactly the keys that start with the cache
    prefix and leaves every other key of the storage with its value; after
    it, [get] returns [null] for every account. *)
Theorem X21_clearAll_removes_the_prefixed_keys (ls : gmap string string) :
  (forall k,
     FhevmDecryptionSignature.clearAll ls !! k
     = if String.prefix SIGNATURE_CACHE_PREFIX k then None else ls !! k)
  /\ (forall account,
        FhevmDecryptionSignature.get toLowerCase
          (FhevmDecryptionSignature.clearAll ls) account
        = None).
Proof.
  assert (Hkeys : forall k,
            FhevmDecryptionSignature.clearAll ls !! k
            = if String.prefix SIGNATURE_CACHE_PREFIX k then None else ls !! k).
  { intros k. unfold FhevmDecryptionSignature.clearAll.
    rewrite collect_is_filter. cbn [app]. rewrite remove_all_lookup.
    destruct (decide _) as [Hin | Hnin].
    - apply list_elem_of_In, filter_In in Hin as [_ ->]. reflexivity.
    - destruct (String.prefix SIGNATURE_CACHE_PREFIX k) eqn:Hp; [| reflexivity].
      destruct (ls !! k) as [v |] eqn:Hk; [| reflexivity].
      destruct Hnin. apply list_elem_of_In, filter_In. split; [| exact Hp].
      apply in_localStorage_keys. by exists v. }
  split; [exact Hkeys |].
  intros account. unfold FhevmDecryptionSignature.get.
  destruct (negb (truthy (Some account))); [reflexivity |].
  by rewrite Hkeys, key_of_prefix.
Qed.

End SignatureCache.

(** ** The hook's disclosure of a record *)

Section HookProofs.
Import Disclosure.
Variable number : Type.
Variable Number : Z -> number.
Variable NaN : number.

(** What a run on a non-empty batch guarantees, in the form the hook
    needs. *)
Lemma userDecryptBatch_summary c handles contractAddress signer log :
  handles <> [] ->
  exists outcome acts,
    userDecryptBatch c handles contractAddress signer log
    = (outcome, log ++ acts)
    /\ (signatures_requested acts <= 1)%nat
    /\ match outcome with
       | Returned values =>
           signatures_requested acts = 1%nat
           /\ exists (r : gmap string Z) inst pairs sk pk sig addrs user start dur,
               fhevmInstance c = Some inst
               /\ In (ActUserDecrypt pairs sk pk sig addrs user start dur) acts
               /\ userDecrypt inst pairs sk pk sig addrs user start dur
                  = Returned (ResultRecord r)
               /\ Forall2 (fun h v => r !! toString h = Some v) handles values
       | Thrown _ => True
       end.
Proof.
  intros Hne.
  destruct (userDecryptBatch_cases c handles contractAddress signer log Hne)
    as [[_ [msg ->]] | (inst & acct & gen & mk & Hinst & _ & _ & _ & _ & ->)].
  { exists (Thrown msg), []. rewrite app_nil_r. split; [reflexivity |].
    split; [cbn; lia | exact I]. }
  destruct gen as [kp | msg];
    [| eexists _, _; split; [reflexivity |]; split; [cbn; lia | exact I]].
  cbv zeta.
  destruct (mk _ _ _ _) as [eip | msg];
    [| eexists _, _; split; [reflexivity |]; split; [cbn; lia | exact I]].
  destruct (signTypedData _ _ _ _) as [signature | msg];
    [| eexists _, _; split; [reflexivity |]; split; [cbn; lia | exact I]].
  destruct (userDecrypt _ _ _ _ _ _ _ _ _) as [[n | r] | msg] eqn:Eoracle;
    try (eexists _, _; split; [reflexivity |]; split; [cbn; lia | exact I]).
  pose proof (extract_spec c r handles []) as Hext.
  eexists _, _. split; [reflexivity |]. split; [cbn; lia |].
  destruct (extract c r handles []) as [values | msg]; [| exact I].
  destruct Hext as (ws & -> & Hall). split; [reflexivity |].
  exists r, inst. do 8 eexists. split; [exact Hinst |].
  split; [do 3 right; left; reflexivity |]. split; [exact Eoracle | exact Hall].
Qed.

(** X22. [decryptRecord] discloses the five fields of a record with at most
    one signature.  When it returns, it has asked for exactly one, and each
    of the five numbers is [Number] of the oracle's entry for the handle of
    that field, in the order emotional, social, sleep, risk score, caution
    window; none is [NaN] from a missing value, and the timestamp is
    [Number] of the record's own timestamp.  Without a contract address or
    a provider it throws before any interaction. *)
Theorem X22_decryptRecord_one_signature_five_fields (c : Context)
    (contractAddress : option string) (ethersProvider : option EthersProvider)
    (record : HistoryRecord) (log : list Action) :
  exists outcome acts,
    decryptRecord number Number NaN c contractAddress ethersProvider record log
    = (outcome, log ++ acts)
    /\ (signatures_requested acts <= 1)%nat
    /\ match outcome with
       | Returned decrypted =>
           signatures_requested acts = 1%nat
           /\ exists (r : gmap string Z) inst pairs sk pk sig addrs user start
                 dur ve vs vp vr vc,
               fhevmInstance c = Some inst
               /\ In (ActUserDecrypt pairs sk pk sig addrs user start dur) acts
               /\ userDecrypt inst pairs sk pk sig addrs user start dur
                  = Returned (ResultRecord r)
               /\ r !! toString (emotional record) = Some ve
               /\ r !! toString (social record) = Some vs
               /\ r !! toString (sleep record) = Some vp
               /\ r !! toString (riskScore record) = Some vr
               /\ r !! toString (cautionWindow record) = Some vc
               /\ decrypted
                  = {| decrypted_emotional := Number ve;
                       decrypted_social := Number vs;
                       decrypted_sleep := Number vp;
                       decrypted_riskScore := Number vr;
                       decrypted_cautionWindow := Number vc;
                       decrypted_timestamp := Number (timestamp record) |}
       | Thrown _ => True
       end
    /\ (truthy contractAddress = false \/ ethersProvider = None ->
        acts = [] /\ outcome = Thrown "Contract not initialized").
Proof.
  unfold decryptRecord.
  assert (Hstop : forall l : list Action,
    exists outcome acts,
      (Thrown "Contract not initialized" : Outcome (DecryptedRecord number), l)
      = (outcome, l ++ acts)
      /\ (signatures_requested acts <= 1)%nat
      /\ match outcome with
         | Returned _ => False
         | Thrown _ => True
         end
      /\ acts = [] /\ outcome = Thrown "Contract not initialized").
  { intros l. exists (Thrown "Contract not initialized"), [].
    rewrite app_nil_r. split; [reflexivity |]. split; [cbn; lia |]. by split. }
  destruct contractAddress as [addr |].
  2:{ destruct (Hstop log) as (o & a & E & Hle & Ho & Ha & Hmsg).
      exists o, a. subst o a.
      destruct ethersProvider; (split; [exact E |]); by repeat split. }
  destruct ethersProvider as [prov |].
  2:{ destruct (Hstop log) as (o & a & E & Hle & Ho & Ha & Hmsg).
      exists o, a. subst o a. (split; [exact E |]); by repeat split. }
  destruct (truthy (Some addr)) eqn:Et; cbn [negb].
  2:{ destruct (Hstop log) as (o & a & E & Hle & Ho & Ha & Hmsg).
      exists o, a. subst o a. (split; [exact E |]); by repeat split. }
  unfold dbind at 1. destruct (getSigner prov) as [signer | msg].
  2:{ exists (Thrown msg), []. rewrite app_nil_r.
      split; [reflexivity |]. split; [cbn; lia |]. split; [exact I |].
      intros [H | H]; discriminate. }
  unfold dbind, dret.
  destruct (userDecryptBatch_summary c
              [emotional record; social record; sleep record; riskScore record;
               cautionWindow record] addr signer log)
    as (outcome & acts & -> & Hle & Hout); [discriminate |].
  destruct outcome as [values | msg].
  - destruct Hout as [Hone (r & inst & pairs & sk & pk & sig & addrs & user
                             & start & dur & Hinst & Hact & Horacle & Hall)].
    eexists _, acts. split; [reflexivity |]. split; [exact Hle |].
    split; [| intros [H | H]; discriminate].
    split; [exact Hone |].
    inversion Hall as [| ? ve ? l1 He H1]; subst.
    inversion H1 as [| ? vs ? l2 Hs H2]; subst.
    inversion H2 as [| ? vp ? l3 Hp H3]; subst.
    inversion H3 as [| ? vr ? l4 Hr H4]; subst.
    inversion H4 as [| ? vc ? l5 Hc H5]; subst.
    inversion H5; subst.
    exists r, inst, pairs, sk, pk, sig, addrs, user, start, dur.
    exists ve, vs, vp, vr, vc. by repeat split.
  - exists (Thrown msg), acts. split; [reflexivity |]. split; [exact Hle |].
    split; [exact I |]. intros [H | H]; discriminate.
Qed.

End HookProofs.

(** ** Examples on concrete inputs *)

Section Examples.
Import BambooHoldSpeech.

(** The four threshold edges, on inputs inside [0,100]. *)
Example classifier_at_1109 :
  let '(score, tier) :=
    _calculateRiskScore (FHE.asEuint16 2) (FHE.asEuint16 50) (FHE.asEuint16 39) in
  FHE.plain Sample.inputPlain score = 1109 /\ FHE.plain Sample.inputPlain tier = 0.
Proof. split; reflexivity. Qed.

Example classifier_at_1110 :
  let '(score, tier) :=
    _calculateRiskScore (FHE.asEuint16 0) (FHE.asEuint16 0) (FHE.asEuint16 74) in
  FHE.plain Sample.inputPlain score = 1110 /\ FHE.plain Sample.inputPlain tier = 1.
Proof. split; reflexivity. Qed.

Example classifier_at_1849 :
  let '(score, tier) :=
    _calculateRiskScore (FHE.asEuint16 2) (FHE.asEuint16 100) (FHE.asEuint16 55) in
  FHE.plain Sample.inputPlain score = 1849 /\ FHE.plain Sample.inputPlain tier = 1.
Proof. split; reflexivity. Qed.

Example classifier_at_1850 :
  let '(score, tier) :=
    _calculateRiskScore (FHE.asEuint16 0) (FHE.asEuint16 35) (FHE.asEuint16 100) in
  FHE.plain Sample.inputPlain score = 1850 /\ FHE.plain Sample.inputPlain tier = 2.
Proof. split; reflexivity. Qed.

(** Outside the domain the 16-bit sum wraps: 65535 * 12 is reduced modulo
    65536, and the tier is still one of the three levels. *)
Example classifier_wraps_outside_domain :
  let '(score, tier) :=
    _calculateRiskScore (FHE.asEuint16 65535) (FHE.asEuint16 0) (FHE.asEuint16 0) in
  FHE.plain Sample.inputPlain score = 65524 /\ FHE.plain Sample.inputPlain tier = 2.
Proof. split; reflexivity. Qed.

(** One submission by Alice, then the accessors: her count is 1, her
    summary carries the block time, her stored score decrypts to 1109 and
    her tier to 0, index 0 holds her record and index 999 is out of bounds;
    Bob, who has not submitted, gets "No metrics submitted yet". *)
Example after_one_submission :
  let st := run Sample.deployment [Sample.alice_submits] initial in
  getHistoryCount Sample.alice st = Ok 1%N
  /\ getSummary Sample.alice st = Ok (1%N, 1700000000%N)
  /\ (FHE.plain Sample.inputPlain <$> getRiskScore Sample.alice st) = Ok 1109
  /\ (FHE.plain Sample.inputPlain <$> getCautionWindow Sample.alice st) = Ok 0
  /\ getMetricsAtIndex Sample.alice 0%N st
     = Ok (record_fields (new_record Sample.alice 10%N 11%N 12%N))
  /\ getMetricsAtIndex Sample.alice 999%N st = Reverted IndexOutOfBounds
  /\ getRiskScore Sample.bob st = Reverted NoSubmission
  /\ events st = [MetricsSubmitted 1%N 1700000000%N 0%N;
                  CautionWindowUpdated 1%N 1700000000%N].
Proof. vm_compute. repeat split. Qed.

(** A batch of five handles: one signature, five plaintexts in order. *)
Example batch_of_five :
  Disclosure.userDecryptBatch Disclosure.sample_context
    Disclosure.sample_handles Disclosure.sample_contract
    Disclosure.sample_signer []
  = (Disclosure.Returned [45; 30; 50; 1590; 1],
     [Disclosure.ActGenerateKeypair;
      Disclosure.ActCreateEIP712 "pk" [Disclosure.sample_contract] 1700000000 365;
      Disclosure.ActSignTypedData "domain" "types" "message";
      Disclosure.ActUserDecrypt
        (map (fun h => (Disclosure.toString h, Disclosure.sample_contract))
           Disclosure.sample_handles)
        "sk" "pk" "signature" [Disclosure.sample_contract] "0xA11CE"
        1700000000 365]).
Proof. vm_compute. reflexivity. Qed.

(** The length of a contract address is counted in UTF-16 code units: an
    address of 43 bytes and 42 units passes the guard, one of 42 bytes and
    22 units is stopped before any interaction. *)
Example address_length_in_code_units :
  String.length Disclosure.address_of_42_units = 43%nat
  /\ Disclosure.utf16_length Disclosure.address_of_42_units = 42%nat
  /\ fst (Disclosure.userDecryptBatch Disclosure.sample_context
            Disclosure.sample_handles Disclosure.address_of_42_units
            Disclosure.sample_signer [])
     = Disclosure.Returned [45; 30; 50; 1590; 1]
  /\ String.length Disclosure.address_of_42_bytes = 42%nat
  /\ Disclosure.utf16_length Disclosure.address_of_42_bytes = 22%nat
  /\ Disclosure.userDecryptBatch Disclosure.sample_context
       Disclosure.sample_handles Disclosure.address_of_42_bytes
       Disclosure.sample_signer []
     = (Disclosure.Thrown
          ("Invalid contractAddress format: "
           ++ Disclosure.address_of_42_bytes)%string,
        []).
Proof. vm_compute. repeat split. Qed.

(** A handle named like a member every object inherits is not [undefined]
    in the empty answer: the run ends in the error of [BigInt], where a
    handle of any other name ends in "Failed to decrypt handle". *)
Example inherited_member_is_not_undefined :
  fst (Disclosure.Provider.userDecrypt Disclosure.empty_answer_context
         (Disclosure.HandleString "toString") Disclosure.sample_contract
         Disclosure.sample_signer [])
  = Disclosure.Thrown (Disclosure.sample_BigInt_SyntaxError "toString")
  /\ fst (Disclosure.userDecryptBatch Disclosure.empty_answer_context
            [Disclosure.HandleString "0xe1"; Disclosure.HandleString "toString"]
            Disclosure.sample_contract Disclosure.sample_signer [])
     = Disclosure.Thrown "Failed to decrypt handle 0xe1"
  /\ fst (Disclosure.userDecryptBatch Disclosure.empty_answer_context
            [Disclosure.HandleString "__proto__"; Disclosure.HandleString "0xe1"]
            Disclosure.sample_contract Disclosure.sample_signer [])
     = Disclosure.Thrown (Disclosure.sample_BigInt_SyntaxError "__proto__")
  /\ fst (Disclosure.Provider.userDecrypt Disclosure.empty_answer_context
            (Disclosure.HandleString "0xe1") Disclosure.sample_contract
            Disclosure.sample_signer [])
     = Disclosure.Thrown "Failed to decrypt handle".
Proof. vm_compute. repeat split. Qed.

End Examples.

(** ** Instances of the conditional theorems, and the refuted readings *)

Section Instances.
Import BambooHoldSpeech.

Lemma C1_witness :
  let plain := FHE.plain Sample.inputPlain in
  (0 <= plain (HInput 10) <= 100 /\ 0 <= plain (HInput 11) <= 100
   /\ 0 <= plain (HInput 12) <= 100)
  /\ plain (fst (_calculateRiskScore (HInput 10) (HInput 11) (HInput 12))) = 1109
  /\ plain (snd (_calculateRiskScore (HInput 10) (HInput 11) (HInput 12))) = 0.
Proof.
  cbv zeta.
  assert (E10 : FHE.plain Sample.inputPlain (HInput 10) = 2) by reflexivity.
  assert (E11 : FHE.plain Sample.inputPlain (HInput 11) = 50) by reflexivity.
  assert (E12 : FHE.plain Sample.inputPlain (HInput 12) = 39) by reflexivity.
  assert (H10 : 0 <= FHE.plain Sample.inputPlain (HInput 10) <= 100)
    by (rewrite E10; lia).
  assert (H11 : 0 <= FHE.plain Sample.inputPlain (HInput 11) <= 100)
    by (rewrite E11; lia).
  assert (H12 : 0 <= FHE.plain Sample.inputPlain (HInput 12) <= 100)
    by (rewrite E12; lia).
  destruct (C1_score_and_tier Sample.inputPlain (HInput 10) (HInput 11)
              (HInput 12) H10 H11 H12) as (Hscore & Htier & _).
  rewrite E10, E11, E12 in Hscore, Htier.
  split; [auto |]. split; [exact Hscore | exact Htier].
Defined.

Lemma C7_witness :
  let plain := FHE.plain Sample.inputPlain in
  (0 <= plain (HInput 10) <= 100 /\ 0 <= plain (HInput 11) <= 100
   /\ 0 <= plain (HInput 12) <= 100)
  /\ Forall (fun step => fits step /\ 0 <= fst step <= 3700)
       (arith_steps Sample.inputPlain
          (fst (_calculateRiskScore (HInput 10) (HInput 11) (HInput 12)))).
Proof.
  cbv zeta.
  assert (E10 : FHE.plain Sample.inputPlain (HInput 10) = 2) by reflexivity.
  assert (E11 : FHE.plain Sample.inputPlain (HInput 11) = 50) by reflexivity.
  assert (E12 : FHE.plain Sample.inputPlain (HInput 12) = 39) by reflexivity.
  assert (H10 : 0 <= FHE.plain Sample.inputPlain (HInput 10) <= 100)
    by (rewrite E10; lia).
  assert (H11 : 0 <= FHE.plain Sample.inputPlain (HInput 11) <= 100)
    by (rewrite E11; lia).
  assert (H12 : 0 <= FHE.plain Sample.inputPlain (HInput 12) <= 100)
    by (rewrite E12; lia).
  destruct (C7_no_step_wraps Sample.inputPlain 10%N 11%N 12%N H10 H11 H12)
    as (_ & Hall & _).
  split; [auto | exact Hall].
Defined.

Lemma sample_trace_valid : Forall valid_tx [Sample.alice_submits].
Proof. constructor; [split; reflexivity | constructor]. Defined.

Lemma C5_witness :
  Forall valid_tx [Sample.alice_submits]
  /\ (0 < successful_submits Sample.deployment (msg_sender Sample.alice)
            [Sample.alice_submits] initial)%nat
  /\ exists record,
      last (userHistoryOf (run Sample.deployment [Sample.alice_submits] initial)
              (msg_sender Sample.alice)) = Some record
      /\ latest_accessors_return record Sample.alice
           (run Sample.deployment [Sample.alice_submits] initial).
Proof.
  assert (Hsome : (0 < successful_submits Sample.deployment
                         (msg_sender Sample.alice) [Sample.alice_submits]
                         initial)%nat) by (vm_compute; lia).
  split; [exact sample_trace_valid |]. split; [exact Hsome |].
  exact (proj2 (C5_latest_accessors Sample.deployment [Sample.alice_submits]
                  Sample.alice sample_trace_valid) Hsome).
Defined.

Lemma C6_witness :
  successful_submits Sample.deployment (msg_sender Sample.bob)
    [Sample.alice_submits] initial = 0%nat
  /\ latest_accessors_revert NoSubmission Sample.bob
       (run Sample.deployment [Sample.alice_submits] initial)
  /\ (forall index,
        getMetricsAtIndex Sample.bob index
          (run Sample.deployment [Sample.alice_submits] initial)
        = Reverted IndexOutOfBounds)
  /\ IndexOutOfBounds <> NoSubmission
  /\ getHistoryCount Sample.bob
       (run Sample.deployment [Sample.alice_submits] initial) = Ok 0%N
  /\ getSummary Sample.bob
       (run Sample.deployment [Sample.alice_submits] initial) = Ok (0%N, 0%N).
Proof.
  assert (Hnone : successful_submits Sample.deployment (msg_sender Sample.bob)
                    [Sample.alice_submits] initial = 0%nat) by reflexivity.
  split; [exact Hnone |].
  exact (C6_accessors_before_first_submit Sample.deployment
           [Sample.alice_submits] Sample.bob Hnone).
Defined.

(** Refuted reading of C6: in the deployed state, where nobody has submitted,
    [getHistoryCount] and [getSummary] return instead of reverting, and
    [getMetricsAtIndex] reverts with "Index out of bounds". *)
Lemma C6_counterexample :
  successful_submits Sample.deployment (msg_sender Sample.alice) [] initial = 0%nat
  /\ getHistoryCount Sample.alice (run Sample.deployment [] initial) = Ok 0%N
  /\ getSummary Sample.alice (run Sample.deployment [] initial) = Ok (0%N, 0%N)
  /\ getMetricsAtIndex Sample.alice 0%N (run Sample.deployment [] initial)
     = Reverted (Error "Index out of bounds").
Proof. repeat split. Qed.

Lemma C10_witness :
  msg_sender (tx_ctx Sample.alice_submits) <> msg_sender Sample.bob
  /\ userHistoryOf (execute Sample.deployment Sample.alice_submits initial)
       (msg_sender Sample.bob)
     = userHistoryOf initial (msg_sender Sample.bob)
  /\ latestMetricsOf (execute Sample.deployment Sample.alice_submits initial)
       (msg_sender Sample.bob)
     = latestMetricsOf initial (msg_sender Sample.bob)
  /\ submissionCountOf (execute Sample.deployment Sample.alice_submits initial)
       (msg_sender Sample.bob)
     = submissionCountOf initial (msg_sender Sample.bob).
Proof.
  assert (Hne : msg_sender (tx_ctx Sample.alice_submits) <> msg_sender Sample.bob)
    by discriminate.
  destruct (C10_other_principals_untouched Sample.deployment
              Sample.alice_submits initial (msg_sender Sample.bob) Hne)
    as (H1 & H2 & H3 & _).
  split; [exact Hne |]. split; [exact H1 |]. split; [exact H2 | exact H3].
Defined.

Lemma C8_witness :
  Disclosure.sample_handles <> []
  /\ exists outcome acts,
      Disclosure.userDecryptBatch Disclosure.sample_context
        Disclosure.sample_handles Disclosure.sample_contract
        Disclosure.sample_signer []
      = (outcome, [] ++ acts)
      /\ (Disclosure.signatures_requested acts <= 1)%nat.
Proof.
  assert (Hne : Disclosure.sample_handles <> []) by discriminate.
  destruct (C8_one_signature_all_or_nothing Disclosure.sample_context
              Disclosure.sample_handles Disclosure.sample_contract
              Disclosure.sample_signer [] Hne)
    as (outcome & acts & Erun & Hle & _).
  split; [exact Hne |]. exists outcome, acts. split; [exact Erun | exact Hle].
Defined.

(** Refuted reading of C8: with no FHEVM instance a batch of five handles
    throws at the first guard, and the wallet is asked for no signature. *)
Lemma C8_counterexample :
  length Disclosure.sample_handles = 5%nat
  /\ Disclosure.userDecryptBatch Disclosure.uninitialised_context
       Disclosure.sample_handles Disclosure.sample_contract
       Disclosure.sample_signer []
     = (Disclosure.Thrown "FHEVM instance not initialized", [])
  /\ Disclosure.signatures_requested [] = 0%nat.
Proof. repeat split. Qed.

End Instances.

(** ** Instances of the further conditional theorems *)

Section FurtherInstances.
Import BambooHoldSpeech.

(** The busy trace, run: two records for Alice, one for Bob, six events in
    order, and the ledger as the submissions left it. *)
Example busy_trace_runs :
  let st := run Sample.deployment Sample.busy_trace initial in
  getHistoryCount Sample.alice st = Ok 2%N
  /\ getHistoryCount Sample.bob st = Ok 1%N
  /\ getLastUpdateTimestamp Sample.alice st = Ok 1700000120%N
  /\ events st
     = [MetricsSubmitted 1%N 1700000000%N 0%N;
        CautionWindowUpdated 1%N 1700000000%N;
        MetricsSubmitted 2%N 1700000060%N 0%N;
        CautionWindowUpdated 2%N 1700000060%N;
        MetricsSubmitted 1%N 1700000120%N 1%N;
        CautionWindowUpdated 1%N 1700000120%N]
  /\ length (acl st) = 75%nat.
Proof. vm_compute. repeat split. Qed.

Lemma X5_witness :
  In (new_record Sample.alice 10%N 11%N 12%N)
     (userHistoryOf (run Sample.deployment [Sample.alice_submits] initial) 1%N)
  /\ In (HInput 10) (record_handles (new_record Sample.alice 10%N 11%N 12%N))
  /\ isAllowed (run Sample.deployment [Sample.alice_submits] initial)
       (HInput 10) 1%N
  /\ isAllowed (run Sample.deployment [Sample.alice_submits] initial)
       (HInput 10) (this Sample.deployment).
Proof.
  assert (Hr : In (new_record Sample.alice 10%N 11%N 12%N)
                 (userHistoryOf
                    (run Sample.deployment [Sample.alice_submits] initial) 1%N))
    by (left; reflexivity).
  assert (Hh : In (HInput 10)
                 (record_handles (new_record Sample.alice 10%N 11%N 12%N)))
    by (left; reflexivity).
  split; [exact Hr |]. split; [exact Hh |].
  exact (X5_stored_handles_are_granted Sample.deployment [Sample.alice_submits]
           1%N _ _ Hr Hh).
Defined.

Lemma X8_witness :
  Forall valid_tx [Sample.alice_submits]
  /\ forall record,
      last (userHistoryOf (run Sample.deployment [Sample.alice_submits] initial)
              (msg_sender Sample.alice)) = Some record ->
      getLastUpdateTimestamp Sample.alice
        (run Sample.deployment [Sample.alice_submits] initial)
      = Ok (timestamp record)
      /\ (0 < timestamp record)%N.
Proof.
  split; [exact sample_trace_valid |].
  exact (proj2 (X8_last_timestamp_is_a_sentinel Sample.deployment
                  [Sample.alice_submits] Sample.alice sample_trace_valid)).
Defined.

Lemma X10_witness :
  In (new_record Sample.alice 10%N 11%N 12%N)
     (userHistoryOf (run Sample.deployment [Sample.alice_submits] initial) 1%N)
  /\ exists inputEmotional inputSocial inputSleep,
      emotionalFluctuation (new_record Sample.alice 10%N 11%N 12%N)
      = HInput inputEmotional
      /\ socialFatigue (new_record Sample.alice 10%N 11%N 12%N)
         = HInput inputSocial
      /\ sleepDebt (new_record Sample.alice 10%N 11%N 12%N)
         = HInput inputSleep.
Proof.
  assert (Hr : In (new_record Sample.alice 10%N 11%N 12%N)
                 (userHistoryOf
                    (run Sample.deployment [Sample.alice_submits] initial) 1%N))
    by (left; reflexivity).
  split; [exact Hr |].
  destruct (X10_stored_records_are_classified Sample.deployment
              [Sample.alice_submits] 1%N _ Hr)
    as (e & s & q & proof & _ & _ & _ & He & Hs & Hq & _).
  exists e, s, q. split; [exact He |]. split; [exact Hs | exact Hq].
Defined.

Lemma X12_witness :
  let plain := FHE.plain Sample.inputPlain in
  (0 <= plain (HInput 10) <= plain (FHE.asEuint16 100)
   /\ plain (FHE.asEuint16 100) <= 100
   /\ 0 <= plain (HInput 11) <= plain (FHE.asEuint16 60)
   /\ plain (FHE.asEuint16 60) <= 100
   /\ 0 <= plain (HInput 12) <= plain (FHE.asEuint16 39)
   /\ plain (FHE.asEuint16 39) <= 100)
  /\ plain (fst (_calculateRiskScore (HInput 10) (HInput 11) (HInput 12)))
     <= plain (fst (_calculateRiskScore (FHE.asEuint16 100) (FHE.asEuint16 60)
                      (FHE.asEuint16 39)))
  /\ plain (snd (_calculateRiskScore (HInput 10) (HInput 11) (HInput 12)))
     <= plain (snd (_calculateRiskScore (FHE.asEuint16 100) (FHE.asEuint16 60)
                      (FHE.asEuint16 39))).
Proof.
  cbv zeta.
  assert (E10 : FHE.plain Sample.inputPlain (HInput 10) = 2) by reflexivity.
  assert (E11 : FHE.plain Sample.inputPlain (HInput 11) = 50) by reflexivity.
  assert (E12 : FHE.plain Sample.inputPlain (HInput 12) = 39) by reflexivity.
  assert (F1 : FHE.plain Sample.inputPlain (FHE.asEuint16 100) = 100)
    by reflexivity.
  assert (F2 : FHE.plain Sample.inputPlain (FHE.asEuint16 60) = 60)
    by reflexivity.
  assert (F3 : FHE.plain Sample.inputPlain (FHE.asEuint16 39) = 39)
    by reflexivity.
  assert (H1 : 0 <= FHE.plain Sample.inputPlain (HInput 10)
               <= FHE.plain Sample.inputPlain (FHE.asEuint16 100))
    by (rewrite E10, F1; lia).
  assert (H1' : FHE.plain Sample.inputPlain (FHE.asEuint16 100) <= 100)
    by (rewrite F1; lia).
  assert (H2 : 0 <= FHE.plain Sample.inputPlain (HInput 11)
               <= FHE.plain Sample.inputPlain (FHE.asEuint16 60))
    by (rewrite E11, F2; lia).
  assert (H2' : FHE.plain Sample.inputPlain (FHE.asEuint16 60) <= 100)
    by (rewrite F2; lia).
  assert (H3 : 0 <= FHE.plain Sample.inputPlain (HInput 12)
               <= FHE.plain Sample.inputPlain (FHE.asEuint16 39))
    by (rewrite E12, F3; lia).
  assert (H3' : FHE.plain Sample.inputPlain (FHE.asEuint16 39) <= 100)
    by (rewrite F3; lia).
  split; [auto 10 |].
  exact (X12_classifier_is_monotone Sample.inputPlain _ _ _ _ _ _
           H1 H1' H2 H2' H3 H3').
Defined.

Lemma busy_trace_times_sorted :
  StronglySorted N.le (block_times Sample.busy_trace).
Proof.
  unfold block_times, Sample.busy_trace. cbn [map].
  repeat first [ apply SSorted_nil | apply SSorted_cons
               | apply List.Forall_nil | apply List.Forall_cons ];
    cbn; lia.
Defined.

Lemma X13_witness :
  StronglySorted N.le (block_times Sample.busy_trace)
  /\ StronglySorted N.le
       (timestamp
          <$> userHistoryOf (run Sample.deployment Sample.busy_trace initial)
                1%N).
Proof.
  split; [exact busy_trace_times_sorted |].
  exact (X13_histories_are_chronological Sample.deployment Sample.busy_trace
           1%N busy_trace_times_sorted).
Defined.

Lemma X15_witness :
  Disclosure.sample_handles <> []
  /\ exists outcome acts,
      Disclosure.userDecryptBatch Disclosure.sample_context
        Disclosure.sample_handles Disclosure.sample_contract
        Disclosure.sample_signer []
      = (outcome, [] ++ acts)
      /\ (length (List.filter Disclosure.is_oracle_request acts) <= 1)%nat.
Proof.
  assert (Hne : Disclosure.sample_handles <> []) by discriminate.
  destruct (X15_oracle_request_follows_the_signature Disclosure.sample_context
              Disclosure.sample_handles Disclosure.sample_contract
              Disclosure.sample_signer [] Hne)
    as (outcome & acts & Erun & Hle & _).
  split; [exact Hne |]. exists outcome, acts. split; [exact Erun | exact Hle].
Defined.

Lemma X17_witness :
  Disclosure.checks_pass Disclosure.sample_context Disclosure.sample_contract
  = true
  /\ snd (Disclosure.Provider.userDecrypt Disclosure.sample_context
            (Disclosure.HandleString "0xe4") Disclosure.sample_contract
            Disclosure.sample_signer [])
     = snd (Disclosure.userDecryptBatch Disclosure.sample_context
              [Disclosure.HandleString "0xe4"] Disclosure.sample_contract
              Disclosure.sample_signer []).
Proof.
  assert (Hpass : Disclosure.checks_pass Disclosure.sample_context
                    Disclosure.sample_contract = true) by reflexivity.
  split; [exact Hpass |].
  exact (proj1 (X17_single_agrees_with_batch_of_one Disclosure.sample_context
                  (Disclosure.HandleString "0xe4") Disclosure.sample_contract
                  Disclosure.sample_signer [] Hpass)).
Defined.

Lemma X18_witness :
  ("0xA11CE" <> "" /\ "signature" <> "" /\ "0xa11ce" <> ""
   /\ Disclosure.ascii_toLowerCase "0xa11ce"
      = Disclosure.ascii_toLowerCase "0xA11CE")
  /\ Disclosure.FhevmDecryptionSignature.get Disclosure.ascii_toLowerCase
       (Disclosure.FhevmDecryptionSignature.set Disclosure.ascii_toLowerCase
          ∅ "0xA11CE" "signature")
       "0xa11ce"
     = Some "signature".
Proof.
  assert (H1 : "0xA11CE" <> "") by discriminate.
  assert (H2 : "signature" <> "") by discriminate.
  assert (H3 : "0xa11ce" <> "") by discriminate.
  assert (H4 : Disclosure.ascii_toLowerCase "0xa11ce"
               = Disclosure.ascii_toLowerCase "0xA11CE") by reflexivity.
  split; [auto |].
  exact (X18_cache_round_trip Disclosure.ascii_toLowerCase ∅ _ _ _ H1 H2 H3 H4).
Defined.

Lemma X20_witness :
  ("0xA11CE" <> ""
   /\ Disclosure.ascii_toLowerCase "0xa11ce"
      = Disclosure.ascii_toLowerCase "0xA11CE")
  /\ Disclosure.FhevmDecryptionSignature.get Disclosure.ascii_toLowerCase
       (Disclosure.FhevmDecryptionSignature.clear Disclosure.ascii_toLowerCase
          (Disclosure.FhevmDecryptionSignature.set Disclosure.ascii_toLowerCase
             ∅ "0xA11CE" "signature")
          "0xA11CE")
       "0xa11ce"
     = None.
Proof.
  assert (H1 : "0xA11CE" <> "") by discriminate.
  assert (H2 : Disclosure.ascii_toLowerCase "0xa11ce"
               = Disclosure.ascii_toLowerCase "0xA11CE") by reflexivity.
  split; [auto |].
  exact (proj1 (X20_clear_forgets_the_account Disclosure.ascii_toLowerCase
                  _ _ _ H1 H2)).
Defined.

End FurtherInstances.
